(** * kintone MCP Lambda handlers: envelope detection, tool-name resolution,
      dispatch and response rendering

    Shallow embedding of the two Lambda entry points of the repository:

    - [MultiEnvelope.handler]: [src/MyKintone/src/index.ts], the handler that
      accepts eleven calling conventions;
    - [Compact.handler]: the TypeScript entry point in [src/unnamed/part_000],
      the handler with three calling conventions and the helper
      [extractToolName].

    Both files share [getKintoneConfig], the three Zod schemas and the class
    [KintoneTools]; these are embedded once.

    JavaScript values are embedded as the JSON fragment the Lambda runtime
    delivers (numbers are integers); strings are the UTF-8 bytes of the text,
    which is faithful for the ASCII literals the handlers search for.  The
    event of a handler has the type [any]: it is a [value], which the runtime
    decodes from the payload, so it may be [null], a primitive or an array as
    well as an object.  An exception is an explicit constructor of [flow];
    the kintone REST client and its constructor, [JSON.parse],
    [JSON.stringify], the clock and the texts of engine-made messages are the
    fields of a [Platform]. *)

From Stdlib Require Import String Ascii List ZArith Lia Bool DecimalString.
Import ListNotations.
Open Scope string_scope.
Set Warnings "-register-all".

(* ================================================================== *)
(** ** String methods used by the handlers *)
(* ================================================================== *)

Module JsString.

(** [s.startsWith(p)] *)
Definition startsWith (s p : string) : bool := String.prefix p s.

Fixpoint drop (n : nat) (s : string) : string :=
  match n, s with
  | O, _ => s
  | S _, EmptyString => EmptyString
  | S k, String _ r => drop k r
  end.

Fixpoint take (n : nat) (s : string) : string :=
  match n, s with
  | O, _ => EmptyString
  | S _, EmptyString => EmptyString
  | S k, String c r => String c (take k r)
  end.

(** Position of the first occurrence of [p] in [s], scanning from 0. *)
Fixpoint find (s p : string) : option nat :=
  if startsWith s p then Some O
  else match s with
       | EmptyString => None
       | String _ r => option_map S (find r p)
       end.

(** [s.indexOf(p)]: -1 when [p] does not occur. *)
Definition indexOf (s p : string) : Z :=
  match find s p with
  | Some i => Z.of_nat i
  | None => (-1)%Z
  end.

(** [s.includes(p)] *)
Definition includes (s p : string) : bool :=
  match find s p with Some _ => true | None => false end.

(** [s.substring(start)]: a negative start counts as 0, a start beyond the
    end gives the empty string. *)
Definition substring (s : string) (start : Z) : string :=
  drop (Z.to_nat start) s.

(** [s.replace(p, r)] for a string pattern [p] and a replacement text [r]
    without [$]: only the first occurrence is replaced. *)
Definition replace (s p r : string) : string :=
  match find s p with
  | None => s
  | Some i => take i s ++ r ++ drop (i + String.length p) s
  end.

(** [s.split(d)] for a non-empty separator: cut at each occurrence found
    scanning left to right.  The recursion is on a bound for the number of
    cuts; [split] supplies one more than the length of [s]. *)
Fixpoint split_upto (cuts : nat) (s d : string) : list string :=
  match cuts with
  | O => [s]
  | S k =>
      match find s d with
      | None => [s]
      | Some i => take i s :: split_upto k (drop (i + String.length d) s) d
      end
  end.

Definition split (s d : string) : list string :=
  split_upto (S (String.length s)) s d.

End JsString.

(* ================================================================== *)
(** ** JavaScript values *)
(* ================================================================== *)

(** The values a decoded JSON payload is made of, plus [VHost]: an object of
    the host (a built-in function or [Object.prototype] itself) that a
    computed property lookup on an object literal reaches through the
    prototype chain. *)
Inductive value : Type :=
| VUndefined
| VNull
| VBool (b : bool)
| VNumber (n : Z)
| VString (s : string)
| VArray (items : list value)
| VObject (fields : list (string * value))
| VHost (name : string).

Definition object := list (string * value).

(** Own property [k] of an object; [undefined] when absent. *)
Fixpoint field (o : object) (k : string) : value :=
  match o with
  | [] => VUndefined
  | (k', v) :: rest => if String.eqb k' k then v else field rest k
  end.

Fixpoint has_key (o : object) (k : string) : bool :=
  match o with
  | [] => false
  | (k', _) :: rest => String.eqb k' k || has_key rest k
  end.

(** The host objects are functions, but for [Object.prototype], which the
    name [__proto__] reaches. *)
Definition is_function (v : value) : bool :=
  match v with
  | VHost k => negb (String.eqb k "__proto__")
  | _ => false
  end.

(** [typeof v] *)
Definition typeof (v : value) : string :=
  match v with
  | VUndefined => "undefined"
  | VBool _ => "boolean"
  | VNumber _ => "number"
  | VString _ => "string"
  | VNull | VArray _ | VObject _ => "object"
  | VHost _ => if is_function v then "function" else "object"
  end.

(** The index keys ["0"], ["1"], ... of an array or of a string. *)
Definition indices (n : nat) : list string :=
  map (fun i => NilZero.string_of_uint (Nat.to_uint i)) (seq 0 n).

(** The number of UTF-16 code units of the text whose UTF-8 bytes are [s]:
    one for each byte that starts a character, and one more where the
    character takes four bytes. *)
Fixpoint code_units (s : string) : nat :=
  match s with
  | EmptyString => 0
  | String c r =>
      (if Nat.ltb (nat_of_ascii c) 128 || Nat.leb 192 (nat_of_ascii c)
       then 1 else 0)
      + (if Nat.leb 240 (nat_of_ascii c) then 1 else 0)
      + code_units r
  end.

(** The own enumerable keys of a value other than [undefined] and [null]:
    the keys of an object, the indices of an array or of a string, none for
    a number or a boolean. *)
Definition own_keys (v : value) : list string :=
  match v with
  | VObject o => map fst o
  | VArray items => indices (List.length items)
  | VString s => indices (code_units s)
  | _ => []
  end.

(** ToBoolean *)
Definition truthy (v : value) : bool :=
  match v with
  | VUndefined | VNull => false
  | VBool b => b
  | VNumber n => negb (Z.eqb n 0)
  | VString s => negb (String.eqb s "")
  | VArray _ | VObject _ | VHost _ => true
  end.

(** [a || b] *)
Definition or_else (a b : value) : value := if truthy a then a else b.

(** [a ?? b] *)
Definition coalesce (a b : value) : value :=
  match a with
  | VUndefined | VNull => b
  | _ => a
  end.

(** [a === b] against a string literal *)
Definition is_string (v : value) (lit : string) : bool :=
  match v with
  | VString s => String.eqb s lit
  | _ => false
  end.

(** [v?.k], and [v.k] where [v] is known to be neither [undefined] nor
    [null]: [undefined] on [undefined] and [null]; a primitive, an array or
    a host object has none of the data properties the handlers read. *)
Definition opt (v : value) (k : string) : value :=
  match v with
  | VObject o => field o k
  | _ => VUndefined
  end.

(** Names every object literal inherits from [Object.prototype]. *)
Definition Object_prototype_names : list string :=
  [ "constructor"; "__defineGetter__"; "__defineSetter__"; "hasOwnProperty";
    "__lookupGetter__"; "__lookupSetter__"; "isPrototypeOf";
    "propertyIsEnumerable"; "toString"; "valueOf"; "__proto__";
    "toLocaleString" ].

(** [table[k]] on an object literal [table]: own properties first, then the
    prototype chain. *)
Definition lookup (table : object) (k : string) : value :=
  if has_key table k then field table k
  else if existsb (String.eqb k) Object_prototype_names then VHost k
  else VUndefined.

(* ================================================================== *)
(** ** Zod schemas *)
(* ================================================================== *)

(** The combinators of Zod the three schemas are built from. *)
Inductive schema : Type :=
| z_string
| z_boolean
| z_any
| z_optional (inner : schema)
| z_array (element : schema)
| z_record (val : schema)
| z_object (shape : list (string * schema)).

(** [schema.safeParse(v)]: the parsed value, or [None] where [parse] throws
    a [ZodError].  An object schema keeps the keys of its shape (unknown
    keys are stripped); a key of the shape is emitted when the input has it
    or its parsed value is not [undefined].  A record schema parses every
    entry and emits all of them but an own key [__proto__], which Zod leaves
    out of the object it builds. *)
Fixpoint safeParse (sc : schema) (v : value) {struct sc} : option value :=
  match sc with
  | z_string => match v with VString _ => Some v | _ => None end
  | z_boolean => match v with VBool _ => Some v | _ => None end
  | z_any => Some v
  | z_optional inner =>
      match v with
      | VUndefined => Some VUndefined
      | _ => safeParse inner v
      end
  | z_array element =>
      match v with
      | VArray items =>
          option_map VArray
            ((fix each (l : list value) : option (list value) :=
                match l with
                | [] => Some []
                | x :: r =>
                    match safeParse element x, each r with
                    | Some x', Some r' => Some (x' :: r')
                    | _, _ => None
                    end
                end) items)
      | _ => None
      end
  | z_record val =>
      match v with
      | VObject o =>
          option_map VObject
            ((fix each (l : object) : option object :=
                match l with
                | [] => Some []
                | (k, x) :: r =>
                    match safeParse val x, each r with
                    | Some x', Some r' =>
                        Some (if String.eqb k "__proto__" then r'
                              else (k, x') :: r')
                    | _, _ => None
                    end
                end) o)
      | _ => None
      end
  | z_object shape =>
      match v with
      | VObject o =>
          option_map VObject
            ((fix each (sh : list (string * schema)) : option object :=
                match sh with
                | [] => Some []
                | (k, sk) :: r =>
                    match safeParse sk (field o k), each r with
                    | Some x', Some r' =>
                        Some (if has_key o k
                              then (k, x') :: r'
                              else match x' with
                                   | VUndefined => r'
                                   | _ => (k, x') :: r'
                                   end)
                    | _, _ => None
                    end
                end) shape)
      | _ => None
      end
  end.

Definition getRecordsSchema : schema :=
  z_object [ ("app", z_string);
             ("query", z_optional z_string);
             ("fields", z_optional (z_array z_string));
             ("totalCount", z_optional z_boolean) ].

Definition getAppSchema : schema :=
  z_object [ ("id", z_string) ].

Definition addRecordsSchema : schema :=
  z_object [ ("app", z_string);
             ("records", z_array (z_record z_any)) ].

(* ================================================================== *)
(** ** Exceptions, control flow and the platform *)
(* ================================================================== *)

(** What a [throw] carries.  [Error] is [new Error(message)] of the code or
    of the kintone client; [TypeError] is raised by the engine when the
    named method is called on a value that does not have it, or a property
    is read from [undefined] or [null]; [ZodError] is raised by
    [schema.parse]; [NotAnError] is a rejection with a value that is not an
    instance of [Error]. *)
Inductive thrown : Type :=
| Error (message : string)
| TypeError (callee : string)
| ZodError (sc : schema) (input : value)
| NotAnError (v : value).

(** Where control is after a statement: at the next statement, at a
    [return] of the handler, or in a [throw]. *)
Inductive flow (A : Type) : Type :=
| Next (a : A)
| Return (r : value)
| Throw (e : thrown).
Arguments Next {A} a.
Arguments Return {A} r.
Arguments Throw {A} e.

Definition bind {A B : Type} (m : flow A) (k : A -> flow B) : flow B :=
  match m with
  | Next a => k a
  | Return r => Return r
  | Throw e => Throw e
  end.

Notation "x <- m ;; k" := (bind m (fun x => k))
  (at level 61, m at next level, right associativity).
Notation "' pat <- m ;; k" := (bind m (fun x => match x with pat => k end))
  (at level 61, pat pattern, m at next level, right associativity).

(** How an [async] handler settles. *)
Inductive settled : Type :=
| Resolved (response : value)
| Rejected (e : thrown).

(** [KintoneConfig] *)
Record KintoneConfig : Type := {
  baseUrl : string;
  username : option string;
  password : option string;
  basicAuth : option (string * string)
}.

(** The five calls of [KintoneRestAPIClient] the tools make: each gives a
    response or rejects. *)
Record KintoneRestAPIClient : Type := {
  record_getRecords : value -> thrown + value;
  app_getApp : value -> thrown + value;
  record_addRecords : value -> thrown + value;
  app_getApps : value -> thrown + value;
  app_getFormFields : value -> thrown + value
}.

(** What the handlers take from outside their source files. *)
Record Platform : Type := {
  (** [process.env] *)
  process_env : string -> option string;
  (** [JSON.parse(v)], [None] for a [SyntaxError]; the argument is first
      converted to a string *)
  JSON_parse : value -> option value;
  (** [JSON.stringify(v)] *)
  JSON_stringify : value -> string;
  (** ToString of a value that is not a string (template literal, computed
      property key) *)
  ToString : value -> string;
  (** message of an engine-made [TypeError] *)
  TypeError_message : string -> string;
  (** message of a [ZodError] *)
  ZodError_message : schema -> value -> string;
  (** [new Date().toISOString()] *)
  now : string;
  (** [new KintoneRestAPIClient(clientConfig)]: the client, or what the
      constructor throws (it does on a base URL it cannot use) *)
  new_KintoneRestAPIClient : KintoneConfig -> thrown + KintoneRestAPIClient
}.

(** [v.k]: a [TypeError] on [undefined] and [null]. *)
Definition prop (v : value) (k : string) : flow value :=
  match v with
  | VUndefined | VNull => Throw (TypeError k)
  | _ => Next (opt v k)
  end.

(** [Object.keys(v)]: a [TypeError] on [undefined] and [null]. *)
Definition Object_keys (v : value) : flow (list string) :=
  match v with
  | VUndefined | VNull => Throw (TypeError "keys")
  | _ => Next (own_keys v)
  end.

(** Template-literal and property-key conversion. *)
Definition to_string (P : Platform) (v : value) : string :=
  match v with
  | VString s => s
  | _ => ToString P v
  end.

(** [error instanceof Error ? error.message : fallback] *)
Definition message_or (P : Platform) (e : thrown) (fallback : string) : string :=
  match e with
  | Error m => m
  | TypeError callee => TypeError_message P callee
  | ZodError sc input => ZodError_message P sc input
  | NotAnError _ => fallback
  end.

(** Methods called on a value of type [any]. *)

(** [v.includes(d)]: a string searches a substring, an array an element
    equal to [d]; no other value has the method. *)
Definition call_includes (v : value) (d : string) : flow bool :=
  match v with
  | VString s => Next (JsString.includes s d)
  | VArray items => Next (existsb (fun x => is_string x d) items)
  | _ => Throw (TypeError "includes")
  end.

(** [v.startsWith(p)]: only a string has the method. *)
Definition call_startsWith (v : value) (p : string) : flow bool :=
  match v with
  | VString s => Next (JsString.startsWith s p)
  | _ => Throw (TypeError "startsWith")
  end.

(** [v && v.startsWith(p)], as a condition. *)
Definition and_startsWith (v : value) (p : string) : flow bool :=
  if truthy v then call_startsWith v p else Next false.

(** A method only strings have, applied to [v]. *)
Definition on_string (callee : string) (v : value) (f : string -> string)
  : flow value :=
  match v with
  | VString s => Next (VString (f s))
  | _ => Throw (TypeError callee)
  end.

(** [try { body } catch (error) { handler }] around an expression. *)
Definition try_catch {A : Type} (body : flow A) (handler : thrown -> flow A)
  : flow A :=
  match body with
  | Throw e => handler e
  | other => other
  end.

(** [schema.parse(v)] *)
Definition parse (sc : schema) (v : value) : flow value :=
  match safeParse sc v with
  | Some parsed => Next parsed
  | None => Throw (ZodError sc v)
  end.

(* ================================================================== *)
(** ** Configuration and the tools, shared by the two entry points *)
(* ================================================================== *)

(** A variable of [process.env] that is set and not empty. *)
Definition env (P : Platform) (name : string) : option string :=
  match process_env P name with
  | Some s => if String.eqb s "" then None else Some s
  | None => None
  end.

Definition getKintoneConfig (P : Platform) : flow KintoneConfig :=
  match env P "KINTONE_BASE_URL" with
  | None => Throw (Error "KINTONE_BASE_URL環境変数が設定されていません")
  | Some url =>
      match env P "KINTONE_USERNAME", env P "KINTONE_PASSWORD" with
      | Some u, Some p =>
          Next {| baseUrl := url;
                  username := Some u;
                  password := Some p;
                  basicAuth :=
                    match env P "KINTONE_BASIC_AUTH_USERNAME",
                          env P "KINTONE_BASIC_AUTH_PASSWORD" with
                    | Some bu, Some bp => Some (bu, bp)
                    | _, _ => None
                    end |}
      | _, _ =>
          Throw (Error "認証情報が設定されていません（KINTONE_USERNAME/KINTONE_PASSWORD が必要です）")
      end
  end.

(** [new KintoneRestAPIClient(clientConfig)], as a statement. *)
Definition construct (P : Platform) (config : KintoneConfig)
  : flow KintoneRestAPIClient :=
  match new_KintoneRestAPIClient P config with
  | inr client => Next client
  | inl e => Throw e
  end.

Definition createKintoneClient (P : Platform) (config : KintoneConfig)
  : flow KintoneRestAPIClient :=
  match username config, password config with
  | Some u, Some p =>
      if negb (String.eqb u "") && negb (String.eqb p "")
      then construct P config
      else Throw (Error "ユーザー名・パスワードが設定されていません")
  | _, _ => Throw (Error "ユーザー名・パスワードが設定されていません")
  end.

Module KintoneTools.

Definition succeeded (data : value) : value :=
  VObject [ ("success", VBool true); ("data", data) ].

Definition failed (P : Platform) (e : thrown) (fallback : string) : value :=
  VObject [ ("success", VBool false);
            ("error", VString (message_or P e fallback)) ].

(** The body of each method is one [try]/[catch]: a rejection of the
    client, or a [TypeError] on reading the response, gives the failure
    object. *)
Definition attempt (P : Platform) (call : thrown + value)
    (wrap : value -> flow value) (fallback : string) : value :=
  match call with
  | inl e => failed P e fallback
  | inr response =>
      match wrap response with
      | Next data | Return data => succeeded data
      | Throw e => failed P e fallback
      end
  end.

Definition getRecords (P : Platform) (client : KintoneRestAPIClient)
    (params : value) : value :=
  attempt P
    (record_getRecords client
       (VObject [ ("app", opt params "app");
                  ("query", opt params "query");
                  ("fields", opt params "fields");
                  ("totalCount",
                    coalesce (opt params "totalCount") (VBool true)) ]))
    (fun response =>
       records <- prop response "records" ;;
       totalCount <- prop response "totalCount" ;;
       Next (VObject [ ("records", records); ("totalCount", totalCount) ]))
    "レコード取得に失敗しました".

Definition getApp (P : Platform) (client : KintoneRestAPIClient)
    (params : value) : value :=
  attempt P
    (app_getApp client (VObject [ ("id", opt params "id") ]))
    (fun response => Next response)
    "アプリ情報取得に失敗しました".

Definition addRecords (P : Platform) (client : KintoneRestAPIClient)
    (params : value) : value :=
  attempt P
    (record_addRecords client
       (VObject [ ("app", opt params "app");
                  ("records", opt params "records") ]))
    (fun response =>
       ids <- prop response "ids" ;;
       revisions <- prop response "revisions" ;;
       Next (VObject [ ("ids", ids); ("revisions", revisions) ]))
    "レコード追加に失敗しました".

Definition getApps (P : Platform) (client : KintoneRestAPIClient) : value :=
  attempt P
    (app_getApps client (VObject []))
    (fun response =>
       apps <- prop response "apps" ;;
       Next (VObject [ ("apps", apps) ]))
    "アプリ一覧取得に失敗しました".

Definition getFormFields (P : Platform) (client : KintoneRestAPIClient)
    (params : value) : value :=
  attempt P
    (app_getFormFields client (VObject [ ("app", opt params "id") ]))
    (fun response =>
       properties <- prop response "properties" ;;
       Next (VObject [ ("properties", properties) ]))
    "フォームフィールド取得に失敗しました".

End KintoneTools.

(** The [switch] on the tool name, common to both handlers: [Some] result of
    the tool that ran, [None] in the [default] case.  A value that is not a
    string equals no [case] label. *)
Definition run_tool (P : Platform) (client : KintoneRestAPIClient)
    (tool params : value) : flow (option value) :=
  match tool with
  | VString name =>
      if String.eqb name "get-records" then
        p <- parse getRecordsSchema params ;;
        Next (Some (KintoneTools.getRecords P client p))
      else if String.eqb name "get-app" then
        p <- parse getAppSchema params ;;
        Next (Some (KintoneTools.getApp P client p))
      else if String.eqb name "add-records" then
        p <- parse addRecordsSchema params ;;
        Next (Some (KintoneTools.addRecords P client p))
      else if String.eqb name "get-apps" then
        Next (Some (KintoneTools.getApps P client))
      else if String.eqb name "get-form-fields" then
        p <- parse getAppSchema params ;;
        Next (Some (KintoneTools.getFormFields P client p))
      else Next None
  | _ => Next None
  end.

(** The five tool names that have a [case]. *)
Definition implemented : list string :=
  [ "get-records"; "get-app"; "add-records"; "get-apps"; "get-form-fields" ].

(** The seven names of the alias table of [index.ts]. *)
Definition canonical_ids : list string :=
  [ "get-apps"; "get-app"; "get-records"; "add-records"; "get-form-fields";
    "update-records"; "delete-records" ].

(** [event.id || 1] *)
Definition response_id (event : value) : value :=
  or_else (opt event "id") (VNumber 1).

(** The three JSON-RPC answers. *)
Definition jsonrpc_error (event : value) (code : Z) (message : string)
    (data : option value) : value :=
  VObject [ ("jsonrpc", VString "2.0");
            ("id", response_id event);
            ("error",
              VObject ([ ("code", VNumber code);
                         ("message", VString message) ]
                       ++ match data with
                          | Some d => [ ("data", d) ]
                          | None => []
                          end)) ].

Definition jsonrpc_result (P : Platform) (event : value) (result : value)
  : value :=
  VObject [ ("jsonrpc", VString "2.0");
            ("id", response_id event);
            ("result",
              VObject [ ("isError", VBool (negb (truthy (opt result "success"))));
                        ("content",
                          VArray [ VObject [ ("type", VString "text");
                                             ("text", VString (JSON_stringify P result)) ] ]) ]) ].

Definition http_response (P : Platform) (headers : value) (statusCode : Z)
    (payload : value) : value :=
  VObject [ ("statusCode", VNumber statusCode);
            ("headers", headers);
            ("body", VString (JSON_stringify P payload)) ].

(* ================================================================== *)
(** ** [src/MyKintone/src/index.ts] *)
(* ================================================================== *)

(** The calling conventions the [if]/[else if] chain tells apart, in the
    order of the chain (パターン1 to パターン11; the three legacy gateway
    forms of パターン5-7 differ in the field that carries the name). *)
Inductive NameField : Type := by_name | by_toolName | by_tool_name.

Inductive EnvelopeKind : Type :=
| GatewayManaged
| EmptyPayload
| JsonRpcCall
| LegacyOperationId
| LegacyPrefixedName (carrier : NameField)
| QueueMessage
| HttpProxy
| EventBus
| DirectInvoke.

Module MultiEnvelope.

Definition delimiter : string := "___".

(** [(context.clientContext as any)?.custom] *)
Definition customContext (clientContext : value) : value :=
  opt clientContext "custom".

(** [customContext && customContext.bedrockAgentCoreToolName] *)
Definition gateway_tool_name (clientContext : value) : value :=
  if truthy (customContext clientContext)
  then opt (customContext clientContext) "bedrockAgentCoreToolName"
  else customContext clientContext.

(** [clientContext?.custom?.bedrockAgentCoreToolName ||
     clientContext?.Custom?.bedrockAgentCoreToolName] *)
Definition official_tool_name (clientContext : value) : value :=
  or_else (opt (opt clientContext "custom") "bedrockAgentCoreToolName")
          (opt (opt clientContext "Custom") "bedrockAgentCoreToolName").

(** [event.operationId || (event.context && event.context.input !== undefined)] *)
Definition has_operation (event : value) : bool :=
  truthy (opt event "operationId")
  || (truthy (opt event "context")
      && match opt (opt event "context") "input" with
         | VUndefined => false
         | _ => true
         end).

(** The conditions of the chain, tried in order; the first that holds
    names the branch.  The three legacy tests call [startsWith] on a field
    of the event and throw when the field is truthy and not a string.  The
    handler has evaluated [Object.keys(event)] before the chain, so the
    event is neither [undefined] nor [null] here and in the statements that
    follow: its keys are [own_keys] and its properties are read with
    [opt]. *)
Definition classify (clientContext : value) (event : value)
  : flow EnvelopeKind :=
  if truthy (gateway_tool_name clientContext) then Next GatewayManaged
  else if Nat.eqb (List.length (own_keys event)) 0 then Next EmptyPayload
  else if is_string (opt event "method") "tools/call"
          && truthy (opt event "params") then Next JsonRpcCall
  else if has_operation event then Next LegacyOperationId
  else
    n <- and_startsWith (opt event "name") "MyKintoneTarget___" ;;
    if n then Next (LegacyPrefixedName by_name) else
    t <- and_startsWith (opt event "toolName") "MyKintoneTarget___" ;;
    if t then Next (LegacyPrefixedName by_toolName) else
    u <- and_startsWith (opt event "tool_name") "MyKintoneTarget___" ;;
    if u then Next (LegacyPrefixedName by_tool_name) else
    if truthy (opt event "Records")
       && match opt event "Records" with VArray _ => true | _ => false end
    then Next QueueMessage
    else if truthy (opt event "httpMethod")
            || truthy (opt event "requestContext") then Next HttpProxy
    else if truthy (opt event "source")
            && is_string (opt event "source") "aws.events"
    then Next EventBus
    else Next DirectInvoke.

(** パターン1: the part after the first delimiter, then
    [replace('kintone-', '')]. *)
Definition gateway_tool (originalToolName : value) : flow value :=
  found <- call_includes originalToolName delimiter ;;
  if found then
    on_string "substring" originalToolName
      (fun s =>
         JsString.replace
           (JsString.substring s
              (JsString.indexOf s delimiter
               + Z.of_nat (String.length delimiter)))
           "kintone-" "")
  else Next originalToolName.

(** [name.replace('MyKintoneTarget___', '').replace('kintone-', '')] *)
Definition strip_target (name : string) : string :=
  JsString.replace (JsString.replace name "MyKintoneTarget___" "")
                   "kintone-" "".

Definition toolMapping : object :=
  [ ("getApps", VString "get-apps");
    ("getApp", VString "get-app");
    ("getRecords", VString "get-records");
    ("addRecords", VString "add-records");
    ("getFormFields", VString "get-form-fields");
    ("createPayment", VString "get-apps");
    ("processRefund", VString "get-apps") ].

Definition headers : value :=
  VObject [ ("Content-Type", VString "application/json");
            ("Access-Control-Allow-Origin", VString "*") ].

(** The body of the branch taken: the tool and the parameters. *)
Definition extract (P : Platform) (clientContext : value) (event : value)
    (kind : EnvelopeKind) : flow (value * value) :=
  match kind with
  | GatewayManaged =>
      tool <- gateway_tool
                (opt (customContext clientContext) "bedrockAgentCoreToolName") ;;
      Next (tool, event)
  | EmptyPayload => Next (VString "get-apps", VObject [])
  | JsonRpcCall =>
      let toolName := opt (opt event "params") "name" in
      let toolArgs :=
        or_else (opt (opt event "params") "arguments") (VObject []) in
      gw <- and_startsWith toolName "MyKintoneTarget___" ;;
      if gw then
        tool <- on_string "replace" toolName strip_target ;;
        Next (tool, toolArgs)
      else Next (toolName, toolArgs)
  | LegacyOperationId =>
      let operationId := opt event "operationId" in
      let tool :=
        if truthy operationId
        then or_else (lookup toolMapping (to_string P operationId)) operationId
        else VUndefined in
      Next (tool, or_else (opt (opt event "context") "input") (VObject []))
  | LegacyPrefixedName by_name =>
      tool <- on_string "replace" (opt event "name") strip_target ;;
      Next (tool, or_else (opt event "arguments") (VObject []))
  | LegacyPrefixedName by_toolName =>
      tool <- on_string "replace" (opt event "toolName") strip_target ;;
      Next (tool, or_else (opt event "arguments")
                    (or_else (opt event "params") (VObject [])))
  | LegacyPrefixedName by_tool_name =>
      tool <- on_string "replace" (opt event "tool_name") strip_target ;;
      Next (tool, or_else (opt event "arguments")
                    (or_else (opt event "params") (VObject [])))
  | QueueMessage =>
      let record :=
        match opt event "Records" with
        | VArray (first :: _) => first
        | _ => VUndefined
        end in
      body <- prop record "body" ;;
      if truthy body then
        try_catch
          (match JSON_parse P body with
           | None => Throw (Error "SyntaxError")
           | Some bodyData =>
               tool <- prop bodyData "tool" ;;
               params <- prop bodyData "params" ;;
               Next (tool, params)
           end)
          (fun _ => Throw (Error "SQS/SNSボディのJSONが無効です"))
      else Next (VUndefined, VUndefined)
  | HttpProxy =>
      requestData <-
        (if truthy (opt event "body") then
           match JSON_parse P (opt event "body") with
           | Some data => Next data
           | None =>
               Return
                 (http_response P headers 400
                    (VObject [ ("success", VBool false);
                               ("error", VString "リクエストボディのJSONが無効です") ]))
           end
         else Next (VObject [])) ;;
      tool <- prop requestData "tool" ;;
      params <- prop requestData "params" ;;
      Next (tool, params)
  | EventBus =>
      Next (opt (opt event "detail") "tool",
            or_else (opt (opt event "detail") "params") (VObject []))
  | DirectInvoke =>
      Next (opt event "tool", opt event "params")
  end.

(** The [isLegacyGateway] entry of the request-detail log: the three
    [startsWith] calls are evaluated again, for every branch. *)
Definition log_request_details (event : value) : flow unit :=
  n <- and_startsWith (opt event "name") "MyKintoneTarget___" ;;
  if n then Next tt else
  t <- and_startsWith (opt event "toolName") "MyKintoneTarget___" ;;
  if t then Next tt else
  u <- and_startsWith (opt event "tool_name") "MyKintoneTarget___" ;;
  Next tt.

(** ツール名の正規化: [if (tool && tool.startsWith('kintone-'))
    tool = tool.replace('kintone-', '')]. *)
Definition normalize (tool : value) : flow value :=
  k <- and_startsWith tool "kintone-" ;;
  if k then on_string "replace" tool
              (fun s => JsString.replace s "kintone-" "")
  else Next tool.

Definition toolNameMapping : object :=
  [ ("get-apps", VString "get-apps");
    ("get-app", VString "get-app");
    ("get-records", VString "get-records");
    ("add-records", VString "add-records");
    ("get-form-fields", VString "get-form-fields");
    ("update-records", VString "update-records");
    ("delete-records", VString "delete-records") ].

(** [if (tool && toolNameMapping[tool]) tool = toolNameMapping[tool]] *)
Definition alias (P : Platform) (tool : value) : value :=
  if truthy tool && truthy (lookup toolNameMapping (to_string P tool))
  then lookup toolNameMapping (to_string P tool)
  else tool.

(** The condition under which an answer is wrapped as an HTTP response. *)
Definition http_shaped (clientContext : value) (event : value) : flow bool :=
  if truthy (official_tool_name clientContext) then Next true
  else if has_operation event then Next true
  else
    n <- and_startsWith (opt event "name") "MyKintoneTarget___" ;;
    if n then Next true
    else Next (truthy (opt event "httpMethod")
               || truthy (opt event "requestContext")).

(** The tail of every exit: a JSON-RPC answer when
    [event.method === 'tools/call'], an HTTP response or the bare object
    otherwise. *)
Definition render (P : Platform) (clientContext : value) (event : value)
    (rpc : value) (statusCode : Z) (payload : value) : flow value :=
  if is_string (opt event "method") "tools/call" then Return rpc
  else
    wrapped <- http_shaped clientContext event ;;
    if wrapped then Return (http_response P headers statusCode payload)
    else Return payload.

Definition debug (clientContext : value) (event : value) : value :=
  VObject
    [ ("eventKeys", VArray (map VString (own_keys event)));
      ("eventType", VString (typeof event));
      ("hasMethod", VBool (truthy (opt event "method")));
      ("hasOperationId", VBool (truthy (opt event "operationId")));
      ("hasName", VBool (truthy (opt event "name")));
      ("hasToolName", VBool (truthy (opt event "toolName")));
      ("hasClientContext", VBool (truthy clientContext));
      ("hasCustomContext",
        VBool (truthy (or_else (opt clientContext "custom")
                               (opt clientContext "Custom"))));
      ("bedrockAgentCoreToolName", official_tool_name clientContext) ].

Definition availableTools : value :=
  VArray (map VString
            [ "get-apps"; "get-app"; "get-records"; "add-records";
              "get-form-fields"; "update-records"; "delete-records" ]).

(** The statements from the [switch] to the end of the [try] block. *)
Definition dispatch (P : Platform) (client : KintoneRestAPIClient)
    (clientContext : value) (event : value) (tool params : value)
  : flow value :=
  ran <- run_tool P client tool params ;;
  match ran with
  | Some result =>
      render P clientContext event (jsonrpc_result P event result) 200 result
  | None =>
      let message := "未対応のツール: " ++ to_string P tool in
      render P clientContext event
        (jsonrpc_error event (-32601) message
           (Some (VObject [ ("availableTools", availableTools) ])))
        400
        (VObject [ ("success", VBool false); ("error", VString message) ])
  end.

(** The resolved request: the statements of the [try] block from the log
    of [Object.keys(event)] at its head up to the test for a missing tool
    name. *)
Definition resolve (P : Platform) (clientContext : value) (event : value)
  : flow (EnvelopeKind * value * value) :=
  _ <- Object_keys event ;;
  kind <- classify clientContext event ;;
  '(tool, params) <- extract P clientContext event kind ;;
  _ <- log_request_details event ;;
  tool <- normalize tool ;;
  Next (kind, alias P tool, params).

(** The [try] block. *)
Definition try_block (P : Platform) (clientContext : value) (event : value)
  : flow value :=
  config <- getKintoneConfig P ;;
  client <- createKintoneClient P config ;;
  '(_, tool, params) <- resolve P clientContext event ;;
  if negb (truthy tool) then
    render P clientContext event
      (jsonrpc_error event (-32602) "ツール名が指定されていません"
         (Some (debug clientContext event)))
      400
      (VObject [ ("success", VBool false);
                 ("error", VString "ツール名が指定されていません");
                 ("debug", debug clientContext event) ])
  else dispatch P client clientContext event tool params.

(** The [catch] block. *)
Definition catch_block (P : Platform) (clientContext : value)
    (event : value) (error : thrown) : flow value :=
  let errorMessage := message_or P error "内部サーバーエラー" in
  render P clientContext event
    (jsonrpc_error event (-32603) errorMessage
       (Some (VObject [ ("timestamp", VString (now P)) ])))
    500
    (VObject [ ("success", VBool false);
               ("error", VString errorMessage);
               ("timestamp", VString (now P)) ]).

(** The log statements before the [try] block, which nothing catches:
    [Object.keys(event)] and [Object.values(event)] throw on [undefined] and
    [null]; [JSON.stringify(event)] is [undefined] for a function, and
    reading its [length] throws then. *)
Definition log_event_details (event : value) : flow unit :=
  _ <- Object_keys event ;;
  if is_function event then Throw (TypeError "length") else Next tt.

(** [handler(event, context)]; [clientContext] is [context.clientContext].
    The event is the value the Lambda runtime decodes from the payload. *)
Definition handler (P : Platform) (clientContext : value) (event : value)
  : settled :=
  match log_event_details event with
  | Throw e => Rejected e
  | _ =>
      match try_catch (try_block P clientContext event)
                      (catch_block P clientContext event) with
      | Next response | Return response => Resolved response
      | Throw e => Rejected e
      end
  end.

End MultiEnvelope.

(* ================================================================== *)
(** ** The entry point of [src/unnamed/part_000] *)
(* ================================================================== *)

Module Compact.

Definition delimiter : string := "___".

(** [extractToolName(toolName)]: the last part of the split at the
    delimiter. *)
Definition extractToolName (toolName : value) : flow value :=
  found <- (if truthy toolName then call_includes toolName delimiter
            else Next false) ;;
  if found then
    on_string "split" toolName
      (fun s => List.last (JsString.split s delimiter) EmptyString)
  else Next toolName.

Definition customContext (clientContext : value) : value :=
  opt clientContext "custom".

(** [customContext?.bedrockAgentCoreToolName] *)
Definition gateway_tool_name (clientContext : value) : value :=
  opt (customContext clientContext) "bedrockAgentCoreToolName".

Definition headers : value :=
  VObject [ ("Content-Type", VString "application/json") ].

(** The three branches, named as in [MultiEnvelope].  Nothing has read the
    event before: [event.method] throws on [undefined] and [null]. *)
Definition classify (clientContext : value) (event : value)
  : flow EnvelopeKind :=
  if truthy (customContext clientContext)
     && truthy (gateway_tool_name clientContext) then Next GatewayManaged
  else
    method <- prop event "method" ;;
    if is_string method "tools/call" && truthy (opt event "params")
    then Next JsonRpcCall
    else Next DirectInvoke.

Definition extract (clientContext : value) (event : value)
    (kind : EnvelopeKind) : flow (value * value) :=
  match kind with
  | GatewayManaged =>
      toolName <- extractToolName (gateway_tool_name clientContext) ;;
      Next (toolName, event)
  | JsonRpcCall =>
      toolName <- extractToolName (opt (opt event "params") "name") ;;
      Next (toolName,
            or_else (opt (opt event "params") "arguments") (VObject []))
  | _ =>
      Next (opt event "tool", or_else (opt event "params") (VObject []))
  end.

(** [if (toolName && toolName.startsWith('kintone-'))
     toolName = toolName.replace('kintone-', '')] *)
Definition normalize (toolName : value) : flow value :=
  k <- and_startsWith toolName "kintone-" ;;
  if k then on_string "replace" toolName
              (fun s => JsString.replace s "kintone-" "")
  else Next toolName.

(** The tail of every exit.  On the gateway branch this is the first read
    of a property of the event. *)
Definition render (P : Platform) (clientContext : value) (event : value)
    (rpc : value) (statusCode : Z) (payload : value) : flow value :=
  method <- prop event "method" ;;
  if is_string method "tools/call" then Return rpc
  else if truthy (gateway_tool_name clientContext)
  then Return (http_response P headers statusCode payload)
  else Return payload.

Definition availableTools : value :=
  VArray (map VString
            [ "get-apps"; "get-app"; "get-records"; "add-records";
              "get-form-fields" ]).

Definition dispatch (P : Platform) (client : KintoneRestAPIClient)
    (clientContext : value) (event : value) (toolName params : value)
  : flow value :=
  ran <- run_tool P client toolName params ;;
  match ran with
  | Some result =>
      render P clientContext event (jsonrpc_result P event result) 200 result
  | None =>
      let message := "未対応のツール: " ++ to_string P toolName in
      render P clientContext event
        (jsonrpc_error event (-32601) message
           (Some (VObject [ ("availableTools", availableTools) ])))
        400
        (VObject [ ("success", VBool false); ("error", VString message) ])
  end.

Definition resolve (clientContext : value) (event : value)
  : flow (EnvelopeKind * value * value) :=
  kind <- classify clientContext event ;;
  '(toolName, params) <- extract clientContext event kind ;;
  toolName <- normalize toolName ;;
  Next (kind, toolName, params).

Definition try_block (P : Platform) (clientContext : value) (event : value)
  : flow value :=
  config <- getKintoneConfig P ;;
  client <- createKintoneClient P config ;;
  '(_, toolName, params) <- resolve clientContext event ;;
  if negb (truthy toolName) then
    render P clientContext event
      (jsonrpc_error event (-32602) "ツール名が指定されていません" None)
      400
      (VObject [ ("success", VBool false);
                 ("error", VString "ツール名が指定されていません") ])
  else dispatch P client clientContext event toolName params.

Definition catch_block (P : Platform) (clientContext : value)
    (event : value) (error : thrown) : flow value :=
  let errorMessage := message_or P error "内部サーバーエラー" in
  render P clientContext event
    (jsonrpc_error event (-32603) errorMessage None)
    500
    (VObject [ ("success", VBool false);
               ("error", VString errorMessage);
               ("timestamp", VString (now P)) ]).

Definition handler (P : Platform) (clientContext : value) (event : value)
  : settled :=
  match try_catch (try_block P clientContext event)
                  (catch_block P clientContext event) with
  | Next response | Return response => Resolved response
  | Throw e => Rejected e
  end.

End Compact.

(* ================================================================== *)
(** ** A sample platform, for concrete runs *)
(* ================================================================== *)

Module Sample.

Definition apps : value :=
  VArray [ VObject [ ("appId", VString "1"); ("name", VString "Orders") ] ].

(** A client whose app listing succeeds and whose other calls reject with
    [new Error("network down")]. *)
Definition client (_ : KintoneConfig) : KintoneRestAPIClient :=
  {| record_getRecords := fun _ => inl (Error "network down");
     app_getApp := fun _ => inl (Error "network down");
     record_addRecords := fun _ => inl (Error "network down");
     app_getApps := fun _ => inr (VObject [ ("apps", apps) ]);
     app_getFormFields := fun _ => inl (Error "network down") |}.

Definition environment (name : string) : option string :=
  if String.eqb name "KINTONE_BASE_URL" then Some "https://example.cybozu.com"
  else if String.eqb name "KINTONE_USERNAME" then Some "user"
  else if String.eqb name "KINTONE_PASSWORD" then Some "secret"
  else None.

Definition quote : string := String (ascii_of_nat 34) EmptyString.

(** A string literal of JSON: the quote and the backslash are escaped. *)
Fixpoint escape (s : string) : string :=
  match s with
  | EmptyString => EmptyString
  | String c r =>
      if (Nat.eqb (nat_of_ascii c) 34 || Nat.eqb (nat_of_ascii c) 92)%bool
      then String (ascii_of_nat 92) (String c (escape r))
      else String c (escape r)
  end.

Definition literal (s : string) : string := quote ++ escape s ++ quote.

(** A serializer in the manner of [JSON.stringify], enough to read the
    bodies of the sample runs: [None] stands for [undefined], which an
    object drops and an array writes as [null]. *)
Fixpoint serialize (v : value) : option string :=
  match v with
  | VUndefined | VHost _ => None
  | VNull => Some "null"
  | VBool true => Some "true"
  | VBool false => Some "false"
  | VNumber n => Some (NilZero.string_of_int (Z.to_int n))
  | VString s => Some (literal s)
  | VArray items =>
      Some ("[" ++
            (fix each (l : list value) (sep : string) : string :=
               match l with
               | [] => ""
               | x :: r =>
                   sep ++ match serialize x with
                          | Some t => t
                          | None => "null"
                          end ++ each r ","
               end) items "" ++ "]")
  | VObject fields =>
      Some ("{" ++
            (fix each (l : object) (sep : string) : string :=
               match l with
               | [] => ""
               | (k, x) :: r =>
                   match serialize x with
                   | Some t => sep ++ literal k ++ ":" ++ t ++ each r ","
                   | None => each r sep
                   end
               end) fields "" ++ "}")
  end.

Definition stringify (v : value) : string :=
  match serialize v with
  | Some t => t
  | None => "undefined"
  end.

(** The message texts stand for what the engine and Zod would write. *)
Definition platform : Platform :=
  {| process_env := environment;
     JSON_parse := fun _ => None;
     JSON_stringify := stringify;
     ToString := fun _ => "[object]";
     TypeError_message := fun callee => callee ++ " is not a function";
     ZodError_message := fun _ _ => "[zod issues]";
     now := "2025-01-01T00:00:00.000Z";
     new_KintoneRestAPIClient := fun config => inr (client config) |}.

(** The configuration [getKintoneConfig] reads from [environment], and
    the client made from it. *)
Definition config : KintoneConfig :=
  {| baseUrl := "https://example.cybozu.com";
     username := Some "user";
     password := Some "secret";
     basicAuth := None |}.

Definition the_client : KintoneRestAPIClient := client config.

(** The sample platform without any environment variable. *)
Definition unconfigured : Platform :=
  {| process_env := fun _ => None;
     JSON_parse := fun _ => None;
     JSON_stringify := stringify;
     ToString := fun _ => "[object]";
     TypeError_message := fun callee => callee ++ " is not a function";
     ZodError_message := fun _ _ => "[zod issues]";
     now := "2025-01-01T00:00:00.000Z";
     new_KintoneRestAPIClient := fun config => inr (client config) |}.

(** The sample platform with the base URL [x], which is no URL: the
    constructor of the client throws. *)
Definition without_url : Platform :=
  {| process_env :=
       fun name =>
         if String.eqb name "KINTONE_BASE_URL" then Some "x"
         else environment name;
     JSON_parse := fun _ => None;
     JSON_stringify := stringify;
     ToString := fun _ => "[object]";
     TypeError_message := fun callee => callee ++ " is not a function";
     ZodError_message := fun _ _ => "[zod issues]";
     now := "2025-01-01T00:00:00.000Z";
     new_KintoneRestAPIClient := fun _ => inl (Error "Invalid URL") |}.

(** [context.clientContext] of a gateway call. *)
Definition gateway (toolName : string) : value :=
  VObject [ ("custom",
              VObject [ ("bedrockAgentCoreToolName", VString toolName) ]) ].

End Sample.


(* ================================================================== *)
(** ** Vocabulary of the statements *)
(* ================================================================== *)

(** The answer at an exit of a handler: the JSON-RPC object when the event
    is a [tools/call]; otherwise the HTTP response when the request counts
    as [wrapped], and the bare object when it does not. *)
Definition answer (P : Platform) (headers : value) (event : value)
    (wrapped : bool) (rpc : value) (statusCode : Z) (payload : value)
  : value :=
  if is_string (opt event "method") "tools/call" then rpc
  else if wrapped then http_response P headers statusCode payload
  else payload.

(** The branches of [index.ts] whose requests always count as wrapped. *)
Definition http_kind (kind : EnvelopeKind) : bool :=
  match kind with
  | GatewayManaged | LegacyOperationId | LegacyPrefixedName by_name
  | HttpProxy => true
  | _ => false
  end.


(** The response, read field by field: a JSON-RPC error object with this
    code and message for the event ... *)
Definition rpc_error_with (event response : value) (code : Z)
    (message : string) : Prop :=
  opt response "jsonrpc" = VString "2.0"
  /\ opt response "id"
     = (if truthy (opt event "id") then opt event "id" else VNumber 1)
  /\ opt (opt response "error") "code" = VNumber code
  /\ opt (opt response "error") "message" = VString message
  /\ opt response "result" = VUndefined
  /\ opt response "statusCode" = VUndefined.

(** ... and an HTTP response with this status, the JSON content type, and
    the text of the payload as body. *)
Definition http_with (P : Platform) (response : value) (statusCode : Z)
    (payload : value) : Prop :=
  opt response "statusCode" = VNumber statusCode
  /\ opt (opt response "headers") "Content-Type" = VString "application/json"
  /\ opt response "body" = VString (JSON_stringify P payload).

(** An error answer, read field by field, in the three forms of [answer]:
    the JSON-RPC error for a [tools/call], else the HTTP response where the
    request counts as [wrapped], else the payload itself. *)
Definition answers_with (P : Platform) (event : value) (wrapped : bool)
    (response : value) (code : Z) (message : string) (statusCode : Z)
    (payload : value) : Prop :=
  if is_string (opt event "method") "tools/call"
  then rpc_error_with event response code message
  else if wrapped then http_with P response statusCode payload
  else response = payload.

(** The promise of a handler resolves, with such an answer. *)
Definition resolves_with (P : Platform) (event : value) (wrapped : bool)
    (promise : settled) (code : Z) (message : string) (statusCode : Z)
    (payload : value) : Prop :=
  exists response,
    promise = Resolved response
    /\ answers_with P event wrapped response code message statusCode payload.

(** The branch of [part_000] whose requests count as wrapped. *)
Definition gateway_kind (kind : EnvelopeKind) : bool :=
  match kind with
  | GatewayManaged => true
  | _ => false
  end.

(** The schema the [case] of a tool name parses the parameters with. *)
Definition schema_of (name : string) : option schema :=
  if String.eqb name "get-records" then Some getRecordsSchema
  else if String.eqb name "get-app" then Some getAppSchema
  else if String.eqb name "add-records" then Some addRecordsSchema
  else if String.eqb name "get-form-fields" then Some getAppSchema
  else None.

(** The request gets as far as the [switch] with this tool and these
    parameters, on the branch [kind]. *)
Definition reaches_switch (P : Platform)
    (resolved : flow (EnvelopeKind * value * value))
    (kind : EnvelopeKind) (client : KintoneRestAPIClient)
    (tool params : value) : Prop :=
  exists config,
    getKintoneConfig P = Next config
    /\ createKintoneClient P config = Next client
    /\ resolved = Next (kind, tool, params)
    /\ truthy tool = true.


(** The object of the [default] case, for the text of the tool. *)
Definition unsupported (text : string) : value :=
  VObject [ ("success", VBool false);
            ("error", VString ("未対応のツール: " ++ text)) ].

(** The object of the [catch] block. *)
Definition internal_error (P : Platform) (message : string) : value :=
  VObject [ ("success", VBool false);
            ("error", VString message);
            ("timestamp", VString (now P)) ].

(** A bad-request answer: status 400 or JSON-RPC code -32602. *)
Definition bad_request (response : value) : Prop :=
  opt response "statusCode" = VNumber 400
  \/ opt (opt response "error") "code" = VNumber (-32602).

(** An outcome object: its first field is [success], and it has no field
    [statusCode]. *)
Definition is_outcome (v : value) : Prop :=
  exists b rest,
    v = VObject (("success", VBool b) :: rest)
    /\ has_key rest "statusCode" = false.

(** A JSON-RPC answer to the event: version, the id [event.id || 1], and a
    [result] or an [error]. *)
Definition is_jsonrpc (event : value) (v : value) : Prop :=
  exists member body,
    v = VObject [ ("jsonrpc", VString "2.0");
                  ("id", response_id event);
                  (member, body) ]
    /\ (member = "result" \/ member = "error").


(** The answer of [index.ts] to an API Gateway event whose body is not
    JSON. *)
Definition invalid_body (P : Platform) : value :=
  http_response P MultiEnvelope.headers 400
    (VObject [ ("success", VBool false);
               ("error", VString "リクエストボディのJSONが無効です") ]).

(** The part of a raw name after the first delimiter. *)
Definition after_first_delimiter (raw : string) : string :=
  JsString.substring raw (JsString.indexOf raw "___" + 3).

(** What a method of [KintoneTools] returns: [{success: true, data}] or
    [{success: false, error}] with a text. *)
Definition is_tool_outcome (v : value) : Prop :=
  (exists data, v = VObject [ ("success", VBool true); ("data", data) ])
  \/ (exists message,
        v = VObject [ ("success", VBool false);
                      ("error", VString message) ]).

(** The text of the answer to a request without a tool name. *)
Definition missing_tool_text : string := "ツール名が指定されていません".

(** The four exits of the handlers that go through the rendering: the
    JSON-RPC object, the status code and the payload of each. *)
Inductive exit_of (P : Platform) (event : value)
  : value -> Z -> value -> Prop :=
| exit_tool_ran (result : value) :
    is_tool_outcome result ->
    exit_of P event (jsonrpc_result P event result) 200 result
| exit_missing_tool (data : option value) (rest : object) :
    has_key rest "statusCode" = false ->
    exit_of P event
      (jsonrpc_error event (-32602) missing_tool_text data) 400
      (VObject (("success", VBool false)
                :: ("error", VString missing_tool_text) :: rest))
| exit_unsupported (text : string) (data : option value) :
    exit_of P event
      (jsonrpc_error event (-32601) ("未対応のツール: " ++ text) data) 400
      (unsupported text)
| exit_internal (message : string) (data : option value) :
    exit_of P event
      (jsonrpc_error event (-32603) message data) 500
      (internal_error P message).

(** No character of the string is an underscore. *)
Fixpoint no_underscore (s : string) : bool :=
  match s with
  | EmptyString => true
  | String c r => negb (Ascii.eqb c "_"%char) && no_underscore r
  end.

(** The value is an object. *)
Definition is_object (v : value) : bool :=
  match v with
  | VObject _ => true
  | _ => false
  end.

(** The value is [undefined] or a string. *)
Definition optional_string (v : value) : bool :=
  match v with
  | VUndefined | VString _ => true
  | _ => false
  end.

(** The value is [undefined] or a boolean. *)
Definition optional_boolean (v : value) : bool :=
  match v with
  | VUndefined | VBool _ => true
  | _ => false
  end.

(** The value is [undefined] or an array of strings. *)
Definition optional_strings (v : value) : bool :=
  match v with
  | VUndefined => true
  | VArray items =>
      forallb (fun x => match x with VString _ => true | _ => false end) items
  | _ => false
  end.

(** The loops of [safeParse], by name: over the elements of an array,
    over the entries of a record, and over the shape of an object. *)
Fixpoint parse_items (sc : schema) (items : list value)
  : option (list value) :=
  match items with
  | [] => Some []
  | x :: r =>
      match safeParse sc x, parse_items sc r with
      | Some x', Some r' => Some (x' :: r')
      | _, _ => None
      end
  end.

Fixpoint parse_entries (sc : schema) (o : object) : option object :=
  match o with
  | [] => Some []
  | (k, x) :: r =>
      match safeParse sc x, parse_entries sc r with
      | Some x', Some r' =>
          Some (if String.eqb k "__proto__" then r' else (k, x') :: r')
      | _, _ => None
      end
  end.

Fixpoint parse_shape (o : object) (shape : list (string * schema))
  : option object :=
  match shape with
  | [] => Some []
  | (k, sk) :: r =>
      match safeParse sk (field o k), parse_shape o r with
      | Some x', Some r' =>
          Some (if has_key o k
                then (k, x') :: r'
                else match x' with
                     | VUndefined => r'
                     | _ => (k, x') :: r'
                     end)
      | _, _ => None
      end
  end.

(** An object without its own key [__proto__]; and a record as the schema
    of [add-records] gives it back. *)
Fixpoint without_proto (o : object) : object :=
  match o with
  | [] => []
  | (k, x) :: r =>
      if String.eqb k "__proto__" then without_proto r
      else (k, x) :: without_proto r
  end.

Definition as_record (v : value) : value :=
  match v with
  | VObject o => VObject (without_proto o)
  | _ => v
  end.

(** An array of strings. *)
Definition all_strings (items : list value) : bool :=
  forallb (fun x => match x with VString _ => true | _ => false end) items.

(** The request [getRecords] sends for the parameters [o]. *)
Definition records_request (o : object) : value :=
  VObject [ ("app", field o "app");
            ("query", field o "query");
            ("fields", field o "fields");
            ("totalCount",
              match field o "totalCount" with
              | VBool b => VBool b
              | _ => VBool true
              end) ].

(** A tool name after the removal of a leading family prefix. *)
Definition without_family (name : string) : string :=
  if JsString.startsWith name "kintone-"
  then JsString.replace name "kintone-" ""
  else name.

(** A response whose properties can be read. *)
Definition readable (response : value) : Prop :=
  response <> VNull /\ response <> VUndefined.

(** Case analysis on the scrutinee of a [match] or [if] of the goal. *)
Ltac split_match :=
  match goal with
  | |- context [match ?x with _ => _ end] => destruct x eqn:?; simpl
  end.

(* ================================================================== *)
(** ** Facts about the string methods *)
(* ================================================================== *)

Module JsStringFacts.
Import JsString.

#[local] Arguments startsWith : simpl never.

Lemma length_app (a b : string) :
  String.length (a ++ b) = String.length a + String.length b.
Proof. induction a as [|c a IH]; simpl; [reflexivity | now rewrite IH]. Qed.

Lemma length_drop n s : String.length (drop n s) = String.length s - n.
Proof.
  revert s; induction n as [|n IH]; intros [|c s]; simpl; auto; lia.
Qed.

Lemma startsWith_cut s p :
  startsWith s p = true -> s = p ++ drop (String.length p) s.
Proof.
  unfold startsWith. revert s; induction p as [|a p IH]; intros s H; simpl.
  - reflexivity.
  - destruct s as [|b s]; simpl in H; [discriminate|].
    destruct (ascii_dec a b) as [->|]; [|discriminate].
    simpl. f_equal. now apply IH.
Qed.

Lemma find_startsWith s p : startsWith s p = true -> find s p = Some 0.
Proof. intros H. destruct s; simpl; now rewrite H. Qed.

(** [find] gives a position where the pattern stands ... *)
Lemma find_cut s p i :
  find s p = Some i ->
  s = take i s ++ p ++ drop (i + String.length p) s.
Proof.
  revert i; induction s as [|c s IH]; intros i; simpl.
  - destruct (startsWith "" p) eqn:E; [|discriminate].
    intros [= <-]. simpl. now apply startsWith_cut in E.
  - destruct (startsWith (String c s) p) eqn:E.
    + intros [= <-]. simpl. now apply startsWith_cut in E.
    + destruct (find s p) as [j|] eqn:F; [|discriminate].
      simpl. intros [= <-]. simpl. f_equal. now apply IH.
Qed.

(** ... and it is the first such position. *)
Lemma find_first s p i j :
  find s p = Some i -> j < i -> startsWith (drop j s) p = false.
Proof.
  revert i j; induction s as [|c s IH]; intros i j; simpl.
  - destruct (startsWith "" p); [|discriminate]. intros [= <-]; lia.
  - destruct (startsWith (String c s) p) eqn:E.
    + intros [= <-]; lia.
    + destruct (find s p) as [k|] eqn:F; [|discriminate].
      simpl. intros [= <-] Hj. destruct j as [|j]; simpl; [assumption|].
      apply (IH k); [reflexivity|lia].
Qed.

Lemma find_bound s p i :
  find s p = Some i -> i + String.length p <= String.length s.
Proof.
  revert i; induction s as [|c s IH]; intros i; simpl.
  - destruct (startsWith "" p) eqn:E; [|discriminate].
    intros [= <-]. apply startsWith_cut in E.
    apply (f_equal String.length) in E. rewrite length_app in E.
    simpl in *. lia.
  - destruct (startsWith (String c s) p) eqn:E.
    + intros [= <-]. apply startsWith_cut in E.
      apply (f_equal String.length) in E. rewrite length_app in E.
      simpl in *. lia.
    + destruct (find s p) as [j|] eqn:F; [|discriminate].
      simpl. intros [= <-]. specialize (IH _ eq_refl). lia.
Qed.

(** The bound [split] passes to [split_upto] is enough: any larger bound
    gives the same parts. *)
Lemma split_upto_enough d k k' s :
  d <> "" -> String.length s < k -> String.length s < k' ->
  split_upto k s d = split_upto k' s d.
Proof.
  intros Hd. revert k' s; induction k as [|k IH]; intros k' s Hk Hk'; [lia|].
  destruct k' as [|k']; [lia|]. simpl.
  destruct (find s d) as [i|] eqn:F; [|reflexivity].
  f_equal. pose proof (find_bound _ _ _ F) as B.
  assert (0 < String.length d) by (destruct d; [congruence|simpl; lia]).
  apply IH; rewrite length_drop; lia.
Qed.

(** The equation of [split]: no occurrence, one part; else the part
    before the first occurrence, then the split of the rest. *)
Lemma split_eq s d :
  d <> "" ->
  split s d =
  match find s d with
  | None => [s]
  | Some i => take i s :: split (drop (i + String.length d) s) d
  end.
Proof.
  intros Hd. unfold split at 1. simpl.
  destruct (find s d) as [i|] eqn:F; [|reflexivity].
  f_equal. unfold split. pose proof (find_bound _ _ _ F) as B.
  assert (0 < String.length d) by (destruct d; [congruence|simpl; lia]).
  apply split_upto_enough; [assumption| |]; rewrite ?length_drop; lia.
Qed.

Lemma replace_absent s p r : includes s p = false -> replace s p r = s.
Proof. unfold includes, replace. now destruct (find s p). Qed.

Lemma replace_prefix s p :
  startsWith s p = true -> replace s p "" = drop (String.length p) s.
Proof. intros H. unfold replace. now rewrite (find_startsWith _ _ H). Qed.

Lemma includes_startsWith s p : startsWith s p = true -> includes s p = true.
Proof. intros H. unfold includes. now rewrite (find_startsWith _ _ H). Qed.

End JsStringFacts.

Module SplitFacts.
Import JsString JsStringFacts.

Lemma split_upto_not_nil k s d : split_upto k s d <> [].
Proof. destruct k; simpl; [|destruct (find s d)]; discriminate. Qed.

Lemma last_cons_not_nil (x : string) (l : list string) :
  l <> [] -> List.last (x :: l) "" = List.last l "".
Proof. destruct l; [congruence | reflexivity]. Qed.

Lemma split_absent s d : includes s d = false -> split s d = [s].
Proof.
  unfold includes, split. simpl. now destruct (find s d).
Qed.

(** The last part of a split is no longer than the string. *)
Lemma last_split_upto_length k s d :
  String.length (List.last (split_upto k s d) "") <= String.length s.
Proof.
  revert s; induction k as [|k IH]; intros s; cbn [split_upto];
    [simpl; lia|].
  destruct (find s d) as [i|]; [|simpl; lia].
  rewrite last_cons_not_nil by apply split_upto_not_nil.
  specialize (IH (drop (i + String.length d) s)).
  rewrite length_drop in IH. lia.
Qed.

(** After the first delimiter: the last part of the whole is the last
    part of the rest. *)
Lemma last_split_rest s d i :
  d <> "" -> find s d = Some i ->
  List.last (split s d) ""
  = List.last (split (drop (i + String.length d) s) d) "".
Proof.
  intros Hd F. rewrite (split_eq s d Hd), F.
  apply last_cons_not_nil. apply split_upto_not_nil.
Qed.

(** The last part equals the whole string only when the string has no
    delimiter. *)
Lemma last_split_whole s d :
  d <> "" ->
  (List.last (split s d) "" = s <-> includes s d = false).
Proof.
  intros Hd. split.
  - intros L. unfold includes. destruct (find s d) as [i|] eqn:F;
      [exfalso | reflexivity].
    rewrite (last_split_rest s d i Hd F) in L.
    pose proof (last_split_upto_length
                  (S (String.length (drop (i + String.length d) s)))
                  (drop (i + String.length d) s) d) as B.
    fold (split (drop (i + String.length d) s) d) in B.
    rewrite L, length_drop in B.
    pose proof (find_bound _ _ _ F).
    assert (0 < String.length d) by (destruct d; [congruence|simpl; lia]).
    lia.
  - intros A. now rewrite (split_absent s d A).
Qed.

Lemma after_first_delimiter_drop raw i :
  find raw "___" = Some i ->
  after_first_delimiter raw = drop (i + 3) raw.
Proof.
  intros F. unfold after_first_delimiter, substring, indexOf. rewrite F.
  f_equal. lia.
Qed.

End SplitFacts.

(* ================================================================== *)
(** ** Facts about the switch and the exits *)
(* ================================================================== *)

Lemma bind_Next {A B : Type} (m : flow A) (k : A -> flow B) (b : B) :
  bind m k = Next b -> exists a, m = Next a /\ k a = Next b.
Proof. destruct m as [a| |]; simpl; [eauto | discriminate | discriminate]. Qed.

Lemma getKintoneConfig_not_Return P r : getKintoneConfig P <> Return r.
Proof. unfold getKintoneConfig. repeat split_match; discriminate. Qed.

Lemma createKintoneClient_not_Return P config r :
  createKintoneClient P config <> Return r.
Proof.
  unfold createKintoneClient, construct. repeat split_match; discriminate.
Qed.

(** A value whose properties can be read has its keys, and the other way
    round. *)
Lemma object_readable o : readable (VObject o).
Proof. split; discriminate. Qed.

Lemma prop_readable response k :
  readable response -> prop response k = Next (opt response k).
Proof. intros [N U]. now destruct response. Qed.

Lemma prop_unreadable response k :
  ~ readable response -> prop response k = Throw (TypeError k).
Proof.
  unfold readable. intros H.
  destruct response; try reflexivity; exfalso; apply H; split; discriminate.
Qed.

Lemma readable_dec response : readable response \/ ~ readable response.
Proof.
  unfold readable.
  destruct response;
    try (left; split; discriminate); right; intros [A B]; congruence.
Qed.

Lemma Object_keys_readable event :
  readable event -> Object_keys event = Next (own_keys event).
Proof. intros [N U]. now destruct event. Qed.

Lemma Object_keys_unreadable event :
  ~ readable event -> Object_keys event = Throw (TypeError "keys").
Proof.
  unfold readable. intros H.
  destruct event; try reflexivity; exfalso; apply H; split; discriminate.
Qed.

Lemma Object_keys_not_Return event r : Object_keys event <> Return r.
Proof. destruct event; discriminate. Qed.

Lemma opt_unreadable event k : ~ readable event -> opt event k = VUndefined.
Proof.
  unfold readable. intros H.
  destruct event; try reflexivity; exfalso; apply H; split; discriminate.
Qed.

Lemma Object_keys_Next event keys :
  Object_keys event = Next keys -> readable event.
Proof. destruct event; try discriminate; intros _; split; discriminate. Qed.

(** A value with a property that is not [undefined] is an object with a
    key. *)
Lemma opt_readable event k :
  opt event k <> VUndefined -> readable event.
Proof. destruct event; simpl; try congruence; intros _; split; discriminate. Qed.

Lemma opt_not_function event k :
  opt event k <> VUndefined -> is_function event = false.
Proof. destruct event; simpl; congruence. Qed.

Lemma function_readable event : is_function event = true -> readable event.
Proof. destruct event; simpl; try discriminate. intros _. split; discriminate. Qed.

Lemma opt_has_keys event k :
  opt event k <> VUndefined ->
  Nat.eqb (List.length (own_keys event)) 0 = false.
Proof.
  destruct event as [| | | | | |o|]; simpl; try congruence.
  destruct o as [|[k' v] rest]; simpl; [congruence | reflexivity].
Qed.

Lemma truthy_defined v : truthy v = true -> v <> VUndefined.
Proof. intros T ->. discriminate. Qed.

Lemma is_string_defined v lit : is_string v lit = true -> v <> VUndefined.
Proof. intros T ->. discriminate. Qed.

Lemma and_startsWith_not_Return v p r : and_startsWith v p <> Return r.
Proof.
  unfold and_startsWith, call_startsWith. repeat split_match; discriminate.
Qed.

Lemma on_string_not_Return callee v f r : on_string callee v f <> Return r.
Proof. unfold on_string. destruct v; discriminate. Qed.

Lemma prop_not_Return v k r : prop v k <> Return r.
Proof. unfold prop. destruct v; discriminate. Qed.

Lemma call_includes_not_Return v d r : call_includes v d <> Return r.
Proof. unfold call_includes. destruct v; discriminate. Qed.


Lemma run_tool_invalid P client name params sc :
  schema_of name = Some sc ->
  safeParse sc params = None ->
  run_tool P client (VString name) params = Throw (ZodError sc params).
Proof.
  unfold schema_of, run_tool, parse.
  destruct (String.eqb name "get-records");
    [intros [= <-] ->; reflexivity|].
  destruct (String.eqb name "get-app");
    [intros [= <-] ->; reflexivity|].
  destruct (String.eqb name "add-records");
    [intros [= <-] ->; reflexivity|].
  destruct (String.eqb_spec name "get-form-fields") as [->|];
    [intros [= <-] ->; reflexivity|discriminate].
Qed.

Lemma attempt_outcome P call wrap fallback :
  is_outcome (KintoneTools.attempt P call wrap fallback).
Proof.
  unfold KintoneTools.attempt, KintoneTools.succeeded, KintoneTools.failed.
  destruct call as [e|response]; [|destruct (wrap response)];
    eexists _, _; split; reflexivity.
Qed.

(** The [switch] gives the outcome object of a tool, or goes to [default],
    or throws the [ZodError] of [parse]; it does not leave the handler by
    itself. *)
Lemma run_tool_cases P client tool params :
  (exists result, run_tool P client tool params = Next (Some result)
                  /\ is_outcome result)
  \/ run_tool P client tool params = Next None
  \/ exists sc, run_tool P client tool params = Throw (ZodError sc params).
Proof.
  unfold run_tool, parse.
  destruct tool; try (right; left; reflexivity).
  repeat split_match;
    try (left; eexists; split; [reflexivity | apply attempt_outcome]);
    try (right; left; reflexivity);
    try (right; right; eexists; reflexivity).
Qed.

Lemma unsupported_outcome text : is_outcome (unsupported text).
Proof. eexists _, _; split; reflexivity. Qed.

Lemma internal_error_outcome P message : is_outcome (internal_error P message).
Proof. eexists _, _; split; reflexivity. Qed.

Lemma jsonrpc_error_is_jsonrpc event code message data :
  is_jsonrpc event (jsonrpc_error event code message data).
Proof. eexists _, _; split; [reflexivity | now right]. Qed.

Lemma jsonrpc_result_is_jsonrpc P event result :
  is_jsonrpc event (jsonrpc_result P event result).
Proof. eexists _, _; split; [reflexivity | now left]. Qed.

Lemma answer_tools_call P headers event wrapped rpc statusCode payload :
  is_string (opt event "method") "tools/call" = true ->
  answer P headers event wrapped rpc statusCode payload = rpc.
Proof. intros M. unfold answer. now rewrite M. Qed.

Module MultiEnvelopeFacts.
Import MultiEnvelope.

Lemma http_shaped_not_Return cc event r : http_shaped cc event <> Return r.
Proof.
  unfold http_shaped.
  destruct (truthy (official_tool_name cc)); [discriminate|].
  destruct (has_operation event); [discriminate|].
  destruct (and_startsWith (opt event "name") "MyKintoneTarget___")
    as [[|]|?|?] eqn:E; simpl; try discriminate.
  now apply and_startsWith_not_Return in E.
Qed.

(** What [render] returns, given the value of the wrapping condition. *)
Lemma render_answer P cc event wrapped rpc statusCode payload :
  http_shaped cc event = Next wrapped ->
  render P cc event rpc statusCode payload
  = Return (answer P headers event wrapped rpc statusCode payload).
Proof.
  intros W. unfold render, answer. rewrite W. simpl.
  now destruct (is_string (opt event "method") "tools/call"), wrapped.
Qed.

(** [render] leaves the handler, or throws where the wrapping condition
    does; the condition is not evaluated for a [tools/call]. *)
Lemma render_cases P cc event rpc statusCode payload :
  (exists wrapped,
     render P cc event rpc statusCode payload
     = Return (answer P headers event wrapped rpc statusCode payload))
  \/ (exists e,
        render P cc event rpc statusCode payload = Throw e
        /\ is_string (opt event "method") "tools/call" = false).
Proof.
  destruct (http_shaped cc event) as [w|r|e] eqn:W.
  - left. exists w. now apply render_answer.
  - now apply http_shaped_not_Return in W.
  - unfold render, answer. rewrite W. simpl.
    destruct (is_string (opt event "method") "tools/call").
    + left. now exists true.
    + right. now exists e.
Qed.

(** Once the request-detail log has been passed, the wrapping condition
    does not throw: it calls [startsWith] on [event.name] only. *)
Lemma http_shaped_after_log cc event :
  log_request_details event = Next tt ->
  exists wrapped, http_shaped cc event = Next wrapped.
Proof.
  unfold log_request_details, http_shaped. intros L.
  destruct (truthy (official_tool_name cc)); [eauto|].
  destruct (has_operation event); [eauto|].
  destruct (and_startsWith (opt event "name") "MyKintoneTarget___")
    as [[|]| |]; simpl in *; try discriminate; eauto.
Qed.

Lemma resolve_parts P cc event kind tool params :
  resolve P cc event = Next (kind, tool, params) ->
  classify cc event = Next kind /\ log_request_details event = Next tt.
Proof.
  unfold resolve. intros R.
  apply bind_Next in R as (keys & _ & R).
  apply bind_Next in R as (k & C & R).
  apply bind_Next in R as ([t p] & _ & R).
  apply bind_Next in R as ([] & L & R).
  apply bind_Next in R as (t' & _ & R).
  injection R as <- _ _. now split.
Qed.

(** The resolution begins with [Object.keys(event)]: it gets through only
    for an event that is neither [undefined] nor [null]. *)
Lemma resolve_readable P cc event kind tool params :
  resolve P cc event = Next (kind, tool, params) -> readable event.
Proof.
  unfold resolve. intros R.
  apply bind_Next in R as (keys & K & _).
  now apply Object_keys_Next in K.
Qed.

(** Past the log before the [try] block, the handler is its [try] and
    [catch]. *)
Lemma handler_readable P cc event :
  readable event ->
  is_function event = false ->
  handler P cc event
  = match try_catch (try_block P cc event) (catch_block P cc event) with
    | Next response | Return response => Resolved response
    | Throw e => Rejected e
    end.
Proof.
  intros R F. unfold handler, log_event_details.
  now rewrite (Object_keys_readable event R), F.
Qed.

(** A function for an event gets as far as the length of its JSON text. *)
Lemma handler_function P cc event :
  is_function event = true ->
  handler P cc event = Rejected (TypeError "length").
Proof.
  intros F. unfold handler, log_event_details.
  now rewrite (Object_keys_readable event (function_readable event F)), F.
Qed.

Lemma handler_unreadable P cc event :
  ~ readable event -> handler P cc event = Rejected (TypeError "keys").
Proof.
  intros R. unfold handler, log_event_details.
  now rewrite (Object_keys_unreadable event R).
Qed.

Lemma gateway_name_is_official cc :
  truthy (gateway_tool_name cc) = true ->
  truthy (official_tool_name cc) = true.
Proof.
  unfold official_tool_name, gateway_tool_name, customContext, or_else.
  destruct (truthy (opt cc "custom")) eqn:C; [|congruence].
  intros T. now rewrite T.
Qed.

(** The requests of the gateway, operation-id, legacy [name] and API
    Gateway branches count as wrapped. *)
Lemma http_kind_wrapped cc event kind wrapped :
  classify cc event = Next kind ->
  http_shaped cc event = Next wrapped ->
  http_kind kind = true ->
  wrapped = true.
Proof.
  unfold classify, http_shaped.
  destruct (truthy (gateway_tool_name cc)) eqn:G.
  { rewrite (gateway_name_is_official cc G). congruence. }
  destruct (truthy (official_tool_name cc)); [congruence|].
  destruct (Nat.eqb _ 0); [intros [= <-]; discriminate|].
  destruct (_ && _)%bool; [intros [= <-]; discriminate|].
  destruct (has_operation event); [congruence|].
  destruct (and_startsWith (opt event "name") _) as [[|]| |]; simpl;
    try congruence.
  destruct (and_startsWith (opt event "toolName") _) as [[|]| |]; simpl;
    try discriminate; [intros [= <-]; discriminate|].
  destruct (and_startsWith (opt event "tool_name") _) as [[|]| |]; simpl;
    try discriminate; [intros [= <-]; discriminate|].
  destruct (_ && _)%bool; [intros [= <-]; discriminate|].
  destruct (_ || _)%bool; [congruence|].
  destruct (_ && _)%bool; intros [= <-]; discriminate.
Qed.

(** With the tool name in hand, the [try] block is at the [switch]. *)
Lemma try_block_at_switch P cc event kind client tool params :
  reaches_switch P (resolve P cc event) kind client tool params ->
  try_block P cc event = dispatch P client cc event tool params.
Proof.
  intros (config & C & K & R & T). unfold try_block.
  rewrite C; simpl. rewrite K; simpl. rewrite R; simpl. now rewrite T.
Qed.

(** At the [switch] the wrapping condition has a value, which is [true] on
    the wrapped branches. *)
Lemma wrapped_at_switch P cc event kind client tool params :
  reaches_switch P (resolve P cc event) kind client tool params ->
  exists wrapped,
    http_shaped cc event = Next wrapped
    /\ (http_kind kind = true -> wrapped = true).
Proof.
  intros (config & _ & _ & R & _).
  apply resolve_parts in R as [C L].
  destruct (http_shaped_after_log cc event L) as [w W].
  exists w. split; [exact W|]. now apply (http_kind_wrapped cc event kind).
Qed.

End MultiEnvelopeFacts.

Module CompactFacts.
Import Compact.

Lemma compact_render_answer P cc event rpc statusCode payload :
  readable event ->
  render P cc event rpc statusCode payload
  = Return (answer P headers event (truthy (gateway_tool_name cc))
              rpc statusCode payload).
Proof.
  intros R. unfold render, answer. rewrite (prop_readable _ _ R). cbn [bind].
  now destruct (is_string (opt event "method") "tools/call"),
               (truthy (gateway_tool_name cc)).
Qed.

(** On [undefined] and [null] no answer is rendered. *)
Lemma compact_render_unreadable P cc event rpc statusCode payload :
  ~ readable event ->
  render P cc event rpc statusCode payload = Throw (TypeError "method").
Proof.
  intros R. unfold render. now rewrite (prop_unreadable _ _ R).
Qed.

Lemma compact_try_block_at_switch P cc event kind client tool params :
  reaches_switch P (resolve cc event) kind client tool params ->
  try_block P cc event = dispatch P client cc event tool params.
Proof.
  intros (config & C & K & R & T). unfold try_block.
  rewrite C; simpl. rewrite K; simpl. rewrite R; simpl. now rewrite T.
Qed.

Lemma compact_classify_not_Return cc event r : classify cc event <> Return r.
Proof.
  unfold classify, prop.
  destruct (_ && _)%bool; [discriminate|].
  destruct event; simpl; try discriminate; now destruct (_ && _)%bool.
Qed.

Lemma resolve_kind cc event kind tool params :
  resolve cc event = Next (kind, tool, params) ->
  classify cc event = Next kind.
Proof.
  unfold resolve. intros R.
  apply bind_Next in R as (k & C & R).
  apply bind_Next in R as ([t p] & _ & R).
  apply bind_Next in R as (t' & _ & R).
  now injection R as <- _ _.
Qed.

(** The requests of the gateway branch, and only they, count as wrapped. *)
Lemma gateway_kind_wrapped cc event kind :
  classify cc event = Next kind ->
  truthy (gateway_tool_name cc) = gateway_kind kind.
Proof.
  unfold classify.
  destruct (truthy (gateway_tool_name cc)) eqn:G.
  - assert (C : truthy (customContext cc) = true).
    { unfold gateway_tool_name in G.
      destruct (customContext cc); simpl in *; congruence. }
    rewrite C. now intros [= <-].
  - rewrite andb_false_r. intros C.
    apply bind_Next in C as (method & _ & C).
    destruct (_ && _)%bool; now injection C as <-.
Qed.

(** The classification of an event that can be read. *)
Lemma compact_classify_readable cc event :
  readable event ->
  classify cc event
  = Next (if truthy (customContext cc) && truthy (gateway_tool_name cc)
          then GatewayManaged
          else if is_string (opt event "method") "tools/call"
                  && truthy (opt event "params")
          then JsonRpcCall
          else DirectInvoke).
Proof.
  intros R. unfold classify. rewrite (prop_readable _ _ R). cbn [bind].
  destruct (_ && _)%bool; [reflexivity|]. now destruct (_ && _)%bool.
Qed.

End CompactFacts.

(* ================================================================== *)
(** ** Every exit of the handlers *)
(* ================================================================== *)

Module MultiEnvelopeExits.
Import MultiEnvelope MultiEnvelopeFacts.

Lemma classify_not_Return cc event r : classify cc event <> Return r.
Proof.
  unfold classify.
  repeat first
    [ discriminate
    | match goal with
      | |- context [and_startsWith ?v ?p] =>
          let E := fresh "E" in
          destruct (and_startsWith v p) as [[|]|?|?] eqn:E; simpl;
          [ | | now apply and_startsWith_not_Return in E | ]
      end
    | split_match ].
Qed.

Lemma log_not_Return event r : log_request_details event <> Return r.
Proof.
  unfold log_request_details.
  repeat first
    [ discriminate
    | match goal with
      | |- context [and_startsWith ?v ?p] =>
          let E := fresh "E" in
          destruct (and_startsWith v p) as [[|]|?|?] eqn:E; simpl;
          [ | | now apply and_startsWith_not_Return in E | ]
      end ].
Qed.

Lemma normalize_not_Return tool r : normalize tool <> Return r.
Proof.
  unfold normalize.
  destruct (and_startsWith tool "kintone-") as [[|]|?|?] eqn:E; simpl;
    try discriminate.
  - apply on_string_not_Return.
  - now apply and_startsWith_not_Return in E.
Qed.

Lemma gateway_tool_not_Return v r : gateway_tool v <> Return r.
Proof.
  unfold gateway_tool.
  destruct (call_includes v delimiter) as [[|]|?|?] eqn:E; simpl;
    try discriminate.
  - apply on_string_not_Return.
  - now apply call_includes_not_Return in E.
Qed.

(** The one [return] before the log: the API Gateway branch, on a body
    that is not JSON. *)
Lemma extract_Return P cc event kind r :
  extract P cc event kind = Return r ->
  kind = HttpProxy /\ r = invalid_body P.
Proof.
  destruct kind as [| | | |[| |]| | | |]; simpl.
  - destruct (gateway_tool _) eqn:E; simpl; try discriminate.
    now apply gateway_tool_not_Return in E.
  - discriminate.
  - destruct (and_startsWith _ _) as [[|]|?|?] eqn:E; simpl;
      try discriminate.
    + destruct (on_string _ _ _) eqn:F; simpl; try discriminate.
      now apply on_string_not_Return in F.
    + now apply and_startsWith_not_Return in E.
  - discriminate.
  - destruct (on_string _ _ _) eqn:F; simpl; try discriminate.
    now apply on_string_not_Return in F.
  - destruct (on_string _ _ _) eqn:F; simpl; try discriminate.
    now apply on_string_not_Return in F.
  - destruct (on_string _ _ _) eqn:F; simpl; try discriminate.
    now apply on_string_not_Return in F.
  - destruct (prop _ "body") as [body|?|?] eqn:B; simpl; try discriminate.
    + destruct (truthy body); [|discriminate].
      destruct (JSON_parse P body) as [bodyData|]; simpl;
        [|discriminate].
      destruct (prop bodyData "tool") eqn:T; simpl; try discriminate.
      * destruct (prop bodyData "params") eqn:Q; simpl; try discriminate.
        now apply prop_not_Return in Q.
      * now apply prop_not_Return in T.
    + now apply prop_not_Return in B.
  - destruct (truthy (opt event "body")).
    + destruct (JSON_parse P (opt event "body")) as [data|]; simpl.
      * destruct (prop data "tool") eqn:T; simpl; try discriminate.
        -- destruct (prop data "params") eqn:Q; simpl; try discriminate.
           now apply prop_not_Return in Q.
        -- now apply prop_not_Return in T.
      * intros [= <-]. now split.
    + simpl. discriminate.
  - discriminate.
  - discriminate.
Qed.

Lemma resolve_Return P cc event r :
  resolve P cc event = Return r ->
  classify cc event = Next HttpProxy /\ r = invalid_body P.
Proof.
  unfold resolve.
  destruct (Object_keys event) as [keys|?|?] eqn:K; simpl;
    [ | intros _; now apply Object_keys_not_Return in K | discriminate ].
  destruct (classify cc event) as [kind|?|?] eqn:C; simpl;
    [ | intros _; now apply classify_not_Return in C | discriminate ].
  destruct (extract P cc event kind) as [[tool params]|r'|?] eqn:X; simpl;
    [ | | discriminate ].
  - destruct (log_request_details event) as [[]|?|?] eqn:L; simpl;
      [ | intros _; now apply log_not_Return in L | discriminate ].
    destruct (normalize tool) eqn:N; simpl; try discriminate.
    intros _. now apply normalize_not_Return in N.
  - intros [= <-]. apply extract_Return in X as [-> ->]. now split.
Qed.

(** Every way out of the [try] block. *)
Lemma try_block_exits P cc event :
  (exists e, try_block P cc event = Throw e)
  \/ (try_block P cc event = Return (invalid_body P)
      /\ classify cc event = Next HttpProxy)
  \/ (exists wrapped rpc statusCode payload,
        try_block P cc event
        = Return (answer P headers event wrapped rpc statusCode payload)
        /\ is_jsonrpc event rpc /\ is_outcome payload).
Proof.
  unfold try_block.
  destruct (getKintoneConfig P) as [config|?|?] eqn:G; simpl;
    [ | now apply getKintoneConfig_not_Return in G | eauto ].
  destruct (createKintoneClient P config) as [client|?|?] eqn:K; simpl;
    [ | now apply createKintoneClient_not_Return in K | eauto ].
  destruct (resolve P cc event) as [[[kind tool] params]|r'|?] eqn:R; simpl;
    [ | | eauto ].
  - apply resolve_parts in R as [_ L].
    destruct (http_shaped_after_log cc event L) as [w W].
    destruct (truthy tool); simpl.
    + unfold dispatch.
      destruct (run_tool_cases P client tool params)
        as [(result & -> & O) | [-> | (sc & ->)]]; simpl.
      * rewrite (render_answer _ _ _ _ _ _ _ W).
        right; right. exists w; do 3 eexists. split; [reflexivity|].
        split; [apply jsonrpc_result_is_jsonrpc | exact O].
      * rewrite (render_answer _ _ _ _ _ _ _ W).
        right; right. exists w; do 3 eexists. split; [reflexivity|].
        split; [apply jsonrpc_error_is_jsonrpc | apply unsupported_outcome].
      * eauto.
    + rewrite (render_answer _ _ _ _ _ _ _ W).
      right; right. exists w; do 3 eexists. split; [reflexivity|].
      split; [apply jsonrpc_error_is_jsonrpc|].
      eexists _, _; split; reflexivity.
  - apply resolve_Return in R as [C ->]. right; left. now split.
Qed.

(** Every way the handler settles: it resolves with an answer in one of
    the three forms or with the invalid-body answer, or the [catch] block
    itself throws, which it does for no [tools/call]. *)
Lemma handler_exits P cc event :
  (exists e, handler P cc event = Rejected e
             /\ is_string (opt event "method") "tools/call" = false)
  \/ (handler P cc event = Resolved (invalid_body P)
      /\ classify cc event = Next HttpProxy)
  \/ (exists wrapped rpc statusCode payload,
        handler P cc event
        = Resolved (answer P headers event wrapped rpc statusCode payload)
        /\ is_jsonrpc event rpc /\ is_outcome payload).
Proof.
  destruct (readable_dec event) as [Re|Re];
    [ | left; exists (TypeError "keys");
        split; [now apply handler_unreadable|];
        now rewrite (opt_unreadable event "method" Re) ].
  destruct (is_function event) eqn:F;
    [ left; exists (TypeError "length");
      split; [now apply handler_function|];
      destruct event; try discriminate F; reflexivity
    | rewrite (handler_readable P cc event Re F) ].
  destruct (try_block_exits P cc event)
    as [(e & ->) | [(-> & C) | (w & rpc & st & payload & -> & J & O)]];
    simpl.
  - unfold catch_block.
    match goal with
    | |- context [render P cc event ?rpc ?st ?payload] =>
        destruct (render_cases P cc event rpc st payload)
          as [(w & ->) | (e' & -> & M)]
    end.
    + right; right. exists w; do 3 eexists. split; [reflexivity|].
      split; [apply jsonrpc_error_is_jsonrpc|].
      apply (internal_error_outcome P).
    + left. exists e'. now split.
  - right; left. now split.
  - right; right. exists w, rpc, st, payload. now repeat split.
Qed.

End MultiEnvelopeExits.

Module CompactExits.
Import Compact CompactFacts.

Lemma extractToolName_not_Return v r : extractToolName v <> Return r.
Proof.
  unfold extractToolName.
  destruct (truthy v); simpl.
  - destruct (call_includes v delimiter) as [[|]|?|?] eqn:E; simpl;
      try discriminate.
    + apply on_string_not_Return.
    + now apply call_includes_not_Return in E.
  - discriminate.
Qed.

Lemma compact_normalize_not_Return toolName r : normalize toolName <> Return r.
Proof.
  unfold normalize.
  destruct (and_startsWith toolName "kintone-") as [[|]|?|?] eqn:E; simpl;
    try discriminate.
  - apply on_string_not_Return.
  - now apply and_startsWith_not_Return in E.
Qed.

Lemma resolve_not_Return cc event r : resolve cc event <> Return r.
Proof.
  unfold resolve, extract.
  destruct (classify cc event) as [kind|?|?] eqn:C; simpl;
    [ | now apply compact_classify_not_Return in C | discriminate ].
  destruct kind; simpl;
    try (destruct (normalize _) eqn:N; simpl; try discriminate;
         now apply compact_normalize_not_Return in N).
  - destruct (extractToolName _) as [t|?|?] eqn:X; simpl;
      [ | now apply extractToolName_not_Return in X | discriminate ].
    destruct (normalize t) eqn:N; simpl; try discriminate.
    now apply compact_normalize_not_Return in N.
  - destruct (extractToolName _) as [t|?|?] eqn:X; simpl;
      [ | now apply extractToolName_not_Return in X | discriminate ].
    destruct (normalize t) eqn:N; simpl; try discriminate.
    now apply compact_normalize_not_Return in N.
Qed.

(** The handler of [part_000] resolves, in one of the three forms, for
    every event that is neither [undefined] nor [null]. *)
Lemma compact_handler_exits P cc event :
  readable event ->
  exists rpc statusCode payload,
    handler P cc event
    = Resolved (answer P headers event (truthy (gateway_tool_name cc))
                  rpc statusCode payload)
    /\ is_jsonrpc event rpc /\ is_outcome payload.
Proof.
  intros Re.
  assert (Caught : forall e,
    exists rpc statusCode payload,
      match catch_block P cc event e with
      | Next response | Return response => Resolved response
      | Throw e' => Rejected e'
      end
      = Resolved (answer P headers event (truthy (gateway_tool_name cc))
                    rpc statusCode payload)
      /\ is_jsonrpc event rpc /\ is_outcome payload).
  { intros e. unfold catch_block. rewrite (compact_render_answer _ _ _ _ _ _ Re).
    do 3 eexists. split; [reflexivity|].
    split; [apply jsonrpc_error_is_jsonrpc|].
    apply (internal_error_outcome P). }
  unfold handler, try_block.
  destruct (getKintoneConfig P) as [config|?|e] eqn:G; simpl;
    [ | now apply getKintoneConfig_not_Return in G | apply Caught ].
  destruct (createKintoneClient P config) as [client|?|e] eqn:K; simpl;
    [ | now apply createKintoneClient_not_Return in K | apply Caught ].
  destruct (resolve cc event) as [[[kind tool] params]|?|e] eqn:R; simpl;
    [ | now apply resolve_not_Return in R | apply Caught ].
  destruct (truthy tool); simpl.
  - unfold dispatch.
    destruct (run_tool_cases P client tool params)
      as [(result & -> & O) | [-> | (sc & ->)]]; simpl.
    + rewrite (compact_render_answer _ _ _ _ _ _ Re).
      do 3 eexists. split; [reflexivity|].
      split; [apply jsonrpc_result_is_jsonrpc | exact O].
    + rewrite (compact_render_answer _ _ _ _ _ _ Re).
      do 3 eexists. split; [reflexivity|].
      split; [apply jsonrpc_error_is_jsonrpc | apply unsupported_outcome].
    + apply Caught.
  - rewrite (compact_render_answer _ _ _ _ _ _ Re).
    do 3 eexists. split; [reflexivity|].
    split; [apply jsonrpc_error_is_jsonrpc|].
    eexists _, _; split; reflexivity.
Qed.

(** On [undefined] and [null] the [try] block throws, at the latest where
    it reads [event.method] for the form of its answer ... *)
Lemma compact_try_block_unreadable P cc event :
  ~ readable event -> exists e, try_block P cc event = Throw e.
Proof.
  intros Re. unfold try_block.
  destruct (getKintoneConfig P) as [config|?|e] eqn:G; simpl;
    [ | now apply getKintoneConfig_not_Return in G | eauto ].
  destruct (createKintoneClient P config) as [client|?|e] eqn:K; simpl;
    [ | now apply createKintoneClient_not_Return in K | eauto ].
  destruct (resolve cc event) as [[[kind tool] params]|?|e] eqn:R; simpl;
    [ | now apply resolve_not_Return in R | eauto ].
  destruct (truthy tool); simpl.
  - unfold dispatch.
    destruct (run_tool_cases P client tool params)
      as [(result & -> & O) | [-> | (sc & ->)]]; simpl;
      rewrite ?(compact_render_unreadable _ _ _ _ _ _ Re); eauto.
  - rewrite (compact_render_unreadable _ _ _ _ _ _ Re). eauto.
Qed.

(** ... and the [catch] block throws there again: the handler rejects. *)
Lemma compact_handler_unreadable P cc event :
  ~ readable event -> handler P cc event = Rejected (TypeError "method").
Proof.
  intros Re. unfold handler.
  destruct (compact_try_block_unreadable P cc event Re) as [e ->].
  simpl. unfold catch_block.
  now rewrite (compact_render_unreadable _ _ _ _ _ _ Re).
Qed.

End CompactExits.

(* ================================================================== *)
(** ** The three ways through the switch *)
(* ================================================================== *)

Module MultiEnvelopeSwitch.
Import MultiEnvelope MultiEnvelopeFacts.

Lemma switch_readable P cc event kind client tool params :
  reaches_switch P (resolve P cc event) kind client tool params ->
  readable event.
Proof. intros (config & _ & _ & R & _). now apply resolve_readable in R. Qed.

(** A tool ran: its outcome is rendered with status 200. *)
Lemma tool_ran P cc event kind client tool params result :
  reaches_switch P (resolve P cc event) kind client tool params ->
  is_function event = false ->
  run_tool P client tool params = Next (Some result) ->
  exists wrapped,
    http_shaped cc event = Next wrapped
    /\ (http_kind kind = true -> wrapped = true)
    /\ handler P cc event
       = Resolved (answer P headers event wrapped
                     (jsonrpc_result P event result) 200 result).
Proof.
  intros H F Hrun.
  destruct (wrapped_at_switch _ _ _ _ _ _ _ H) as (w & W & Hk).
  exists w. split; [exact W|]. split; [exact Hk|].
  rewrite (handler_readable _ _ _ (switch_readable _ _ _ _ _ _ _ H) F).
  rewrite (try_block_at_switch _ _ _ _ _ _ _ H).
  unfold dispatch. rewrite Hrun. simpl bind.
  now rewrite (render_answer _ _ _ _ _ _ _ W).
Qed.

(** No [case] matched: the [default] answer, with status 400. *)
Lemma no_case P cc event kind client tool params :
  reaches_switch P (resolve P cc event) kind client tool params ->
  is_function event = false ->
  run_tool P client tool params = Next None ->
  exists wrapped,
    http_shaped cc event = Next wrapped
    /\ (http_kind kind = true -> wrapped = true)
    /\ handler P cc event
       = Resolved
           (answer P headers event wrapped
              (jsonrpc_error event (-32601)
                 ("未対応のツール: " ++ to_string P tool)
                 (Some (VObject [ ("availableTools", availableTools) ])))
              400 (unsupported (to_string P tool))).
Proof.
  intros H F Hrun.
  destruct (wrapped_at_switch _ _ _ _ _ _ _ H) as (w & W & Hk).
  exists w. split; [exact W|]. split; [exact Hk|].
  rewrite (handler_readable _ _ _ (switch_readable _ _ _ _ _ _ _ H) F).
  rewrite (try_block_at_switch _ _ _ _ _ _ _ H).
  unfold dispatch. rewrite Hrun. simpl bind.
  now rewrite (render_answer _ _ _ _ _ _ _ W).
Qed.

(** A [case] threw: the answer of the [catch] block, with status 500. *)
Lemma case_threw P cc event kind client tool params e :
  reaches_switch P (resolve P cc event) kind client tool params ->
  is_function event = false ->
  run_tool P client tool params = Throw e ->
  exists wrapped,
    http_shaped cc event = Next wrapped
    /\ (http_kind kind = true -> wrapped = true)
    /\ handler P cc event
       = Resolved
           (answer P headers event wrapped
              (jsonrpc_error event (-32603)
                 (message_or P e "内部サーバーエラー")
                 (Some (VObject [ ("timestamp", VString (now P)) ])))
              500 (internal_error P (message_or P e "内部サーバーエラー"))).
Proof.
  intros H F Hrun.
  destruct (wrapped_at_switch _ _ _ _ _ _ _ H) as (w & W & Hk).
  exists w. split; [exact W|]. split; [exact Hk|].
  rewrite (handler_readable _ _ _ (switch_readable _ _ _ _ _ _ _ H) F).
  rewrite (try_block_at_switch _ _ _ _ _ _ _ H).
  unfold dispatch. rewrite Hrun. simpl.
  unfold catch_block. now rewrite (render_answer _ _ _ _ _ _ _ W).
Qed.

End MultiEnvelopeSwitch.

Module CompactSwitch.
Import Compact CompactFacts.

Lemma wrapped_is_gateway P cc event kind client tool params :
  reaches_switch P (resolve cc event) kind client tool params ->
  truthy (gateway_tool_name cc) = gateway_kind kind.
Proof.
  intros (config & _ & _ & R & _).
  apply (gateway_kind_wrapped cc event). now apply resolve_kind in R.
Qed.

Lemma compact_tool_ran P cc event kind client tool params result :
  readable event ->
  reaches_switch P (resolve cc event) kind client tool params ->
  run_tool P client tool params = Next (Some result) ->
  handler P cc event
  = Resolved (answer P headers event (gateway_kind kind)
                (jsonrpc_result P event result) 200 result).
Proof.
  intros Re H Hrun. rewrite <- (wrapped_is_gateway _ _ _ _ _ _ _ H).
  unfold handler. rewrite (compact_try_block_at_switch _ _ _ _ _ _ _ H).
  unfold dispatch. rewrite Hrun. simpl bind.
  now rewrite (compact_render_answer _ _ _ _ _ _ Re).
Qed.

Lemma compact_no_case P cc event kind client tool params :
  readable event ->
  reaches_switch P (resolve cc event) kind client tool params ->
  run_tool P client tool params = Next None ->
  handler P cc event
  = Resolved
      (answer P headers event (gateway_kind kind)
         (jsonrpc_error event (-32601)
            ("未対応のツール: " ++ to_string P tool)
            (Some (VObject [ ("availableTools", availableTools) ])))
         400 (unsupported (to_string P tool))).
Proof.
  intros Re H Hrun. rewrite <- (wrapped_is_gateway _ _ _ _ _ _ _ H).
  unfold handler. rewrite (compact_try_block_at_switch _ _ _ _ _ _ _ H).
  unfold dispatch. rewrite Hrun. simpl bind.
  now rewrite (compact_render_answer _ _ _ _ _ _ Re).
Qed.

Lemma compact_case_threw P cc event kind client tool params e :
  readable event ->
  reaches_switch P (resolve cc event) kind client tool params ->
  run_tool P client tool params = Throw e ->
  handler P cc event
  = Resolved
      (answer P headers event (gateway_kind kind)
         (jsonrpc_error event (-32603)
            (message_or P e "内部サーバーエラー") None)
         500 (internal_error P (message_or P e "内部サーバーエラー"))).
Proof.
  intros Re H Hrun. rewrite <- (wrapped_is_gateway _ _ _ _ _ _ _ H).
  unfold handler. rewrite (compact_try_block_at_switch _ _ _ _ _ _ _ H).
  unfold dispatch. rewrite Hrun. simpl.
  unfold catch_block. now rewrite (compact_render_answer _ _ _ _ _ _ Re).
Qed.

End CompactSwitch.

(* ================================================================== *)
(** ** The form of an answer *)
(* ================================================================== *)

(** The forms of an answer, field by field. *)
Lemma rpc_error_fields event code message data :
  rpc_error_with event (jsonrpc_error event code message data) code message.
Proof. unfold rpc_error_with. repeat split; reflexivity. Qed.

Lemma answer_fields P headers event wrapped code message data statusCode
    payload promise :
  promise
  = Resolved
      (answer P headers event wrapped
         (jsonrpc_error event code message data) statusCode payload) ->
  opt headers "Content-Type" = VString "application/json" ->
  resolves_with P event wrapped promise code message statusCode payload.
Proof.
  intros -> H. eexists. split; [reflexivity|].
  unfold answers_with, answer.
  destruct (is_string (opt event "method") "tools/call").
  - unfold rpc_error_with. repeat split; reflexivity.
  - destruct wrapped; [|reflexivity].
    unfold http_with. split; [reflexivity|]. split; [exact H|]. reflexivity.
Qed.

Lemma with_fields P headers event wrapped code message data statusCode
    payload promise :
  opt headers "Content-Type" = VString "application/json" ->
  promise
  = Resolved
      (answer P headers event wrapped
         (jsonrpc_error event code message data) statusCode payload) ->
  promise
  = Resolved
      (answer P headers event wrapped
         (jsonrpc_error event code message data) statusCode payload)
  /\ resolves_with P event wrapped promise code message statusCode payload.
Proof.
  intros H E. split; [exact E|]. exact (answer_fields _ _ _ _ _ _ _ _ _ _ E H).
Qed.


(** An event without keys has no property. *)
Lemma no_keys_no_property event k :
  Nat.eqb (List.length (own_keys event)) 0 = true -> opt event k = VUndefined.
Proof.
  destruct event as [| | | | | |o|]; try reflexivity.
  destruct o as [|[k' v] rest]; [reflexivity | discriminate].
Qed.



(* ================================================================== *)
(** ** Unsupported tool names *)
(* ================================================================== *)




(* ================================================================== *)
(** ** Parameters that fail the schema *)
(* ================================================================== *)

Lemma internal_error_not_bad_request P headers event wrapped message data :
  ~ bad_request
      (answer P headers event wrapped
         (jsonrpc_error event (-32603) message data)
         500 (internal_error P message)).
Proof.
  unfold answer.
  destruct (is_string (opt event "method") "tools/call"), wrapped;
    intros [B | B]; simpl in B; discriminate.
Qed.

(** C1, as the code has it.  A request that reaches the [switch], on any
    branch, with the name of a tool that has a schema and parameters the
    schema rejects, is answered by the [catch] block like any other
    exception: JSON-RPC error -32603 for a [tools/call], else status 500
    where the request counts as wrapped, else the bare
    [{success: false, error, timestamp}]; the answer is not a bad request
    (status 400, code -32602).  Both entry points.
    The event is one the handler gets through: no function in [index.ts],
    whose log before the [try] block throws on one; neither [undefined] nor
    [null] in [part_000], whose rendering throws on those. *)
Theorem invalid_parameters_are_an_internal_error
    (P : Platform) (cc : value) (event : value) (kind : EnvelopeKind)
    (client : KintoneRestAPIClient) (name : string) (params : value)
    (sc : schema) :
  schema_of name = Some sc ->
  safeParse sc params = None ->
  (is_function event = false ->
   reaches_switch P (MultiEnvelope.resolve P cc event) kind client
                  (VString name) params ->
   exists wrapped,
     MultiEnvelope.http_shaped cc event = Next wrapped
     /\ (http_kind kind = true -> wrapped = true)
     /\ MultiEnvelope.handler P cc event
        = Resolved
            (answer P MultiEnvelope.headers event wrapped
               (jsonrpc_error event (-32603) (ZodError_message P sc params)
                  (Some (VObject [ ("timestamp", VString (now P)) ])))
               500 (internal_error P (ZodError_message P sc params)))
     /\ (forall r, MultiEnvelope.handler P cc event = Resolved r ->
                   ~ bad_request r)
     /\ resolves_with P event wrapped (MultiEnvelope.handler P cc event)
          (-32603) (ZodError_message P sc params)
          500 (internal_error P (ZodError_message P sc params)))
  /\
  (readable event ->
   reaches_switch P (Compact.resolve cc event) kind client
                  (VString name) params ->
   Compact.handler P cc event
   = Resolved
       (answer P Compact.headers event (gateway_kind kind)
          (jsonrpc_error event (-32603) (ZodError_message P sc params) None)
          500 (internal_error P (ZodError_message P sc params)))
   /\ (forall r, Compact.handler P cc event = Resolved r -> ~ bad_request r)
   /\ resolves_with P event (gateway_kind kind) (Compact.handler P cc event)
        (-32603) (ZodError_message P sc params)
        500 (internal_error P (ZodError_message P sc params))).
Proof.
  intros Hsc Hparse.
  pose proof (fun client =>
                run_tool_invalid P client name params sc Hsc Hparse) as T.
  split; [intros F H | intros Re H].
  - destruct (MultiEnvelopeSwitch.case_threw _ _ _ _ _ _ _ _ H F (T _))
      as (w & W & Hk & E).
    exists w. split; [exact W|]. split; [exact Hk|]. split; [exact E|].
    split; [|exact (answer_fields _ _ _ _ _ _ _ _ _ _ E eq_refl)].
    intros r Hr. rewrite E in Hr. injection Hr as <-.
    apply internal_error_not_bad_request.
  - pose proof (CompactSwitch.compact_case_threw _ _ _ _ _ _ _ _ Re H (T _))
      as E.
    split; [exact E|].
    split; [|exact (answer_fields _ _ _ _ _ _ _ _ _ _ E eq_refl)].
    intros r Hr. rewrite E in Hr. injection Hr as <-.
    apply internal_error_not_bad_request.
Qed.

(** The gateway call of [get-records] with the payload [{}] (no [app]) on
    the sample platform: status 500 from both handlers. *)
Lemma invalid_parameters_are_an_internal_error_witness :
  MultiEnvelope.handler Sample.platform
    (Sample.gateway "T___kintone-get-records") (VObject [])
  = Resolved
      (http_response Sample.platform MultiEnvelope.headers 500
         (internal_error Sample.platform "[zod issues]"))
  /\ Compact.handler Sample.platform
       (Sample.gateway "T___kintone-get-records") (VObject [])
     = Resolved
         (http_response Sample.platform Compact.headers 500
            (internal_error Sample.platform "[zod issues]")).
Proof.
  destruct (invalid_parameters_are_an_internal_error Sample.platform
              (Sample.gateway "T___kintone-get-records") (VObject [])
              GatewayManaged
              Sample.the_client "get-records" (VObject []) getRecordsSchema
              eq_refl eq_refl) as [A B].
  split.
  - destruct A as (w & _ & Hk & H & _).
    + reflexivity.
    + exists Sample.config. repeat split; reflexivity.
    + rewrite (Hk eq_refl) in H. exact H.
  - destruct B as (H & _).
    + apply object_readable.
    + exists Sample.config. repeat split; reflexivity.
    + exact H.
Defined.

(** C1 as stated fails: the gateway call of [get-records] with the payload
    [{}] reaches the [switch] with a known tool and parameters that fail the
    schema, and is answered with status 500, which is not a bad request. *)
Lemma invalid_parameters_counterexample :
  reaches_switch Sample.platform
    (MultiEnvelope.resolve Sample.platform
       (Sample.gateway "T___kintone-get-records") (VObject []))
    GatewayManaged Sample.the_client (VString "get-records") (VObject [])
  /\ In "get-records" implemented
  /\ safeParse getRecordsSchema (VObject []) = None
  /\ exists r,
       MultiEnvelope.handler Sample.platform
         (Sample.gateway "T___kintone-get-records") (VObject []) = Resolved r
       /\ opt r "statusCode" = VNumber 500
       /\ ~ bad_request r.
Proof.
  split; [exists Sample.config; repeat split; reflexivity|].
  split; [simpl; tauto|].
  split; [reflexivity|].
  eexists. split; [reflexivity|]. split; [reflexivity|].
  intros [B | B]; simpl in B; discriminate.
Qed.

(* ================================================================== *)
(** ** A tool that ran and failed *)
(* ================================================================== *)

(** A rejection of the client makes the outcome [{success: false, error}]. *)
Lemma rejected_call_fails P e wrap fallback :
  KintoneTools.attempt P (inl e) wrap fallback
  = VObject [ ("success", VBool false);
              ("error", VString (message_or P e fallback)) ].
Proof. reflexivity. Qed.





(* ================================================================== *)
(** ** The id of a JSON-RPC answer *)
(* ================================================================== *)

Lemma is_jsonrpc_id event r :
  is_jsonrpc event r -> opt r "id" = response_id event.
Proof. intros (member & body & -> & _). reflexivity. Qed.

Lemma tools_call_not_HttpProxy cc event :
  is_string (opt event "method") "tools/call" = true ->
  truthy (opt event "params") = true ->
  MultiEnvelope.classify cc event <> Next HttpProxy.
Proof.
  intros M Q. unfold MultiEnvelope.classify.
  destruct (truthy (MultiEnvelope.gateway_tool_name cc)); [discriminate|].
  rewrite (opt_has_keys event "params" (truthy_defined _ Q)).
  rewrite M, Q. discriminate.
Qed.

(** C8.  A [tools/call] request with parameters is answered, by both
    entry points and on every path (result, missing tool, unknown tool,
    internal error), with a JSON-RPC object whose [id] is the [id] of the
    request when that is truthy, and 1 when it is absent or falsy, the id 0
    included. *)
Theorem jsonrpc_id_echoed_or_1 (P : Platform) (cc : value) (event : value) :
  is_string (opt event "method") "tools/call" = true ->
  truthy (opt event "params") = true ->
  (exists r, MultiEnvelope.handler P cc event = Resolved r
             /\ is_jsonrpc event r
             /\ opt r "id" = if truthy (opt event "id")
                             then opt event "id" else VNumber 1)
  /\ (exists r, Compact.handler P cc event = Resolved r
                /\ is_jsonrpc event r
                /\ opt r "id" = if truthy (opt event "id")
                                then opt event "id" else VNumber 1).
Proof.
  intros M Q. split.
  - destruct (MultiEnvelopeExits.handler_exits P cc event)
      as [(e & _ & M') | [(_ & C) | (w & rpc & st & payload & H & J & _)]].
    + congruence.
    + now apply tools_call_not_HttpProxy in C.
    + rewrite (answer_tools_call _ _ _ _ _ _ _ M) in H.
      exists rpc. split; [exact H|]. split; [exact J|].
      now rewrite (is_jsonrpc_id _ _ J).
  - destruct (CompactExits.compact_handler_exits P cc event
                (opt_readable event "method" (is_string_defined _ _ M)))
      as (rpc & st & payload & H & J & _).
    rewrite (answer_tools_call _ _ _ _ _ _ _ M) in H.
    exists rpc. split; [exact H|]. split; [exact J|].
    now rewrite (is_jsonrpc_id _ _ J).
Qed.

(** A [tools/call] with the id 0 is answered with the id 1; with the id 7,
    with 7. *)
Lemma jsonrpc_id_echoed_or_1_witness :
  (exists r,
     MultiEnvelope.handler Sample.platform VUndefined
       (VObject [ ("method", VString "tools/call"); ("id", VNumber 0);
         ("params", VObject [ ("name", VString "get-apps") ]) ]) = Resolved r
     /\ opt r "id" = VNumber 1)
  /\ (exists r,
        Compact.handler Sample.platform VUndefined
          (VObject [ ("method", VString "tools/call"); ("id", VNumber 7);
            ("params", VObject [ ("name", VString "get-apps") ]) ]) = Resolved r
        /\ opt r "id" = VNumber 7).
Proof.
  split.
  - destruct (jsonrpc_id_echoed_or_1 Sample.platform VUndefined
                (VObject [ ("method", VString "tools/call"); ("id", VNumber 0);
                  ("params", VObject [ ("name", VString "get-apps") ]) ])
                eq_refl eq_refl) as [(r & H & _ & I) _].
    exists r. split; [exact H | exact I].
  - destruct (jsonrpc_id_echoed_or_1 Sample.platform VUndefined
                (VObject [ ("method", VString "tools/call"); ("id", VNumber 7);
                  ("params", VObject [ ("name", VString "get-apps") ]) ])
                eq_refl eq_refl) as [_ (r & H & _ & I)].
    exists r. split; [exact H | exact I].
Defined.

(* ================================================================== *)
(** ** Responses that carry a status code *)
(* ================================================================== *)

Lemma is_jsonrpc_no_statusCode event fields :
  is_jsonrpc event (VObject fields) -> has_key fields "statusCode" = false.
Proof.
  intros (member & body & [= ->] & [-> | ->]); reflexivity.
Qed.

Lemma is_outcome_no_statusCode fields :
  is_outcome (VObject fields) -> has_key fields "statusCode" = false.
Proof. intros (b & rest & [= ->] & H). simpl. exact H. Qed.

(** Of the three forms of an answer, only the HTTP response has a status
    code. *)
Lemma answer_statusCode P headers event wrapped rpc statusCode payload fields :
  answer P headers event wrapped rpc statusCode payload = VObject fields ->
  is_jsonrpc event rpc -> is_outcome payload ->
  has_key fields "statusCode" = true ->
  fields = [ ("statusCode", VNumber statusCode);
             ("headers", headers);
             ("body", VString (JSON_stringify P payload)) ].
Proof.
  unfold answer, http_response. intros A J O S.
  destruct (is_string (opt event "method") "tools/call").
  - subst rpc. rewrite (is_jsonrpc_no_statusCode _ _ J) in S. discriminate.
  - destruct wrapped.
    + congruence.
    + subst payload. rewrite (is_outcome_no_statusCode _ O) in S.
      discriminate.
Qed.

(** C9.  A response of either handler that carries a [statusCode] (200,
    400 or 500, the [catch] block included) carries [headers] with
    ['Content-Type': 'application/json'], and its [body] is the
    [JSON.stringify] text of an outcome or error object. *)
Theorem status_code_comes_with_json_headers
    (P : Platform) (cc : value) (event : value) (fields : object) :
  MultiEnvelope.handler P cc event = Resolved (VObject fields)
  \/ Compact.handler P cc event = Resolved (VObject fields) ->
  has_key fields "statusCode" = true ->
  opt (field fields "headers") "Content-Type" = VString "application/json"
  /\ exists payload,
       is_outcome payload
       /\ field fields "body" = VString (JSON_stringify P payload).
Proof.
  intros [H | H] S.
  - destruct (MultiEnvelopeExits.handler_exits P cc event)
      as [(e & E & _) | [(E & _) | (w & rpc & st & payload & E & J & O)]];
      rewrite E in H; [discriminate | | ].
    + assert (F : fields = [ ("statusCode", VNumber 400);
                             ("headers", MultiEnvelope.headers);
                             ("body", VString (JSON_stringify P
                                (VObject [ ("success", VBool false);
                                           ("error", VString "リクエストボディのJSONが無効です") ]))) ])
        by (unfold invalid_body, http_response in H; congruence).
      rewrite F. split; [reflexivity|]. eexists. split; [|reflexivity].
      eexists _, _; split; reflexivity.
    + assert (A : answer P MultiEnvelope.headers event w rpc st payload
                  = VObject fields) by congruence.
      rewrite (answer_statusCode _ _ _ _ _ _ _ _ A J O S).
      split; [reflexivity|]. exists payload. now split.
  - destruct (readable_dec event) as [Re|Re];
      [|rewrite (CompactExits.compact_handler_unreadable P cc event Re) in H;
        discriminate].
    destruct (CompactExits.compact_handler_exits P cc event Re)
      as (rpc & st & payload & E & J & O).
    rewrite E in H.
    assert (A : answer P Compact.headers event
                  (truthy (Compact.gateway_tool_name cc)) rpc st payload
                = VObject fields) by congruence.
    rewrite (answer_statusCode _ _ _ _ _ _ _ _ A J O S).
    split; [reflexivity|]. exists payload. now split.
Qed.

(** The gateway call of [get-app] on the sample platform: status 200, the
    JSON content type, and the text of the outcome as body. *)
Lemma status_code_comes_with_json_headers_witness :
  opt (field
         [ ("statusCode", VNumber 200);
           ("headers", MultiEnvelope.headers);
           ("body",
             VString (Sample.stringify
                        (VObject [ ("success", VBool false);
                                   ("error", VString "network down") ]))) ]
         "headers") "Content-Type" = VString "application/json"
  /\ exists payload,
       is_outcome payload
       /\ field
            [ ("statusCode", VNumber 200);
              ("headers", MultiEnvelope.headers);
              ("body",
                VString (Sample.stringify
                           (VObject [ ("success", VBool false);
                                      ("error", VString "network down") ]))) ]
            "body" = VString (JSON_stringify Sample.platform payload).
Proof.
  apply (status_code_comes_with_json_headers Sample.platform
           (Sample.gateway "T___kintone-get-app")
           (VObject [ ("id", VString "7") ])).
  - left. reflexivity.
  - reflexivity.
Defined.

(* ================================================================== *)
(** ** The empty payload *)
(* ================================================================== *)

Lemma no_official_name_no_gateway_name cc :
  truthy (MultiEnvelope.official_tool_name cc) = false ->
  truthy (MultiEnvelope.gateway_tool_name cc) = false.
Proof.
  unfold MultiEnvelope.official_tool_name, MultiEnvelope.gateway_tool_name,
    MultiEnvelope.customContext, or_else.
  destruct (truthy (opt (opt cc "custom") "bedrockAgentCoreToolName")) eqn:T.
  - intros H. congruence.
  - intros _. destruct (truthy (opt cc "custom")) eqn:C; assumption.
Qed.




(* ================================================================== *)
(** ** Resolution of the tool name *)
(* ================================================================== *)

(** C7.  Each of the seven canonical ids passes unchanged through every
    step of the resolution, in both entry points: the delimiter stripping
    ([gateway_tool], [extractToolName]), the test for the target prefix of
    the JSON-RPC and legacy branches (which fails, so the name is kept),
    the removal of the family prefix ([normalize]) and the alias table;
    so a gateway call, a [tools/call] and a direct invocation that name a
    canonical id resolve to that id. *)
Theorem resolution_keeps_canonical_ids (P : Platform) (id : string) :
  In id canonical_ids ->
  MultiEnvelope.gateway_tool (VString id) = Next (VString id)
  /\ and_startsWith (VString id) "MyKintoneTarget___" = Next false
  /\ MultiEnvelope.normalize (VString id) = Next (VString id)
  /\ MultiEnvelope.alias P (VString id) = VString id
  /\ Compact.extractToolName (VString id) = Next (VString id)
  /\ Compact.normalize (VString id) = Next (VString id)
  /\ MultiEnvelope.resolve P (Sample.gateway id) (VObject [])
     = Next (GatewayManaged, VString id, VObject [])
  /\ MultiEnvelope.resolve P VUndefined
       (VObject [ ("method", VString "tools/call");
         ("params", VObject [ ("name", VString id) ]) ])
     = Next (JsonRpcCall, VString id, VObject [])
  /\ MultiEnvelope.resolve P VUndefined (VObject [ ("tool", VString id) ])
     = Next (DirectInvoke, VString id, VUndefined)
  /\ Compact.resolve (Sample.gateway id) (VObject [])
     = Next (GatewayManaged, VString id, VObject [])
  /\ Compact.resolve VUndefined
       (VObject [ ("method", VString "tools/call");
         ("params", VObject [ ("name", VString id) ]) ])
     = Next (JsonRpcCall, VString id, VObject [])
  /\ Compact.resolve VUndefined (VObject [ ("tool", VString id) ])
     = Next (DirectInvoke, VString id, VObject []).
Proof.
  simpl. intros [<- | [<- | [<- | [<- | [<- | [<- | [<- | []]]]]]]];
    repeat split; reflexivity.
Qed.

Lemma resolution_keeps_canonical_ids_witness :
  MultiEnvelope.resolve Sample.platform VUndefined
    (VObject [ ("tool", VString "get-apps") ])
  = Next (DirectInvoke, VString "get-apps", VUndefined)
  /\ Compact.resolve VUndefined (VObject [ ("tool", VString "get-apps") ])
     = Next (DirectInvoke, VString "get-apps", VObject []).
Proof.
  destruct (resolution_keeps_canonical_ids Sample.platform "get-apps")
    as (_ & _ & _ & _ & _ & _ & _ & _ & A & _ & _ & B).
  - simpl. tauto.
  - split; [exact A | exact B].
Defined.

(** The first occurrence of the pattern is what [replace] deletes. *)
Lemma replace_deletes_first_occurrence (s p : string) (i : nat) :
  JsString.find s p = Some i ->
  s = JsString.take i s ++ p ++ JsString.drop (i + String.length p) s
  /\ JsString.replace s p ""
     = JsString.take i s ++ JsString.drop (i + String.length p) s
  /\ forall j, j < i -> JsString.startsWith (JsString.drop j s) p = false.
Proof.
  intros F. split; [now apply JsStringFacts.find_cut|].
  split; [unfold JsString.replace; now rewrite F|].
  intros j. now apply JsStringFacts.find_first.
Qed.

(** C10.  In the gateway, JSON-RPC and legacy branches of [index.ts] the
    family prefix is removed with [replace('kintone-', '')], which deletes
    the first occurrence of [kintone-] wherever it stands: the remainder
    [my-kintone-x] resolves to [my-x].  The later normalization removes it
    only from a name that starts with it: a direct invocation of
    [my-kintone-x] keeps the name. *)
Theorem family_prefix_is_removed_anywhere (P : Platform) :
  (forall raw,
     JsString.includes raw "___" = true ->
     MultiEnvelope.gateway_tool (VString raw)
     = Next (VString (JsString.replace (after_first_delimiter raw)
                        "kintone-" "")))
  /\ (forall name,
        MultiEnvelope.strip_target name
        = JsString.replace (JsString.replace name "MyKintoneTarget___" "")
            "kintone-" "")
  /\ JsString.replace "my-kintone-x" "kintone-" "" = "my-x"
  /\ MultiEnvelope.resolve P (Sample.gateway "T___my-kintone-x") (VObject [])
     = Next (GatewayManaged, VString "my-x", VObject [])
  /\ MultiEnvelope.resolve P VUndefined
       (VObject [ ("method", VString "tools/call");
         ("params",
           VObject [ ("name", VString "MyKintoneTarget___my-kintone-x") ]) ])
     = Next (JsonRpcCall, VString "my-x", VObject [])
  /\ MultiEnvelope.resolve P VUndefined
       (VObject [ ("name", VString "MyKintoneTarget___my-kintone-x") ])
     = Next (LegacyPrefixedName by_name, VString "my-x", VObject [])
  /\ MultiEnvelope.resolve P VUndefined
       (VObject [ ("toolName", VString "MyKintoneTarget___my-kintone-x") ])
     = Next (LegacyPrefixedName by_toolName, VString "my-x", VObject [])
  /\ MultiEnvelope.resolve P VUndefined
       (VObject [ ("tool_name", VString "MyKintoneTarget___my-kintone-x") ])
     = Next (LegacyPrefixedName by_tool_name, VString "my-x", VObject [])
  /\ (forall name,
        JsString.startsWith name "kintone-" = false ->
        MultiEnvelope.normalize (VString name) = Next (VString name))
  /\ MultiEnvelope.resolve P VUndefined (VObject [ ("tool", VString "my-kintone-x") ])
     = Next (DirectInvoke, VString "my-kintone-x", VUndefined).
Proof.
  split.
  { intros raw H.
    unfold MultiEnvelope.gateway_tool, call_includes, MultiEnvelope.delimiter.
    cbn [bind]. rewrite H. reflexivity. }
  split; [reflexivity|].
  split; [reflexivity|].
  split; [reflexivity|].
  split; [reflexivity|].
  split; [reflexivity|].
  split; [reflexivity|].
  split; [reflexivity|].
  split; [|reflexivity].
  intros name H. unfold MultiEnvelope.normalize, and_startsWith. simpl.
  destruct (negb (String.eqb name "")); simpl; [now rewrite H | reflexivity].
Qed.

Lemma family_prefix_is_removed_anywhere_witness :
  MultiEnvelope.gateway_tool (VString "T___my-kintone-x")
  = Next (VString "my-x")
  /\ MultiEnvelope.normalize (VString "my-kintone-x")
     = Next (VString "my-kintone-x").
Proof.
  destruct (family_prefix_is_removed_anywhere Sample.platform)
    as (A & _ & _ & _ & _ & _ & _ & _ & B & _).
  split.
  - exact (A "T___my-kintone-x" eq_refl).
  - exact (B "my-kintone-x" eq_refl).
Defined.

(* ================================================================== *)
(** ** First occurrence and last part *)
(* ================================================================== *)


(** C6, as the code has it.  For a raw name that contains the delimiter,
    the gateway branch of [index.ts] continues from the part after the
    first occurrence, and [extractToolName] of [part_000] returns the last
    part of the split; the two stripped names are equal exactly when the
    part after the first occurrence contains no further delimiter.  The
    JSON-RPC branch of [index.ts] does not look for the delimiter: a name
    that does not start with [MyKintoneTarget___] is kept whole. *)
Theorem delimiter_first_occurrence_or_last_part
    (P : Platform) (raw : string) :
  JsString.includes raw "___" = true ->
  (exists i,
     JsString.find raw "___" = Some i
     /\ raw = JsString.take i raw ++ "___" ++ after_first_delimiter raw
     /\ forall j, j < i ->
          JsString.startsWith (JsString.drop j raw) "___" = false)
  /\ MultiEnvelope.gateway_tool (VString raw)
     = Next (VString (JsString.replace (after_first_delimiter raw)
                        "kintone-" ""))
  /\ Compact.extractToolName (VString raw)
     = Next (VString (List.last (JsString.split raw "___") ""))
  /\ (List.last (JsString.split raw "___") "" = after_first_delimiter raw
      <-> JsString.includes (after_first_delimiter raw) "___" = false)
  /\ (JsString.startsWith raw "MyKintoneTarget___" = false ->
      MultiEnvelope.extract P VUndefined
        (VObject [ ("method", VString "tools/call");
          ("params", VObject [ ("name", VString raw) ]) ]) JsonRpcCall
      = Next (VString raw, VObject [])).
Proof.
  intros H.
  assert (Hd : "___" <> "") by discriminate.
  destruct (JsString.find raw "___") as [i|] eqn:F;
    [|unfold JsString.includes in H; rewrite F in H; discriminate].
  pose proof (SplitFacts.after_first_delimiter_drop raw i F) as A.
  split.
  { exists i. split; [reflexivity|]. split.
    - rewrite A. exact (JsStringFacts.find_cut raw "___" i F).
    - intros j. exact (JsStringFacts.find_first raw "___" i j F). }
  split.
  { unfold MultiEnvelope.gateway_tool, call_includes, MultiEnvelope.delimiter.
    cbn [bind]. rewrite H. reflexivity. }
  split.
  { unfold Compact.extractToolName, call_includes, Compact.delimiter.
    assert (T : truthy (VString raw) = true).
    { destruct raw; [discriminate F | reflexivity]. }
    rewrite T. cbn [bind]. rewrite H. reflexivity. }
  split.
  { rewrite (SplitFacts.last_split_rest raw "___" i Hd F), A.
    exact (SplitFacts.last_split_whole (JsString.drop (i + 3) raw) "___" Hd). }
  intros T. cbn [MultiEnvelope.extract field String.eqb Ascii.eqb Bool.eqb opt].
  unfold and_startsWith, call_startsWith. rewrite T.
  now destruct (truthy (VString raw)).
Qed.

Lemma delimiter_first_occurrence_or_last_part_witness :
  MultiEnvelope.gateway_tool (VString "T___kintone-get-apps")
  = Next (VString "get-apps")
  /\ Compact.extractToolName (VString "T___kintone-get-apps")
     = Next (VString "kintone-get-apps").
Proof.
  destruct (delimiter_first_occurrence_or_last_part Sample.platform
              "T___kintone-get-apps" eq_refl) as (_ & A & B & _).
  split; [exact A | exact B].
Defined.

(** C6 as stated fails.  With two delimiters in the name the gateway
    branches of the two entry points resolve different tools; and inside
    [index.ts] the JSON-RPC branch keeps a name whose target prefix is not
    [MyKintoneTarget], which the gateway branch strips. *)
Lemma delimiter_stripping_counterexample :
  JsString.includes "A___B___C" "___" = true
  /\ MultiEnvelope.resolve Sample.platform (Sample.gateway "A___B___C") (VObject [])
     = Next (GatewayManaged, VString "B___C", VObject [])
  /\ Compact.resolve (Sample.gateway "A___B___C") (VObject [])
     = Next (GatewayManaged, VString "C", VObject [])
  /\ MultiEnvelope.resolve Sample.platform
       (Sample.gateway "T___kintone-get-apps") (VObject [])
     = Next (GatewayManaged, VString "get-apps", VObject [])
  /\ MultiEnvelope.resolve Sample.platform VUndefined
       (VObject [ ("method", VString "tools/call");
         ("params", VObject [ ("name", VString "T___kintone-get-apps") ]) ])
     = Next (JsonRpcCall, VString "T___kintone-get-apps", VObject []).
Proof. repeat split; reflexivity. Qed.

(* ================================================================== *)
(** ** The order of the branches *)
(* ================================================================== *)

(** Where the three name fields are strings or falsy, a branch is always
    chosen. *)
Lemma classify_chooses_a_branch cc event :
  (forall k, In k [ "name"; "toolName"; "tool_name" ] ->
             truthy (opt event k) = true ->
             exists s, opt event k = VString s) ->
  exists kind, MultiEnvelope.classify cc event = Next kind.
Proof.
  intros S. unfold MultiEnvelope.classify.
  assert (A : forall k, In k [ "name"; "toolName"; "tool_name" ] ->
            exists b, and_startsWith (opt event k) "MyKintoneTarget___"
                      = Next b).
  { intros k I. unfold and_startsWith.
    destruct (truthy (opt event k)) eqn:T; [|eauto].
    destruct (S k I T) as (s & ->). simpl. eauto. }
  destruct (A "name") as (n & ->); [simpl; tauto|].
  destruct (A "toolName") as (t & ->); [simpl; tauto|].
  destruct (A "tool_name") as (u & ->); [simpl; tauto|].
  simpl. repeat split_match; eauto.
Qed.

(** A legacy gateway name is tested before the API Gateway fields: the
    event is taken as a legacy call whatever [httpMethod] and
    [requestContext] hold. *)
Lemma legacy_name_before_http cc event :
  MultiEnvelope.classify cc event = Next HttpProxy ->
  and_startsWith (opt event "name") "MyKintoneTarget___" = Next false
  /\ and_startsWith (opt event "toolName") "MyKintoneTarget___" = Next false
  /\ and_startsWith (opt event "tool_name") "MyKintoneTarget___" = Next false.
Proof.
  unfold MultiEnvelope.classify.
  destruct (truthy (MultiEnvelope.gateway_tool_name cc)); [discriminate|].
  destruct (Nat.eqb _ 0); [discriminate|].
  destruct (_ && _)%bool; [discriminate|].
  destruct (MultiEnvelope.has_operation event); [discriminate|].
  destruct (and_startsWith (opt event "name") _) as [[|]| |]; simpl;
    try discriminate.
  destruct (and_startsWith (opt event "toolName") _) as [[|]| |]; simpl;
    try discriminate.
  destruct (and_startsWith (opt event "tool_name") _) as [[|]| |]; simpl;
    try discriminate.
  now intros _.
Qed.

(** An event with a legacy gateway name and the API Gateway fields. *)
Lemma legacy_name_with_httpMethod :
  MultiEnvelope.classify VUndefined
    (VObject [ ("httpMethod", VString "POST");
      ("requestContext", VObject []);
      ("name", VString "MyKintoneTarget___kintone-get-apps") ])
  = Next (LegacyPrefixedName by_name).
Proof. reflexivity. Qed.

(** With no condition of the chain holding, the event is a direct
    invocation. *)
Lemma classify_falls_back_to_direct :
  MultiEnvelope.classify VUndefined
    (VObject [ ("tool", VString "get-apps"); ("name", VString "orders") ])
  = Next DirectInvoke.
Proof. reflexivity. Qed.

(** A [toolName] that is not a string makes the chain throw in the same
    way, but the [catch] block, which tests [event.name] only, answers. *)
Lemma toolName_that_is_not_a_string :
  MultiEnvelope.classify VUndefined
    (VObject [ ("tool", VString "get-apps"); ("toolName", VNumber 5) ])
  = Throw (TypeError "startsWith")
  /\ MultiEnvelope.handler Sample.platform VUndefined
       (VObject [ ("tool", VString "get-apps"); ("toolName", VNumber 5) ])
     = Resolved
         (internal_error Sample.platform
            (TypeError_message Sample.platform "startsWith")).
Proof. split; reflexivity. Qed.

(** C2, at the input where the code departs from it.  The event
    [{tool: "get-apps", name: 5}] meets none of the first eight
    conditions, yet no branch is chosen: the legacy test calls
    [startsWith] on the number and throws.  The [catch] block evaluates the
    same test for the shape of its answer, so the handler rejects. *)
Theorem classification_throws_on_a_name_that_is_not_a_string (P : Platform) :
  MultiEnvelope.classify VUndefined
    (VObject [ ("tool", VString "get-apps"); ("name", VNumber 5) ])
  = Throw (TypeError "startsWith")
  /\ MultiEnvelope.handler P VUndefined
       (VObject [ ("tool", VString "get-apps"); ("name", VNumber 5) ])
     = Rejected (TypeError "startsWith").
Proof.
  split; [reflexivity|].
  unfold MultiEnvelope.handler, MultiEnvelope.try_block.
  destruct (getKintoneConfig P) as [config|r|e] eqn:G; simpl;
    [ | now apply getKintoneConfig_not_Return in G | reflexivity ].
  destruct (createKintoneClient P config) as [client|r|e] eqn:K; simpl;
    [ | now apply createKintoneClient_not_Return in K | reflexivity ].
  reflexivity.
Qed.

(* ================================================================== *)
(** ** Configuration *)
(* ================================================================== *)

Lemma env_not_empty P name s : env P name = Some s -> String.eqb s "" = false.
Proof.
  unfold env. destruct (process_env P name) as [t|]; [|discriminate].
  destruct (String.eqb t "") eqn:E; [discriminate|]. now intros [= <-].
Qed.

(** After [getKintoneConfig], the guard of [createKintoneClient] holds:
    what is left is the constructor. *)
Lemma config_client P config :
  getKintoneConfig P = Next config ->
  createKintoneClient P config = construct P config.
Proof.
  unfold getKintoneConfig, createKintoneClient.
  destruct (env P "KINTONE_BASE_URL") as [url|]; [|discriminate].
  destruct (env P "KINTONE_USERNAME") as [u|] eqn:U; [|discriminate].
  destruct (env P "KINTONE_PASSWORD") as [p|] eqn:W; [|discriminate].
  intros [= <-]. simpl.
  now rewrite (env_not_empty _ _ _ U), (env_not_empty _ _ _ W).
Qed.

Lemma getKintoneConfig_Throw P e :
  getKintoneConfig P = Throw e ->
  (env P "KINTONE_BASE_URL" = None
   /\ e = Error "KINTONE_BASE_URL環境変数が設定されていません")
  \/ (env P "KINTONE_BASE_URL" <> None
      /\ (env P "KINTONE_USERNAME" = None \/ env P "KINTONE_PASSWORD" = None)
      /\ e = Error "認証情報が設定されていません（KINTONE_USERNAME/KINTONE_PASSWORD が必要です）").
Proof.
  unfold getKintoneConfig.
  destruct (env P "KINTONE_BASE_URL") as [url|];
    [|intros [= <-]; left; now split].
  destruct (env P "KINTONE_USERNAME") as [u|];
    [|intros [= <-]; right; split; [discriminate|]; split; [now left|reflexivity]].
  destruct (env P "KINTONE_PASSWORD") as [p|]; [discriminate|].
  intros [= <-]; right; split; [discriminate|]; split; [now right|reflexivity].
Qed.

(** X1.  After [getKintoneConfig], client creation fails only in the
    constructor of the client: the user name and the password of the
    configuration are not empty, so the [throw] of [createKintoneClient]
    itself is not reached, and its result is the client the constructor
    makes or what the constructor throws.  The optional Basic credentials
    are present only as a pair. *)
Theorem client_creation_fails_in_the_constructor_only
    (P : Platform) (config : KintoneConfig) :
  getKintoneConfig P = Next config ->
  createKintoneClient P config
  = match new_KintoneRestAPIClient P config with
    | inr client => Next client
    | inl e => Throw e
    end
  /\ env P "KINTONE_BASE_URL" = Some (baseUrl config)
  /\ username config = env P "KINTONE_USERNAME"
  /\ password config = env P "KINTONE_PASSWORD"
  /\ (basicAuth config <> None <->
      env P "KINTONE_BASIC_AUTH_USERNAME" <> None
      /\ env P "KINTONE_BASIC_AUTH_PASSWORD" <> None).
Proof.
  intros G. split; [exact (config_client P config G)|].
  unfold getKintoneConfig in G.
  destruct (env P "KINTONE_BASE_URL") as [url|]; [|discriminate].
  destruct (env P "KINTONE_USERNAME") as [u|]; [|discriminate].
  destruct (env P "KINTONE_PASSWORD") as [p|]; [|discriminate].
  injection G as <-. simpl. repeat split; try reflexivity.
  - destruct (env P "KINTONE_BASIC_AUTH_USERNAME"); [discriminate|congruence].
  - destruct (env P "KINTONE_BASIC_AUTH_USERNAME"); [|congruence].
    destruct (env P "KINTONE_BASIC_AUTH_PASSWORD"); [discriminate|congruence].
  - intros [A B].
    destruct (env P "KINTONE_BASIC_AUTH_USERNAME"); [|congruence].
    destruct (env P "KINTONE_BASIC_AUTH_PASSWORD"); [discriminate|congruence].
Qed.

(** On the sample platform the client is made; with a base URL that is no
    URL, the constructor's error comes out. *)
Lemma client_creation_fails_in_the_constructor_only_witness :
  createKintoneClient Sample.platform Sample.config = Next Sample.the_client
  /\ getKintoneConfig Sample.without_url
     = Next {| baseUrl := "x";
               username := Some "user";
               password := Some "secret";
               basicAuth := None |}
  /\ createKintoneClient Sample.without_url
       {| baseUrl := "x";
          username := Some "user";
          password := Some "secret";
          basicAuth := None |}
     = Throw (Error "Invalid URL").
Proof.
  split.
  - destruct (client_creation_fails_in_the_constructor_only Sample.platform
                Sample.config eq_refl) as [H _].
    exact H.
  - split; [reflexivity|].
    destruct (client_creation_fails_in_the_constructor_only
                Sample.without_url
                {| baseUrl := "x";
                   username := Some "user";
                   password := Some "secret";
                   basicAuth := None |} eq_refl) as [H _].
    exact H.
Defined.

Module MultiEnvelopeRender.
Import MultiEnvelope MultiEnvelopeFacts.

(** [render] for a [tools/call], or with the value of the wrapping
    condition. *)
Lemma render_value P cc event wrapped rpc statusCode payload :
  is_string (opt event "method") "tools/call" = true
  \/ http_shaped cc event = Next wrapped ->
  render P cc event rpc statusCode payload
  = Return (answer P headers event wrapped rpc statusCode payload).
Proof.
  intros [M | W]; [|now apply render_answer].
  unfold render, answer. now rewrite M.
Qed.

(** A branch other than the JSON-RPC one is chosen only where the wrapping
    condition has a value. *)
Lemma wrapped_of_kind cc event kind :
  classify cc event = Next kind ->
  kind <> JsonRpcCall ->
  exists wrapped,
    http_shaped cc event = Next wrapped
    /\ (http_kind kind = true -> wrapped = true).
Proof.
  intros C N.
  assert (W : exists wrapped, http_shaped cc event = Next wrapped).
  { revert C. unfold classify, http_shaped.
    destruct (truthy (gateway_tool_name cc)) eqn:G.
    { rewrite (gateway_name_is_official cc G). eauto. }
    destruct (truthy (official_tool_name cc)); [eauto|].
    destruct (Nat.eqb _ 0) eqn:E.
    { unfold has_operation. rewrite !(no_keys_no_property event _ E).
      simpl. eauto. }
    destruct (_ && _)%bool; [congruence|].
    destruct (has_operation _); [eauto|].
    destruct (and_startsWith (opt _ "name") _) as [[|]| |]; simpl;
      try discriminate; eauto. }
  destruct W as [w W]. exists w. split; [exact W|].
  now apply (http_kind_wrapped cc event kind).
Qed.

Lemma wrapped_after_resolve P cc event kind tool params :
  resolve P cc event = Next (kind, tool, params) ->
  exists wrapped,
    http_shaped cc event = Next wrapped
    /\ (http_kind kind = true -> wrapped = true).
Proof.
  intros R. apply resolve_parts in R as [C L].
  destruct (http_shaped_after_log cc event L) as [w W].
  exists w. split; [exact W|]. now apply (http_kind_wrapped cc event kind).
Qed.

(** The answer of the [catch] block. *)
Lemma caught P cc event wrapped e :
  readable event ->
  is_function event = false ->
  is_string (opt event "method") "tools/call" = true
  \/ http_shaped cc event = Next wrapped ->
  try_block P cc event = Throw e ->
  handler P cc event
  = Resolved
      (answer P headers event wrapped
         (jsonrpc_error event (-32603) (message_or P e "内部サーバーエラー")
            (Some (VObject [ ("timestamp", VString (now P)) ])))
         500 (internal_error P (message_or P e "内部サーバーエラー"))).
Proof.
  intros Re F W T. rewrite (handler_readable _ _ _ Re F), T. simpl.
  unfold catch_block. now rewrite (render_value _ _ _ wrapped _ _ _ W).
Qed.

End MultiEnvelopeRender.

Module CompactRender.
Import Compact CompactFacts.

Lemma compact_caught P cc event e :
  readable event ->
  try_block P cc event = Throw e ->
  handler P cc event
  = Resolved
      (answer P headers event (truthy (gateway_tool_name cc))
         (jsonrpc_error event (-32603) (message_or P e "内部サーバーエラー")
            None)
         500 (internal_error P (message_or P e "内部サーバーエラー"))).
Proof.
  intros Re T. unfold handler. rewrite T. simpl. unfold catch_block.
  now rewrite (compact_render_answer _ _ _ _ _ _ Re).
Qed.

End CompactRender.

(** X2.  When the configuration is incomplete, every request whose event
    is neither [undefined] nor [null] is answered with the internal error
    that names what is missing, before the event is looked at further: the
    base URL first, then the user name and password.  The handler of
    [part_000] always answers so; the handler of [index.ts] does when the
    event is no function, for a [tools/call] and wherever its wrapping
    condition has a value. *)
Theorem incomplete_configuration_is_answered_first
    (P : Platform) (cc : value) (event : value) (e : thrown) :
  getKintoneConfig P = Throw e ->
  readable event ->
  (exists message,
     e = Error message
     /\ ((env P "KINTONE_BASE_URL" = None
          /\ message = "KINTONE_BASE_URL環境変数が設定されていません")
         \/ (env P "KINTONE_BASE_URL" <> None
             /\ message = "認証情報が設定されていません（KINTONE_USERNAME/KINTONE_PASSWORD が必要です）"))
     /\ Compact.handler P cc event
        = Resolved
            (answer P Compact.headers event
               (truthy (Compact.gateway_tool_name cc))
               (jsonrpc_error event (-32603) message None)
               500 (internal_error P message))
     /\ resolves_with P event (truthy (Compact.gateway_tool_name cc))
          (Compact.handler P cc event)
          (-32603) message 500 (internal_error P message)
     /\ forall wrapped,
          is_function event = false ->
          is_string (opt event "method") "tools/call" = true
          \/ MultiEnvelope.http_shaped cc event = Next wrapped ->
          MultiEnvelope.handler P cc event
          = Resolved
              (answer P MultiEnvelope.headers event wrapped
                 (jsonrpc_error event (-32603) message
                    (Some (VObject [ ("timestamp", VString (now P)) ])))
                 500 (internal_error P message))
          /\ resolves_with P event wrapped (MultiEnvelope.handler P cc event)
               (-32603) message 500 (internal_error P message)).
Proof.
  intros G Re.
  assert (TC : Compact.try_block P cc event = Throw e)
    by (unfold Compact.try_block; now rewrite G).
  assert (TM : MultiEnvelope.try_block P cc event = Throw e)
    by (unfold MultiEnvelope.try_block; now rewrite G).
  pose proof (CompactRender.compact_caught _ _ _ _ Re TC) as C.
  pose proof (fun w F W =>
                MultiEnvelopeRender.caught P cc event w e Re F W TM) as M.
  destruct (getKintoneConfig_Throw P e G) as [(B & ->) | (B & _ & ->)];
    eexists; (split; [reflexivity|]).
  - split; [left; now split|]. split; [exact C|].
    split; [exact (answer_fields _ _ _ _ _ _ _ _ _ _ C eq_refl)|].
    intros w F W. split; [exact (M w F W)|].
    exact (answer_fields _ _ _ _ _ _ _ _ _ _ (M w F W) eq_refl).
  - split; [right; now split|]. split; [exact C|].
    split; [exact (answer_fields _ _ _ _ _ _ _ _ _ _ C eq_refl)|].
    intros w F W. split; [exact (M w F W)|].
    exact (answer_fields _ _ _ _ _ _ _ _ _ _ (M w F W) eq_refl).
Qed.

(** Without environment variables, a direct invocation of [get-apps] is
    answered with the missing base URL, by both handlers. *)
Lemma incomplete_configuration_is_answered_first_witness :
  Compact.handler Sample.unconfigured VUndefined
    (VObject [ ("tool", VString "get-apps") ])
  = Resolved (internal_error Sample.unconfigured
                "KINTONE_BASE_URL環境変数が設定されていません")
  /\ MultiEnvelope.handler Sample.unconfigured VUndefined
       (VObject [ ("tool", VString "get-apps") ])
     = Resolved (internal_error Sample.unconfigured
                   "KINTONE_BASE_URL環境変数が設定されていません").
Proof.
  destruct (incomplete_configuration_is_answered_first Sample.unconfigured
              VUndefined (VObject [ ("tool", VString "get-apps") ])
              (Error "KINTONE_BASE_URL環境変数が設定されていません") eq_refl
              (object_readable _))
    as (message & E & _ & C & _ & M).
  injection E as <-. split.
  - exact C.
  - exact (proj1 (M false eq_refl (or_intror eq_refl))).
Defined.

(** X22.  When the configuration is complete and the constructor of the
    client throws (it does on a base URL that is no URL), every request
    whose event is neither [undefined] nor [null] is answered with the
    internal error that carries the message of what was thrown, whatever
    the request asks for.  The handler of [part_000] always answers so; the
    handler of [index.ts] does when the event is no function, for a
    [tools/call] and wherever its wrapping condition has a value. *)
Theorem failed_client_creation_is_an_internal_error
    (P : Platform) (cc : value) (event : value) (config : KintoneConfig)
    (e : thrown) :
  getKintoneConfig P = Next config ->
  new_KintoneRestAPIClient P config = inl e ->
  readable event ->
  Compact.handler P cc event
  = Resolved
      (answer P Compact.headers event
         (truthy (Compact.gateway_tool_name cc))
         (jsonrpc_error event (-32603)
            (message_or P e "内部サーバーエラー") None)
         500 (internal_error P (message_or P e "内部サーバーエラー")))
  /\ resolves_with P event (truthy (Compact.gateway_tool_name cc))
       (Compact.handler P cc event)
       (-32603) (message_or P e "内部サーバーエラー")
       500 (internal_error P (message_or P e "内部サーバーエラー"))
  /\ forall wrapped,
       is_function event = false ->
       is_string (opt event "method") "tools/call" = true
       \/ MultiEnvelope.http_shaped cc event = Next wrapped ->
       MultiEnvelope.handler P cc event
       = Resolved
           (answer P MultiEnvelope.headers event wrapped
              (jsonrpc_error event (-32603)
                 (message_or P e "内部サーバーエラー")
                 (Some (VObject [ ("timestamp", VString (now P)) ])))
              500 (internal_error P (message_or P e "内部サーバーエラー")))
       /\ resolves_with P event wrapped (MultiEnvelope.handler P cc event)
            (-32603) (message_or P e "内部サーバーエラー")
            500 (internal_error P (message_or P e "内部サーバーエラー")).
Proof.
  intros G N Re.
  assert (K : createKintoneClient P config = Throw e).
  { rewrite (config_client P config G). unfold construct. now rewrite N. }
  assert (TC : Compact.try_block P cc event = Throw e).
  { unfold Compact.try_block. rewrite G. cbn [bind]. now rewrite K. }
  assert (TM : MultiEnvelope.try_block P cc event = Throw e).
  { unfold MultiEnvelope.try_block. rewrite G. cbn [bind]. now rewrite K. }
  pose proof (CompactRender.compact_caught _ _ _ _ Re TC) as C.
  pose proof (fun w F W =>
                MultiEnvelopeRender.caught P cc event w e Re F W TM) as M.
  split; [exact C|].
  split; [exact (answer_fields _ _ _ _ _ _ _ _ _ _ C eq_refl)|].
  intros w F W. split; [exact (M w F W)|].
  exact (answer_fields _ _ _ _ _ _ _ _ _ _ (M w F W) eq_refl).
Qed.

(** With the base URL [x], a gateway call of [get-apps] is answered with
    status 500 and the constructor's message, by both handlers. *)
Lemma failed_client_creation_is_an_internal_error_witness :
  Compact.handler Sample.without_url
    (Sample.gateway "T___kintone-get-apps") (VObject [])
  = Resolved
      (http_response Sample.without_url Compact.headers 500
         (internal_error Sample.without_url "Invalid URL"))
  /\ MultiEnvelope.handler Sample.without_url
       (Sample.gateway "T___kintone-get-apps") (VObject [])
     = Resolved
         (http_response Sample.without_url MultiEnvelope.headers 500
            (internal_error Sample.without_url "Invalid URL")).
Proof.
  destruct (failed_client_creation_is_an_internal_error Sample.without_url
              (Sample.gateway "T___kintone-get-apps") (VObject [])
              {| baseUrl := "x";
                 username := Some "user";
                 password := Some "secret";
                 basicAuth := None |}
              (Error "Invalid URL") eq_refl eq_refl (object_readable _))
    as (C & _ & M).
  split.
  - exact C.
  - exact (proj1 (M true eq_refl (or_intror eq_refl))).
Defined.

(* ================================================================== *)
(** ** Requests without a tool name *)
(* ================================================================== *)

(** X3.  With the configuration read and the client made, a request whose
    resolution gives no tool name (a falsy value) is answered with
    "ツール名が指定されていません" ("no tool name given") and no tool runs:
    JSON-RPC error -32602 for a [tools/call], else status 400 where the
    request counts as wrapped, else the bare object.  The answer of
    [index.ts] carries a [debug] object in addition.  In [index.ts] the
    event is no function: the log before the [try] block throws on one.  In
    [part_000] the event is one that can be read: on [null] the gateway
    branch resolves the name and the rendering throws. *)
Theorem missing_tool_name_is_reported
    (P : Platform) (cc : value) (event : value) (kind : EnvelopeKind)
    (config : KintoneConfig) (client : KintoneRestAPIClient)
    (tool params : value) :
  getKintoneConfig P = Next config ->
  createKintoneClient P config = Next client ->
  truthy tool = false ->
  (is_function event = false ->
   MultiEnvelope.resolve P cc event = Next (kind, tool, params) ->
   exists wrapped,
     MultiEnvelope.http_shaped cc event = Next wrapped
     /\ (http_kind kind = true -> wrapped = true)
     /\ MultiEnvelope.handler P cc event
        = Resolved
            (answer P MultiEnvelope.headers event wrapped
               (jsonrpc_error event (-32602) missing_tool_text
                  (Some (MultiEnvelope.debug cc event)))
               400
               (VObject [ ("success", VBool false);
                          ("error", VString missing_tool_text);
                          ("debug", MultiEnvelope.debug cc event) ]))
     /\ resolves_with P event wrapped (MultiEnvelope.handler P cc event)
          (-32602) missing_tool_text
          400 (VObject [ ("success", VBool false);
                         ("error", VString missing_tool_text);
                         ("debug", MultiEnvelope.debug cc event) ]))
  /\ (readable event ->
      Compact.resolve cc event = Next (kind, tool, params) ->
      Compact.handler P cc event
      = Resolved
          (answer P Compact.headers event (gateway_kind kind)
             (jsonrpc_error event (-32602) missing_tool_text None)
             400
             (VObject [ ("success", VBool false);
                        ("error", VString missing_tool_text) ]))
      /\ resolves_with P event (gateway_kind kind)
           (Compact.handler P cc event)
           (-32602) missing_tool_text
           400 (VObject [ ("success", VBool false);
                          ("error", VString missing_tool_text) ])).
Proof.
  intros G K F. split; [intros Fn R | intros Re R].
  - destruct (MultiEnvelopeRender.wrapped_after_resolve _ _ _ _ _ _ R)
      as (w & W & Hk).
    exists w. split; [exact W|]. split; [exact Hk|].
    assert (E : MultiEnvelope.handler P cc event
                = Resolved
                    (answer P MultiEnvelope.headers event w
                       (jsonrpc_error event (-32602) missing_tool_text
                          (Some (MultiEnvelope.debug cc event)))
                       400
                       (VObject [ ("success", VBool false);
                                  ("error", VString missing_tool_text);
                                  ("debug", MultiEnvelope.debug cc event) ]))).
    { rewrite (MultiEnvelopeFacts.handler_readable _ _ _
                 (MultiEnvelopeFacts.resolve_readable _ _ _ _ _ _ R) Fn).
      unfold MultiEnvelope.try_block.
      rewrite G; simpl. rewrite K; simpl. rewrite R; simpl. rewrite F; simpl.
      now rewrite (MultiEnvelopeFacts.render_answer _ _ _ _ _ _ _ W). }
    split; [exact E|].
    exact (answer_fields _ _ _ _ _ _ _ _ _ _ E eq_refl).
  - assert (E : Compact.handler P cc event
                = Resolved
                    (answer P Compact.headers event (gateway_kind kind)
                       (jsonrpc_error event (-32602) missing_tool_text None)
                       400
                       (VObject [ ("success", VBool false);
                                  ("error", VString missing_tool_text) ]))).
    { rewrite <- (CompactFacts.gateway_kind_wrapped cc event kind
                    (CompactFacts.resolve_kind _ _ _ _ _ R)).
      unfold Compact.handler, Compact.try_block.
      rewrite G; simpl. rewrite K; simpl. rewrite R; simpl. rewrite F; simpl.
      now rewrite (CompactFacts.compact_render_answer _ _ _ _ _ _ Re). }
    split; [exact E|].
    exact (answer_fields _ _ _ _ _ _ _ _ _ _ E eq_refl).
Qed.

(** A direct invocation that carries parameters and no [tool]. *)
Lemma missing_tool_name_is_reported_witness :
  Compact.handler Sample.platform VUndefined
    (VObject [ ("params", VObject [ ("id", VString "7") ]) ])
  = Resolved (VObject [ ("success", VBool false);
                        ("error", VString missing_tool_text) ])
  /\ exists r,
       MultiEnvelope.handler Sample.platform VUndefined
         (VObject [ ("params", VObject [ ("id", VString "7") ]) ]) = Resolved r
       /\ opt r "error" = VString missing_tool_text.
Proof.
  split.
  - destruct (missing_tool_name_is_reported Sample.platform VUndefined
                (VObject [ ("params", VObject [ ("id", VString "7") ]) ])
                DirectInvoke Sample.config Sample.the_client
                VUndefined (VObject [ ("id", VString "7") ])
                eq_refl eq_refl eq_refl) as [_ C].
    exact (proj1 (C (object_readable _) eq_refl)).
  - destruct (missing_tool_name_is_reported Sample.platform VUndefined
                (VObject [ ("params", VObject [ ("id", VString "7") ]) ])
                DirectInvoke Sample.config Sample.the_client
                VUndefined (VObject [ ("id", VString "7") ])
                eq_refl eq_refl eq_refl) as [M _].
    destruct (M eq_refl eq_refl) as (w & W & _ & H & _).
    injection W as <-. eexists. split; [exact H | reflexivity].
Defined.

(* ================================================================== *)
(** ** Bodies that are not JSON *)
(* ================================================================== *)

(** X4.  With the configuration read and the client made, an API Gateway
    event of [index.ts] whose body is not JSON is answered with status 400
    and "リクエストボディのJSONが無効です" ("the JSON of the request body is
    invalid"), as an HTTP response even when the event names the method
    [tools/call]. *)
Theorem invalid_http_body_is_a_bad_request
    (P : Platform) (cc : value) (event : value) (config : KintoneConfig)
    (client : KintoneRestAPIClient) :
  getKintoneConfig P = Next config ->
  createKintoneClient P config = Next client ->
  MultiEnvelope.classify cc event = Next HttpProxy ->
  truthy (opt event "body") = true ->
  JSON_parse P (opt event "body") = None ->
  MultiEnvelope.handler P cc event = Resolved (invalid_body P)
  /\ opt (invalid_body P) "statusCode" = VNumber 400.
Proof.
  intros G K C B J. split; [|reflexivity].
  pose proof (opt_readable event "body" (truthy_defined _ B)) as Re.
  rewrite (MultiEnvelopeFacts.handler_readable _ _ _ Re
             (opt_not_function event "body" (truthy_defined _ B))).
  unfold MultiEnvelope.try_block.
  rewrite G; simpl. rewrite K; simpl.
  unfold MultiEnvelope.resolve.
  rewrite (Object_keys_readable event Re). cbn [bind].
  rewrite C. simpl. rewrite B, J. reflexivity.
Qed.

Lemma invalid_http_body_is_a_bad_request_witness :
  MultiEnvelope.handler Sample.platform VUndefined
    (VObject [ ("httpMethod", VString "POST"); ("method", VString "tools/call");
      ("body", VString "{oops") ])
  = Resolved (invalid_body Sample.platform).
Proof.
  destruct (invalid_http_body_is_a_bad_request Sample.platform VUndefined
              (VObject [ ("httpMethod", VString "POST");
                ("method", VString "tools/call");
                ("body", VString "{oops") ])
              Sample.config Sample.the_client
              eq_refl eq_refl eq_refl eq_refl eq_refl) as [H _].
  exact H.
Defined.

(** X5.  A queue event of [index.ts] is read from its first record only.
    With the configuration read and the client made, when the body of that
    record is not JSON, or is the JSON [null], the answer is the internal
    error "SQS/SNSボディのJSONが無効です" ("the JSON of the SQS/SNS body is
    invalid"), whatever the other records hold. *)
Theorem invalid_queue_body_is_an_internal_error
    (P : Platform) (cc : value) (event : value) (config : KintoneConfig)
    (client : KintoneRestAPIClient)
    (record : value) (others : list value) (body : value) :
  getKintoneConfig P = Next config ->
  createKintoneClient P config = Next client ->
  MultiEnvelope.classify cc event = Next QueueMessage ->
  opt event "Records" = VArray (record :: others) ->
  prop record "body" = Next body ->
  truthy body = true ->
  JSON_parse P body = None \/ JSON_parse P body = Some VNull ->
  exists wrapped,
    MultiEnvelope.http_shaped cc event = Next wrapped
    /\ MultiEnvelope.handler P cc event
       = Resolved
           (answer P MultiEnvelope.headers event wrapped
              (jsonrpc_error event (-32603) "SQS/SNSボディのJSONが無効です"
                 (Some (VObject [ ("timestamp", VString (now P)) ])))
              500 (internal_error P "SQS/SNSボディのJSONが無効です"))
    /\ resolves_with P event wrapped (MultiEnvelope.handler P cc event)
         (-32603) "SQS/SNSボディのJSONが無効です"
         500 (internal_error P "SQS/SNSボディのJSONが無効です").
Proof.
  intros G K C R B T J.
  assert (Re : readable event)
    by (apply (opt_readable event "Records"); rewrite R; discriminate).
  destruct (MultiEnvelopeRender.wrapped_of_kind cc event QueueMessage C)
    as (w & W & _); [discriminate|].
  exists w. split; [exact W|].
  apply with_fields; [reflexivity|].
  apply (MultiEnvelopeRender.caught P cc event w
           (Error "SQS/SNSボディのJSONが無効です") Re);
    [apply (opt_not_function event "Records"); rewrite R; discriminate
    |now right|].
  unfold MultiEnvelope.try_block.
  rewrite G; simpl. rewrite K; simpl.
  unfold MultiEnvelope.resolve.
  rewrite (Object_keys_readable event Re). cbn [bind].
  rewrite C. simpl. rewrite R, B. simpl.
  rewrite T. now destruct J as [-> | ->].
Qed.

Lemma invalid_queue_body_is_an_internal_error_witness :
  MultiEnvelope.handler Sample.platform VUndefined
    (VObject [ ("Records",
        VArray [ VObject [ ("body", VString "not json") ];
                 VObject [ ("body", VString "ignored") ] ]) ])
  = Resolved (internal_error Sample.platform "SQS/SNSボディのJSONが無効です").
Proof.
  destruct (invalid_queue_body_is_an_internal_error Sample.platform
              VUndefined
              (VObject [ ("Records",
                  VArray [ VObject [ ("body", VString "not json") ];
                           VObject [ ("body", VString "ignored") ] ]) ])
              Sample.config Sample.the_client
              (VObject [ ("body", VString "not json") ])
              [ VObject [ ("body", VString "ignored") ] ]
              (VString "not json")
              eq_refl eq_refl eq_refl eq_refl eq_refl eq_refl
              (or_introl eq_refl))
    as (w & W & H & _).
  injection W as <-. exact H.
Defined.

(** X6.  With the configuration read and the client made, a queue event of
    [index.ts] with an empty [Records] array is answered by the [catch]
    block: reading [body] of the missing first record throws, so the answer
    is an internal error and not the missing-tool answer. *)
Theorem empty_queue_is_an_internal_error
    (P : Platform) (cc : value) (event : value) (config : KintoneConfig)
    (client : KintoneRestAPIClient) :
  getKintoneConfig P = Next config ->
  createKintoneClient P config = Next client ->
  opt event "Records" = VArray [] ->
  MultiEnvelope.classify cc event = Next QueueMessage ->
  exists wrapped,
    MultiEnvelope.http_shaped cc event = Next wrapped
    /\ MultiEnvelope.handler P cc event
       = Resolved
           (answer P MultiEnvelope.headers event wrapped
              (jsonrpc_error event (-32603) (TypeError_message P "body")
                 (Some (VObject [ ("timestamp", VString (now P)) ])))
              500 (internal_error P (TypeError_message P "body")))
    /\ resolves_with P event wrapped (MultiEnvelope.handler P cc event)
         (-32603) (TypeError_message P "body")
         500 (internal_error P (TypeError_message P "body")).
Proof.
  intros G K R C.
  assert (Re : readable event)
    by (apply (opt_readable event "Records"); rewrite R; discriminate).
  destruct (MultiEnvelopeRender.wrapped_of_kind cc event QueueMessage C)
    as (w & W & _); [discriminate|].
  exists w. split; [exact W|].
  apply with_fields; [reflexivity|].
  apply (MultiEnvelopeRender.caught P cc event w (TypeError "body") Re);
    [apply (opt_not_function event "Records"); rewrite R; discriminate
    |now right|].
  unfold MultiEnvelope.try_block.
  rewrite G; simpl. rewrite K; simpl.
  unfold MultiEnvelope.resolve.
  rewrite (Object_keys_readable event Re). cbn [bind].
  rewrite C. simpl. now rewrite R.
Qed.

Lemma empty_queue_is_an_internal_error_witness :
  MultiEnvelope.handler Sample.platform VUndefined
    (VObject [ ("Records", VArray []) ])
  = Resolved (internal_error Sample.platform
                (TypeError_message Sample.platform "body")).
Proof.
  destruct (empty_queue_is_an_internal_error Sample.platform VUndefined
              (VObject [ ("Records", VArray []) ]) Sample.config
              Sample.the_client
              eq_refl eq_refl eq_refl eq_refl) as (w & W & H & _).
  injection W as <-. exact H.
Defined.

(* ================================================================== *)
(** ** When the handler of [index.ts] rejects *)
(* ================================================================== *)

Lemma and_startsWith_Throw v p e :
  and_startsWith v p = Throw e ->
  e = TypeError "startsWith" /\ truthy v = true /\ forall s, v <> VString s.
Proof.
  unfold and_startsWith, call_startsWith.
  destruct (truthy v) eqn:T; [|discriminate].
  destruct v; try discriminate; intros [= <-];
    (split; [reflexivity|]; split; [reflexivity|]; discriminate).
Qed.

Lemma and_startsWith_throws v p :
  truthy v = true -> (forall s, v <> VString s) ->
  and_startsWith v p = Throw (TypeError "startsWith").
Proof.
  unfold and_startsWith, call_startsWith. intros -> N.
  destruct v; try reflexivity. now destruct (N s).
Qed.

Lemma http_shaped_Throw cc event e :
  MultiEnvelope.http_shaped cc event = Throw e ->
  e = TypeError "startsWith"
  /\ truthy (MultiEnvelope.official_tool_name cc) = false
  /\ MultiEnvelope.has_operation event = false
  /\ truthy (opt event "name") = true
  /\ forall s, opt event "name" <> VString s.
Proof.
  unfold MultiEnvelope.http_shaped.
  destruct (truthy (MultiEnvelope.official_tool_name cc)); [discriminate|].
  destruct (MultiEnvelope.has_operation event); [discriminate|].
  destruct (and_startsWith (opt event "name") "MyKintoneTarget___")
    as [[|]|?|e'] eqn:A; simpl; try discriminate.
  intros [= <-]. apply and_startsWith_Throw in A as (-> & T & N).
  now repeat split.
Qed.

(** X7.  The handler of [index.ts] rejects, instead of answering, in
    three situations only.  The event is [undefined] or [null]: then
    [Object.keys(event)], in the log before the [try] block, throws.  The
    event is a function: then [JSON.stringify(event)] is [undefined] and
    the same log throws on its [length].  Or the event is not a
    [tools/call], nothing else makes it count as wrapped, and [event.name]
    is truthy and not a string: then the [startsWith] call of the wrapping
    condition throws inside the [catch] block.  In every other case the
    handler resolves. *)
Theorem handler_rejects_in_three_situations_only
    (P : Platform) (cc : value) (event : value) (e : thrown) :
  MultiEnvelope.handler P cc event = Rejected e
  <->
  ((event = VUndefined \/ event = VNull) /\ e = TypeError "keys")
  \/ (is_function event = true /\ e = TypeError "length")
  \/ (e = TypeError "startsWith"
      /\ is_string (opt event "method") "tools/call" = false
      /\ truthy (MultiEnvelope.official_tool_name cc) = false
      /\ MultiEnvelope.has_operation event = false
      /\ truthy (opt event "name") = true
      /\ forall s, opt event "name" <> VString s).
Proof.
  split.
  - destruct (readable_dec event) as [Re|Re].
    + destruct (is_function event) eqn:F.
      { rewrite (MultiEnvelopeFacts.handler_function _ _ _ F).
        intros [= <-]. right; left. now split. }
      rewrite (MultiEnvelopeFacts.handler_readable _ _ _ Re F).
      destruct (MultiEnvelope.try_block P cc event) as [r|r|e0]; simpl;
        try discriminate.
      unfold MultiEnvelope.catch_block, MultiEnvelope.render.
      destruct (is_string (opt event "method") "tools/call") eqn:M;
        [discriminate|].
      destruct (MultiEnvelope.http_shaped cc event) as [[|]|r|e'] eqn:W;
        simpl; try discriminate.
      intros [= <-]. apply http_shaped_Throw in W as (-> & O & H & T & N).
      right; right. now repeat split.
    + rewrite (MultiEnvelopeFacts.handler_unreadable _ _ _ Re).
      intros [= <-]. left. split; [|reflexivity].
      unfold readable in Re.
      destruct event; try (exfalso; apply Re; split; discriminate);
        [now left | now right].
  - intros [([-> | ->] & ->) | [(F & ->) | (-> & M & O & H & T & N)]];
      [reflexivity | reflexivity
      | now apply MultiEnvelopeFacts.handler_function |].
    pose proof (opt_readable event "name" (truthy_defined _ T)) as Re.
    pose proof (opt_not_function event "name" (truthy_defined _ T)) as F.
    pose proof (and_startsWith_throws _ "MyKintoneTarget___" T N) as A.
    assert (W : MultiEnvelope.http_shaped cc event
                = Throw (TypeError "startsWith")).
    { unfold MultiEnvelope.http_shaped. now rewrite O, H, A. }
    assert (C : MultiEnvelope.classify cc event
                = Throw (TypeError "startsWith")).
    { unfold MultiEnvelope.classify.
      rewrite (no_official_name_no_gateway_name cc O).
      rewrite (opt_has_keys event "name" (truthy_defined _ T)).
      rewrite M. cbn [andb]. rewrite H, A. reflexivity. }
    assert (X : exists e0, MultiEnvelope.try_block P cc event = Throw e0).
    { unfold MultiEnvelope.try_block.
      destruct (getKintoneConfig P) as [config|r|e0] eqn:G; simpl;
        [ | now apply getKintoneConfig_not_Return in G | eauto ].
      destruct (createKintoneClient P config) as [client|r|e0] eqn:K; simpl;
        [ | now apply createKintoneClient_not_Return in K | eauto ].
      unfold MultiEnvelope.resolve.
      rewrite (Object_keys_readable event Re). cbn [bind].
      rewrite C. simpl. eauto. }
    destruct X as [e0 X].
    rewrite (MultiEnvelopeFacts.handler_readable _ _ _ Re F), X. simpl.
    unfold MultiEnvelope.catch_block, MultiEnvelope.render.
    now rewrite M, W.
Qed.

(** The payload [null]; a function; and a direct invocation whose [name] is
    [true]. *)
Lemma handler_rejects_in_three_situations_only_witness :
  MultiEnvelope.handler Sample.platform VUndefined VNull
  = Rejected (TypeError "keys")
  /\ MultiEnvelope.handler Sample.platform VUndefined (VHost "toString")
     = Rejected (TypeError "length")
  /\ MultiEnvelope.handler Sample.platform VUndefined
       (VObject [ ("tool", VString "get-apps"); ("name", VBool true) ])
     = Rejected (TypeError "startsWith").
Proof.
  split.
  - apply (handler_rejects_in_three_situations_only
             Sample.platform VUndefined VNull).
    left. split; [now right | reflexivity].
  - split.
    + apply (handler_rejects_in_three_situations_only
               Sample.platform VUndefined (VHost "toString")).
      right; left. split; reflexivity.
    + apply (handler_rejects_in_three_situations_only
               Sample.platform VUndefined
               (VObject [ ("tool", VString "get-apps");
                          ("name", VBool true) ])).
      right; right. repeat split; try reflexivity. discriminate.
Defined.

(* ================================================================== *)
(** ** The kinds of answer *)
(* ================================================================== *)

Lemma attempt_tool_outcome P call wrap fallback :
  is_tool_outcome (KintoneTools.attempt P call wrap fallback).
Proof.
  unfold KintoneTools.attempt, KintoneTools.succeeded, KintoneTools.failed.
  destruct call as [e|response]; [right; eauto|].
  destruct (wrap response); [left | left | right]; eauto.
Qed.

Lemma run_tool_kinds P client tool params :
  (exists result, run_tool P client tool params = Next (Some result)
                  /\ is_tool_outcome result)
  \/ run_tool P client tool params = Next None
  \/ exists sc, run_tool P client tool params = Throw (ZodError sc params).
Proof.
  unfold run_tool, parse.
  destruct tool; try (right; left; reflexivity).
  repeat split_match;
    try (left; eexists; split; [reflexivity | apply attempt_tool_outcome]);
    try (right; left; reflexivity);
    try (right; right; eexists; reflexivity).
Qed.

Module MultiEnvelopeKinds.
Import MultiEnvelope MultiEnvelopeFacts.

Lemma try_block_kinds P cc event :
  (exists e, try_block P cc event = Throw e)
  \/ (try_block P cc event = Return (invalid_body P)
      /\ classify cc event = Next HttpProxy)
  \/ (exists wrapped rpc statusCode payload,
        try_block P cc event
        = Return (answer P headers event wrapped rpc statusCode payload)
        /\ exit_of P event rpc statusCode payload).
Proof.
  unfold try_block.
  destruct (getKintoneConfig P) as [config|?|?] eqn:G; simpl;
    [ | now apply getKintoneConfig_not_Return in G | eauto ].
  destruct (createKintoneClient P config) as [client|?|?] eqn:K; simpl;
    [ | now apply createKintoneClient_not_Return in K | eauto ].
  destruct (resolve P cc event) as [[[kind tool] params]|r'|?] eqn:R; simpl;
    [ | | eauto ].
  - apply resolve_parts in R as [_ L].
    destruct (http_shaped_after_log cc event L) as [w W].
    destruct (truthy tool); simpl.
    + unfold dispatch.
      destruct (run_tool_kinds P client tool params)
        as [(result & -> & O) | [-> | (sc & ->)]]; simpl.
      * rewrite (render_answer _ _ _ _ _ _ _ W).
        right; right. exists w; do 3 eexists. split; [reflexivity|].
        now apply exit_tool_ran.
      * rewrite (render_answer _ _ _ _ _ _ _ W).
        right; right. exists w; do 3 eexists. split; [reflexivity|].
        apply exit_unsupported.
      * eauto.
    + rewrite (render_answer _ _ _ _ _ _ _ W).
      right; right. exists w; do 3 eexists. split; [reflexivity|].
      now apply (exit_missing_tool P event _ [ ("debug", debug cc event) ]).
  - apply MultiEnvelopeExits.resolve_Return in R as [C ->].
    right; left. now split.
Qed.

(** Every answer of the handler: the invalid-body answer, or one of the
    four exits in the form of the envelope. *)
Lemma handler_kinds P cc event r :
  handler P cc event = Resolved r ->
  (r = invalid_body P /\ classify cc event = Next HttpProxy)
  \/ exists wrapped rpc statusCode payload,
       r = answer P headers event wrapped rpc statusCode payload
       /\ exit_of P event rpc statusCode payload.
Proof.
  destruct (readable_dec event) as [Re|Re];
    [ | rewrite (handler_unreadable P cc event Re); discriminate ].
  destruct (is_function event) eqn:F;
    [ rewrite (handler_function P cc event F); discriminate
    | rewrite (handler_readable P cc event Re F) ].
  destruct (try_block_kinds P cc event)
    as [(e & ->) | [(-> & C) | (w & rpc & st & payload & -> & X)]]; simpl.
  - unfold catch_block.
    match goal with
    | |- context [render P cc event ?rpc ?st ?payload] =>
        destruct (render_cases P cc event rpc st payload)
          as [(w & ->) | (e' & -> & M)]
    end; [|discriminate].
    intros [= <-]. right. exists w; do 3 eexists. split; [reflexivity|].
    apply exit_internal.
  - intros [= <-]. left. now split.
  - intros [= <-]. right. exists w, rpc, st, payload. now split.
Qed.

End MultiEnvelopeKinds.

Module CompactKinds.
Import Compact CompactFacts.

(** The handler of [part_000] resolves, with one of the four exits, for
    every event that can be read. *)
Lemma compact_handler_kinds P cc event :
  readable event ->
  exists rpc statusCode payload,
    handler P cc event
    = Resolved (answer P headers event (truthy (gateway_tool_name cc))
                  rpc statusCode payload)
    /\ exit_of P event rpc statusCode payload.
Proof.
  intros Re.
  assert (Caught : forall e,
    exists rpc statusCode payload,
      match catch_block P cc event e with
      | Next response | Return response => Resolved response
      | Throw e' => Rejected e'
      end
      = Resolved (answer P headers event (truthy (gateway_tool_name cc))
                    rpc statusCode payload)
      /\ exit_of P event rpc statusCode payload).
  { intros e. unfold catch_block.
    rewrite (compact_render_answer _ _ _ _ _ _ Re).
    do 3 eexists. split; [reflexivity|]. apply exit_internal. }
  unfold handler, try_block.
  destruct (getKintoneConfig P) as [config|?|e] eqn:G; simpl;
    [ | now apply getKintoneConfig_not_Return in G | apply Caught ].
  destruct (createKintoneClient P config) as [client|?|e] eqn:K; simpl;
    [ | now apply createKintoneClient_not_Return in K | apply Caught ].
  destruct (resolve cc event) as [[[kind tool] params]|?|e] eqn:R; simpl;
    [ | now apply CompactExits.resolve_not_Return in R | apply Caught ].
  destruct (truthy tool); simpl.
  - unfold dispatch.
    destruct (run_tool_kinds P client tool params)
      as [(result & -> & O) | [-> | (sc & ->)]]; simpl.
    + rewrite (compact_render_answer _ _ _ _ _ _ Re).
      do 3 eexists. split; [reflexivity|].
      now apply exit_tool_ran.
    + rewrite (compact_render_answer _ _ _ _ _ _ Re).
      do 3 eexists. split; [reflexivity|].
      apply exit_unsupported.
    + apply Caught.
  - rewrite (compact_render_answer _ _ _ _ _ _ Re).
    do 3 eexists. split; [reflexivity|].
    now apply (exit_missing_tool P event None []).
Qed.

End CompactKinds.

(** X8.  The handler of [part_000] rejects on the events [undefined] and
    [null] and on no other: reading [event.method] throws, in the [try]
    block and again in the [catch] block.  For every other event it
    resolves with one of four exits, in the form of its envelope: the
    outcome of a tool with status 200, the missing-tool or unsupported-tool
    object with status 400, or the internal-error object with status 500. *)
Theorem compact_handler_rejects_on_null_only
    (P : Platform) (cc : value) (event : value) :
  (event = VUndefined \/ event = VNull ->
   Compact.handler P cc event = Rejected (TypeError "method"))
  /\ (event <> VNull -> event <> VUndefined ->
      exists rpc statusCode payload,
        Compact.handler P cc event
        = Resolved
            (answer P Compact.headers event
               (truthy (Compact.gateway_tool_name cc)) rpc statusCode payload)
        /\ exit_of P event rpc statusCode payload).
Proof.
  split.
  - intros E. apply CompactExits.compact_handler_unreadable.
    intros [N U]. destruct E; contradiction.
  - intros N U. apply CompactKinds.compact_handler_kinds. now split.
Qed.

(** The payload [null] under a gateway context, and the payload [5] as a
    direct invocation. *)
Lemma compact_handler_rejects_on_null_only_witness :
  Compact.handler Sample.platform (Sample.gateway "T___kintone-get-apps")
    VNull
  = Rejected (TypeError "method")
  /\ exists rpc statusCode payload,
       Compact.handler Sample.platform VUndefined (VNumber 5)
       = Resolved
           (answer Sample.platform Compact.headers (VNumber 5)
              (truthy (Compact.gateway_tool_name VUndefined))
              rpc statusCode payload)
       /\ exit_of Sample.platform (VNumber 5) rpc statusCode payload.
Proof.
  destruct (compact_handler_rejects_on_null_only Sample.platform
              (Sample.gateway "T___kintone-get-apps") VNull) as [A _].
  destruct (compact_handler_rejects_on_null_only Sample.platform
              VUndefined (VNumber 5)) as [_ B].
  split.
  - apply A. now right.
  - apply B; discriminate.
Defined.

Lemma tool_outcome_is_outcome v : is_tool_outcome v -> is_outcome v.
Proof.
  intros [(data & ->) | (message & ->)]; eexists _, _; split; reflexivity.
Qed.

Lemma exit_of_shapes P event rpc statusCode payload :
  exit_of P event rpc statusCode payload ->
  is_jsonrpc event rpc /\ is_outcome payload.
Proof.
  intros [result O | data rest H | text data | message data].
  - split; [apply jsonrpc_result_is_jsonrpc | now apply tool_outcome_is_outcome].
  - split; [apply jsonrpc_error_is_jsonrpc|].
    eexists _, _; split; [reflexivity | exact H].
  - split; [apply jsonrpc_error_is_jsonrpc | apply unsupported_outcome].
  - split; [apply jsonrpc_error_is_jsonrpc | apply internal_error_outcome].
Qed.

(** What the payload of each status is. *)
Lemma exit_of_status P event rpc statusCode payload :
  exit_of P event rpc statusCode payload ->
  (statusCode = 200%Z /\ is_tool_outcome payload)
  \/ (statusCode = 400%Z
      /\ opt payload "success" = VBool false
      /\ (opt payload "error" = VString missing_tool_text
          \/ exists text,
               opt payload "error" = VString ("未対応のツール: " ++ text)))
  \/ (statusCode = 500%Z /\ exists message, payload = internal_error P message).
Proof.
  intros [result O | data rest H | text data | message data].
  - left. now split.
  - right; left. repeat split. now left.
  - right; left. repeat split. right. now exists text.
  - right; right. split; [reflexivity|]. now exists message.
Qed.

(** X9.  The status code of an HTTP response tells the exit, in both
    handlers: 200 carries the outcome of a tool that ran (also a failed
    one); 400 carries [success: false] with the missing-tool, the
    unsupported-tool or the invalid-body text; 500 carries the
    internal-error object with its timestamp.  There is no other status. *)
Theorem status_code_tells_the_exit
    (P : Platform) (cc : value) (event : value) (fields : object) :
  MultiEnvelope.handler P cc event = Resolved (VObject fields)
  \/ Compact.handler P cc event = Resolved (VObject fields) ->
  has_key fields "statusCode" = true ->
  exists payload,
    field fields "body" = VString (JSON_stringify P payload)
    /\ ((field fields "statusCode" = VNumber 200 /\ is_tool_outcome payload)
        \/ (field fields "statusCode" = VNumber 400
            /\ opt payload "success" = VBool false
            /\ (opt payload "error" = VString missing_tool_text
                \/ (exists text,
                      opt payload "error"
                      = VString ("未対応のツール: " ++ text))
                \/ opt payload "error"
                   = VString "リクエストボディのJSONが無効です"))
        \/ (field fields "statusCode" = VNumber 500
            /\ exists message, payload = internal_error P message)).
Proof.
  assert (Main : forall headers wrapped rpc st payload,
    answer P headers event wrapped rpc st payload = VObject fields ->
    exit_of P event rpc st payload ->
    has_key fields "statusCode" = true ->
    exists payload,
      field fields "body" = VString (JSON_stringify P payload)
      /\ ((field fields "statusCode" = VNumber 200 /\ is_tool_outcome payload)
          \/ (field fields "statusCode" = VNumber 400
              /\ opt payload "success" = VBool false
              /\ (opt payload "error" = VString missing_tool_text
                  \/ (exists text,
                        opt payload "error"
                        = VString ("未対応のツール: " ++ text))
                  \/ opt payload "error"
                     = VString "リクエストボディのJSONが無効です"))
          \/ (field fields "statusCode" = VNumber 500
              /\ exists message, payload = internal_error P message))).
  { intros headers w rpc st payload A X S.
    destruct (exit_of_shapes _ _ _ _ _ X) as [J O].
    rewrite (answer_statusCode _ _ _ _ _ _ _ _ A J O S).
    exists payload. split; [reflexivity|]. simpl.
    destruct (exit_of_status _ _ _ _ _ X)
      as [(-> & T) | [(-> & F & [E | E]) | (-> & E)]].
    - left. now split.
    - right; left. split; [reflexivity|]. split; [exact F|]. now left.
    - right; left. split; [reflexivity|]. split; [exact F|]. right. now left.
    - right; right. now split. }
  intros [H | H] S.
  - destruct (MultiEnvelopeKinds.handler_kinds P cc event _ H)
      as [(E & _) | (w & rpc & st & payload & E & X)].
    + unfold invalid_body, http_response in E.
      assert (F : fields = [ ("statusCode", VNumber 400);
                             ("headers", MultiEnvelope.headers);
                             ("body", VString (JSON_stringify P
                                (VObject [ ("success", VBool false);
                                           ("error", VString "リクエストボディのJSONが無効です") ]))) ])
        by congruence.
      rewrite F. eexists. split; [reflexivity|]. right; left.
      split; [reflexivity|]. split; [reflexivity|]. right; now right.
    + exact (Main _ _ _ _ _ (eq_sym E) X S).
  - destruct (readable_dec event) as [Re|Re];
      [|rewrite (CompactExits.compact_handler_unreadable P cc event Re) in H;
        discriminate].
    destruct (CompactKinds.compact_handler_kinds P cc event Re)
      as (rpc & st & payload & E & X).
    rewrite E in H.
    assert (A : answer P Compact.headers event
                  (truthy (Compact.gateway_tool_name cc)) rpc st payload
                = VObject fields) by congruence.
    exact (Main _ _ _ _ _ A X S).
Qed.

(** A gateway call of an unsupported tool on the sample platform: status
    400 with the unsupported-tool text. *)
Lemma status_code_tells_the_exit_witness :
  MultiEnvelope.handler Sample.platform
    (Sample.gateway "T___kintone-delete-records") (VObject [])
  = Resolved (http_response Sample.platform MultiEnvelope.headers 400
                (unsupported "delete-records"))
  /\ exists payload,
       VString (JSON_stringify Sample.platform (unsupported "delete-records"))
       = VString (JSON_stringify Sample.platform payload)
       /\ ((VNumber 400 = VNumber 200 /\ is_tool_outcome payload)
           \/ (VNumber 400 = VNumber 400
               /\ opt payload "success" = VBool false
               /\ (opt payload "error" = VString missing_tool_text
                   \/ (exists text,
                         opt payload "error"
                         = VString ("未対応のツール: " ++ text))
                   \/ opt payload "error"
                      = VString "リクエストボディのJSONが無効です"))
           \/ (VNumber 400 = VNumber 500
               /\ exists message,
                    payload = internal_error Sample.platform message)).
Proof.
  split; [reflexivity|].
  exact (status_code_tells_the_exit Sample.platform
           (Sample.gateway "T___kintone-delete-records") (VObject [])
           [ ("statusCode", VNumber 400);
             ("headers", MultiEnvelope.headers);
             ("body", VString (JSON_stringify Sample.platform
                                 (unsupported "delete-records"))) ]
           (or_introl eq_refl) eq_refl).
Defined.

(** X10.  The answer to a [tools/call] with parameters is, in both
    handlers, the JSON-RPC result of a tool that ran, or a JSON-RPC error
    with one of three codes: -32602 with the missing-tool text, -32601 with
    the unsupported-tool text, -32603 with the message of what was
    thrown. *)
Theorem tools_call_answers
    (P : Platform) (cc : value) (event : value) (r : value) :
  is_string (opt event "method") "tools/call" = true ->
  truthy (opt event "params") = true ->
  MultiEnvelope.handler P cc event = Resolved r
  \/ Compact.handler P cc event = Resolved r ->
  (exists result,
     is_tool_outcome result
     /\ r = jsonrpc_result P event result
     /\ opt (opt r "result") "isError"
        = VBool (negb (truthy (opt result "success")))
     /\ opt r "error" = VUndefined)
  \/ (exists data,
        r = jsonrpc_error event (-32602) missing_tool_text data
        /\ rpc_error_with event r (-32602) missing_tool_text)
  \/ (exists text data,
        r = jsonrpc_error event (-32601) ("未対応のツール: " ++ text) data
        /\ rpc_error_with event r (-32601) ("未対応のツール: " ++ text))
  \/ (exists message data,
        r = jsonrpc_error event (-32603) message data
        /\ rpc_error_with event r (-32603) message).
Proof.
  intros M Q H.
  assert (X : exists rpc st payload,
            r = rpc /\ exit_of P event rpc st payload).
  { destruct H as [H | H].
    - destruct (MultiEnvelopeKinds.handler_kinds P cc event _ H)
        as [(_ & C) | (w & rpc & st & payload & E & X)].
      + now apply tools_call_not_HttpProxy in C.
      + rewrite (answer_tools_call _ _ _ _ _ _ _ M) in E. eauto.
    - destruct (CompactKinds.compact_handler_kinds P cc event
                  (opt_readable event "method" (is_string_defined _ _ M)))
        as (rpc & st & payload & E & X).
      rewrite (answer_tools_call _ _ _ _ _ _ _ M) in E.
      exists rpc, st, payload. split; [congruence | exact X]. }
  destruct X as (rpc & st & payload & -> & X).
  destruct X as [result O | data rest _ | text data | message data].
  - left. exists result. split; [exact O|]. now repeat split.
  - right; left. exists data. split; [reflexivity|].
    apply rpc_error_fields.
  - right; right; left. exists text, data. split; [reflexivity|].
    apply rpc_error_fields.
  - right; right; right. exists message, data. split; [reflexivity|].
    apply rpc_error_fields.
Qed.

(** A [tools/call] of [get-apps] on the sample platform gets a result. *)
Lemma tools_call_answers_witness :
  exists result,
    is_tool_outcome result
    /\ Compact.handler Sample.platform VUndefined
         (VObject [ ("method", VString "tools/call");
           ("params", VObject [ ("name", VString "T___kintone-get-apps") ]) ])
       = Resolved
           (jsonrpc_result Sample.platform
              (VObject [ ("method", VString "tools/call");
                ("params",
                  VObject [ ("name", VString "T___kintone-get-apps") ]) ])
              result).
Proof.
  destruct (tools_call_answers Sample.platform VUndefined
              (VObject [ ("method", VString "tools/call");
                ("params", VObject [ ("name", VString "T___kintone-get-apps") ]) ])
              _ eq_refl eq_refl (or_intror eq_refl))
    as [(result & O & E & _)
       | [(data & E & _) | [(text & data & E & _) | (m & data & E & _)]]].
  - exists result. split; [exact O|]. now rewrite <- E.
  - discriminate E.
  - discriminate E.
  - discriminate E.
Defined.

(* ================================================================== *)
(** ** The two tables of [index.ts] *)
(* ================================================================== *)

Lemma toolNameMapping_identity name :
  has_key MultiEnvelope.toolNameMapping name = true ->
  field MultiEnvelope.toolNameMapping name = VString name
  /\ existsb (String.eqb name) Object_prototype_names = false
  /\ In name canonical_ids.
Proof.
  unfold MultiEnvelope.toolNameMapping. cbn [has_key field].
  repeat match goal with
  | |- context [String.eqb ?lit name] =>
      destruct (String.eqb_spec lit name) as [<-|_];
      [intros _; split; [reflexivity|]; split; [reflexivity | simpl; tauto]|]
  end.
  simpl. discriminate.
Qed.

Lemma alias_of_string P name :
  MultiEnvelope.alias P (VString name)
  = if existsb (String.eqb name) Object_prototype_names
    then VHost name else VString name.
Proof.
  unfold MultiEnvelope.alias, lookup. cbn [to_string].
  destruct (has_key MultiEnvelope.toolNameMapping name) eqn:H.
  - destruct (toolNameMapping_identity name H) as (-> & -> & _).
    now destruct (truthy (VString name)).
  - destruct (existsb (String.eqb name) Object_prototype_names) eqn:I;
      [|now rewrite andb_false_r].
    assert (T : truthy (VString name) = true).
    { destruct name; [discriminate I | reflexivity]. }
    now rewrite T.
Qed.

(** X11.  The alias table of [index.ts] maps each of its seven names to
    itself, so the alias step leaves a tool name as it is, with one
    exception: a name that every object inherits ([toString],
    [constructor], ...) is looked up on the prototype chain and replaced by
    the inherited object, which no [case] of the switch equals. *)
Theorem alias_changes_inherited_names_only (P : Platform) (name : string) :
  (existsb (String.eqb name) Object_prototype_names = false ->
   MultiEnvelope.alias P (VString name) = VString name)
  /\ (existsb (String.eqb name) Object_prototype_names = true ->
      MultiEnvelope.alias P (VString name) = VHost name
      /\ forall client params,
           run_tool P client (MultiEnvelope.alias P (VString name)) params
           = Next None).
Proof.
  rewrite alias_of_string. split; intros ->; [reflexivity|].
  split; reflexivity.
Qed.

Lemma alias_changes_inherited_names_only_witness :
  MultiEnvelope.alias Sample.platform (VString "get-form-fields")
  = VString "get-form-fields"
  /\ MultiEnvelope.alias Sample.platform (VString "valueOf") = VHost "valueOf".
Proof.
  split.
  - destruct (alias_changes_inherited_names_only Sample.platform
                "get-form-fields") as [A _].
    exact (A eq_refl).
  - destruct (alias_changes_inherited_names_only Sample.platform "valueOf")
      as [_ B].
    destruct (B eq_refl) as [H _]. exact H.
Defined.

Lemma toolMapping_implemented id :
  has_key MultiEnvelope.toolMapping id = true ->
  exists name,
    field MultiEnvelope.toolMapping id = VString name
    /\ In name implemented
    /\ existsb (String.eqb id) Object_prototype_names = false.
Proof.
  unfold MultiEnvelope.toolMapping. cbn [has_key field].
  repeat match goal with
  | |- context [String.eqb ?lit id] =>
      destruct (String.eqb_spec lit id) as [<-|_];
      [intros _; eexists; split; [reflexivity|]; split;
       [simpl; tauto | reflexivity]|]
  end.
  simpl. discriminate.
Qed.

(** X12.  On the operation-id branch of [index.ts], an [operationId] of
    the table becomes one of the five implemented tools (the two test
    entries [createPayment] and [processRefund] become [get-apps]); any
    other string is taken as the tool name itself, except an inherited name,
    which becomes the inherited object and makes the normalization throw.
    The parameters are [event.context.input], or [{}]. *)
Theorem operation_id_becomes_an_implemented_tool
    (P : Platform) (cc : value) (event : value) (id : string) :
  opt event "operationId" = VString id ->
  id <> "" ->
  exists tool,
    MultiEnvelope.extract P cc event LegacyOperationId
    = Next (tool, or_else (opt (opt event "context") "input") (VObject []))
    /\ (has_key MultiEnvelope.toolMapping id = true ->
        exists name, tool = VString name /\ In name implemented)
    /\ (has_key MultiEnvelope.toolMapping id = false ->
        existsb (String.eqb id) Object_prototype_names = false ->
        tool = VString id)
    /\ (existsb (String.eqb id) Object_prototype_names = true ->
        tool = VHost id
        /\ MultiEnvelope.normalize tool = Throw (TypeError "startsWith")).
Proof.
  intros O N.
  assert (T : truthy (VString id) = true)
    by (destruct id; [congruence | reflexivity]).
  cbn [MultiEnvelope.extract]. rewrite O, T. cbn [to_string].
  eexists. split; [reflexivity|]. unfold lookup.
  destruct (has_key MultiEnvelope.toolMapping id) eqn:H.
  - destruct (toolMapping_implemented id H) as (name & -> & I & E).
    split; [|split].
    + intros _. exists name. split; [|exact I].
      unfold or_else.
      assert (Tn : truthy (VString name) = true).
      { destruct name; [|reflexivity].
        simpl in I. intuition discriminate. }
      now rewrite Tn.
    + discriminate.
    + rewrite E. discriminate.
  - split; [discriminate|]. split.
    + intros _ ->. reflexivity.
    + intros ->. split; reflexivity.
Qed.

Lemma operation_id_becomes_an_implemented_tool_witness :
  exists name,
    MultiEnvelope.extract Sample.platform VUndefined
      (VObject [ ("operationId", VString "getFormFields");
        ("context", VObject [ ("input", VObject [ ("id", VString "7") ]) ]) ])
      LegacyOperationId
    = Next (VString name, VObject [ ("id", VString "7") ])
    /\ In name implemented.
Proof.
  destruct (operation_id_becomes_an_implemented_tool Sample.platform
              VUndefined
              (VObject [ ("operationId", VString "getFormFields");
                ("context",
                  VObject [ ("input", VObject [ ("id", VString "7") ]) ]) ])
              "getFormFields" eq_refl)
    as (tool & E & A & _); [discriminate|].
  destruct (A eq_refl) as (name & -> & I).
  exists name. split; [exact E | exact I].
Defined.

(* ================================================================== *)
(** ** Names in the wire format *)
(* ================================================================== *)

Module DelimiterFacts.
Import JsString JsStringFacts SplitFacts.

#[local] Arguments startsWith : simpl never.

Lemma append_assoc (a b c : string) : (a ++ b) ++ c = a ++ b ++ c.
Proof. induction a as [|x a IH]; simpl; [reflexivity | now rewrite IH]. Qed.

Lemma drop_app (a b : string) : drop (String.length a) (a ++ b) = b.
Proof. induction a as [|x a IH]; simpl; [now destruct b | exact IH]. Qed.

(** Where the delimiter occurs, it stands right before the last part. *)
Lemma last_split_upto_after k s d :
  find s d <> None ->
  exists before, s = before ++ d ++ List.last (split_upto (S k) s d) "".
Proof.
  revert s; induction k as [|k IH]; intros s F.
  - cbn [split_upto]. destruct (find s d) as [i|] eqn:E; [|congruence].
    exists (take i s). simpl. now apply find_cut.
  - remember (S k) as n. cbn [split_upto].
    destruct (find s d) as [i|] eqn:E; [|congruence].
    rewrite last_cons_not_nil by apply split_upto_not_nil. subst n.
    destruct (find (drop (i + String.length d) s) d) as [j|] eqn:G.
    + destruct (IH (drop (i + String.length d) s)) as [before B];
        [congruence|].
      exists (take i s ++ d ++ before).
      rewrite !append_assoc, <- B. now apply find_cut.
    + cbn [split_upto]. rewrite G. exists (take i s). simpl.
      now apply find_cut.
Qed.

(** With a bound that is enough, the last part holds no delimiter. *)
Lemma last_split_upto_clean k s d :
  d <> "" -> String.length s < k ->
  includes (List.last (split_upto k s d) "") d = false.
Proof.
  intros Hd. revert s; induction k as [|k IH]; intros s Hk; [lia|].
  cbn [split_upto]. destruct (find s d) as [i|] eqn:F.
  - rewrite last_cons_not_nil by apply split_upto_not_nil.
    apply IH. rewrite length_drop. pose proof (find_bound _ _ _ F).
    assert (0 < String.length d) by (destruct d; [congruence|simpl; lia]).
    lia.
  - simpl. unfold includes. now rewrite F.
Qed.

Lemma startsWith_other (c : ascii) (r p : string) (x : ascii) :
  Ascii.eqb c x = false -> startsWith (String c r) (String x p) = false.
Proof.
  intros E. unfold startsWith. simpl.
  destruct (ascii_dec x c) as [->|]; [|reflexivity].
  now rewrite Ascii.eqb_refl in E.
Qed.

(** A prefix without underscore is skipped by the search for the
    delimiter. *)
Lemma find_skips_clean_prefix t r :
  no_underscore t = true ->
  find (t ++ r) "___" = option_map (Nat.add (String.length t)) (find r "___").
Proof.
  induction t as [|c t IH]; intros N.
  - simpl. now destruct (find r "___").
  - simpl in N. apply andb_prop in N as [C N].
    apply negb_true_iff in C.
    cbn [append find]. rewrite (startsWith_other c (t ++ r) "__" "_" C).
    rewrite (IH N). now destruct (find r "___").
Qed.

Lemma find_delimiter_after_target target rest :
  no_underscore target = true ->
  find (target ++ "___" ++ rest) "___" = Some (String.length target).
Proof.
  intros N. rewrite (find_skips_clean_prefix _ _ N).
  assert (F : find ("___" ++ rest) "___" = Some 0)
    by (destruct rest; reflexivity).
  rewrite F. simpl. f_equal. lia.
Qed.

Lemma after_target target rest :
  no_underscore target = true ->
  after_first_delimiter (target ++ "___" ++ rest) = rest.
Proof.
  intros N.
  rewrite (after_first_delimiter_drop _ _
             (find_delimiter_after_target target rest N)).
  replace (String.length target + 3)
    with (String.length (target ++ "___"))
    by (rewrite length_app; reflexivity).
  rewrite <- (append_assoc target "___" rest). apply drop_app.
Qed.

Lemma family_clean op :
  includes op "___" = false -> includes ("kintone-" ++ op) "___" = false.
Proof.
  unfold includes.
  rewrite (find_skips_clean_prefix "kintone-" op eq_refl).
  now destruct (find op "___").
Qed.

End DelimiterFacts.

Lemma extractToolName_of_string raw :
  Compact.extractToolName (VString raw)
  = Next (VString (if JsString.includes raw "___"
                   then List.last (JsString.split raw "___") ""
                   else raw)).
Proof.
  unfold Compact.extractToolName, call_includes, Compact.delimiter.
  destruct (JsString.includes raw "___") eqn:I.
  - assert (T : truthy (VString raw) = true).
    { destruct raw; [discriminate I | reflexivity]. }
    now rewrite T.
  - now destruct (truthy (VString raw)).
Qed.

(** X13.  For a string, [extractToolName] of [part_000] returns a suffix of
    its argument that holds no delimiter: whatever stands before the last
    ["___"] is dropped, and a name without delimiter is returned whole. *)
Theorem extractToolName_returns_a_clean_suffix (raw : string) :
  exists name prefix,
    Compact.extractToolName (VString raw) = Next (VString name)
    /\ raw = prefix ++ name
    /\ JsString.includes name "___" = false
    /\ (JsString.includes raw "___" = false -> name = raw)
    /\ (JsString.includes raw "___" = true ->
        exists before, raw = before ++ "___" ++ name).
Proof.
  assert (Hd : "___" <> "") by discriminate.
  rewrite extractToolName_of_string.
  destruct (JsString.includes raw "___") eqn:I.
  - assert (F : JsString.find raw "___" <> None).
    { unfold JsString.includes in I.
      destruct (JsString.find raw "___"); [discriminate | discriminate I]. }
    destruct (DelimiterFacts.last_split_upto_after
                (String.length raw) raw "___" F) as [before B].
    fold (JsString.split raw "___") in B.
    assert (Clean : JsString.includes
                      (List.last (JsString.split raw "___") "") "___" = false)
      by (apply DelimiterFacts.last_split_upto_clean; [exact Hd | lia]).
    revert B Clean. generalize (List.last (JsString.split raw "___") "").
    intros name B Clean.
    exists name, (before ++ "___").
    split; [reflexivity|]. split.
    { now rewrite DelimiterFacts.append_assoc. }
    split; [exact Clean|]. split; [discriminate|]. intros _.
    now exists before.
  - exists raw, "". split; [reflexivity|].
    split; [reflexivity|]. split; [exact I|]. split; [reflexivity|discriminate].
Qed.

Lemma extractToolName_returns_a_clean_suffix_witness :
  exists name,
    Compact.extractToolName (VString "A___B___C") = Next (VString name)
    /\ JsString.includes name "___" = false.
Proof.
  destruct (extractToolName_returns_a_clean_suffix "A___B___C")
    as (name & prefix & E & _ & C & _).
  exists name. split; [exact E | exact C].
Defined.

Lemma normalize_of_string name :
  MultiEnvelope.normalize (VString name) = Next (VString (without_family name))
  /\ Compact.normalize (VString name) = Next (VString (without_family name)).
Proof.
  unfold MultiEnvelope.normalize, Compact.normalize, and_startsWith,
    without_family.
  destruct name as [|c r]; [now split|]. cbn [truthy String.eqb negb].
  cbn [call_startsWith bind].
  now destruct (JsString.startsWith (String c r) "kintone-").
Qed.

(** The request-detail log of [index.ts] gets through when each of the
    three name fields of the event is falsy or a string. *)
Lemma log_request_details_passes event :
  (forall k, In k [ "name"; "toolName"; "tool_name" ] ->
             truthy (opt event k) = true ->
             exists s, opt event k = VString s) ->
  MultiEnvelope.log_request_details event = Next tt.
Proof.
  intros S. unfold MultiEnvelope.log_request_details.
  assert (A : forall k, In k [ "name"; "toolName"; "tool_name" ] ->
            exists b, and_startsWith (opt event k) "MyKintoneTarget___"
                      = Next b).
  { intros k I. unfold and_startsWith.
    destruct (truthy (opt event k)) eqn:T; [|eauto].
    destruct (S k I T) as (s & ->). simpl. eauto. }
  destruct (A "name") as ([|] & ->); [simpl; tauto | reflexivity |].
  destruct (A "toolName") as ([|] & ->); [simpl; tauto | reflexivity |].
  destruct (A "tool_name") as (u & ->); [simpl; tauto|].
  reflexivity.
Qed.

(** X14.  A gateway tool name in the wire format
    [<target>___kintone-<operation>], whose target holds no underscore and
    whose operation holds no delimiter, does not start with the family
    prefix and is no inherited name, resolves to [<operation>] with the
    event as parameters: in [part_000] for every event; in [index.ts] for
    an event that is neither [undefined] nor [null] and whose fields
    [name], [toolName] and [tool_name] are each falsy or a string.  Where
    [event.name] is truthy and not a string, the request-detail log of
    [index.ts] throws instead. *)
Theorem wire_format_names_resolve_alike
    (P : Platform) (target operation : string) (event : value) :
  no_underscore target = true ->
  JsString.includes operation "___" = false ->
  JsString.startsWith operation "kintone-" = false ->
  existsb (String.eqb operation) Object_prototype_names = false ->
  Compact.resolve
    (Sample.gateway (target ++ "___kintone-" ++ operation)) event
  = Next (GatewayManaged, VString operation, event)
  /\ (readable event ->
      (forall k, In k [ "name"; "toolName"; "tool_name" ] ->
                 truthy (opt event k) = true ->
                 exists s, opt event k = VString s) ->
      MultiEnvelope.resolve P
        (Sample.gateway (target ++ "___kintone-" ++ operation)) event
      = Next (GatewayManaged, VString operation, event))
  /\ (truthy (opt event "name") = true ->
      (forall s, opt event "name" <> VString s) ->
      MultiEnvelope.resolve P
        (Sample.gateway (target ++ "___kintone-" ++ operation)) event
      = Throw (TypeError "startsWith")).
Proof.
  intros N I F H.
  set (raw := target ++ "___kintone-" ++ operation).
  assert (Hd : "___" <> "") by discriminate.
  assert (Fr : JsString.find raw "___" = Some (String.length target))
    by (apply (DelimiterFacts.find_delimiter_after_target
                 target ("kintone-" ++ operation) N)).
  assert (Ir : JsString.includes raw "___" = true)
    by (unfold JsString.includes; now rewrite Fr).
  assert (A : after_first_delimiter raw = "kintone-" ++ operation)
    by (apply (DelimiterFacts.after_target
                 target ("kintone-" ++ operation) N)).
  assert (Tr : truthy (VString raw) = true).
  { destruct raw; [discriminate Fr | reflexivity]. }
  assert (S8 : JsString.startsWith ("kintone-" ++ operation) "kintone-" = true)
    by (destruct operation; reflexivity).
  assert (R8 : JsString.replace ("kintone-" ++ operation) "kintone-" ""
               = operation)
    by (rewrite (JsStringFacts.replace_prefix _ _ S8); reflexivity).
  assert (W : without_family operation = operation)
    by (unfold without_family; now rewrite F).
  assert (G : MultiEnvelope.gateway_tool (VString raw)
              = Next (VString operation)).
  { unfold MultiEnvelope.gateway_tool, call_includes,
      MultiEnvelope.delimiter.
    cbn [bind]. rewrite Ir. cbn [on_string].
    change (JsString.substring raw
              (JsString.indexOf raw "___" + Z.of_nat (String.length "___")))
      with (after_first_delimiter raw).
    now rewrite A, R8. }
  assert (Gt : truthy (MultiEnvelope.gateway_tool_name (Sample.gateway raw))
               = true) by exact Tr.
  assert (Before : forall Re : readable event,
            MultiEnvelope.resolve P (Sample.gateway raw) event
            = (_ <- MultiEnvelope.log_request_details event ;;
               tool <- MultiEnvelope.normalize (VString operation) ;;
               Next (GatewayManaged, MultiEnvelope.alias P tool, event))).
  { intros Re. unfold MultiEnvelope.resolve, MultiEnvelope.classify.
    rewrite (Object_keys_readable event Re). cbn [bind].
    rewrite Gt. cbn [bind MultiEnvelope.extract].
    change (opt (MultiEnvelope.customContext (Sample.gateway raw))
              "bedrockAgentCoreToolName") with (VString raw).
    rewrite G. reflexivity. }
  split; [|split].
  - assert (X : Compact.extractToolName (VString raw)
                = Next (VString ("kintone-" ++ operation))).
    { rewrite extractToolName_of_string, Ir.
      pose proof (SplitFacts.last_split_rest raw "___" _ Hd Fr) as Lr.
      cbn [String.length] in Lr. rewrite Lr.
      rewrite <- (SplitFacts.after_first_delimiter_drop raw _ Fr), A.
      now rewrite (SplitFacts.split_absent _ _
                     (DelimiterFacts.family_clean operation I)). }
    unfold Compact.resolve, Compact.classify.
    assert (Gc : (truthy (Compact.customContext (Sample.gateway raw))
                  && truthy (Compact.gateway_tool_name (Sample.gateway raw)))%bool
                 = true) by exact Tr.
    rewrite Gc. cbn [bind Compact.extract].
    change (Compact.gateway_tool_name (Sample.gateway raw)) with (VString raw).
    rewrite X. cbn [bind].
    destruct (normalize_of_string ("kintone-" ++ operation)) as [_ ->].
    cbn [bind]. unfold without_family. now rewrite S8, R8.
  - intros Re S. rewrite (Before Re).
    rewrite (log_request_details_passes event S). cbn [bind].
    destruct (normalize_of_string operation) as [-> _]. cbn [bind].
    now rewrite W, alias_of_string, H.
  - intros T Ns.
    rewrite (Before (opt_readable event "name" (truthy_defined _ T))).
    unfold MultiEnvelope.log_request_details.
    now rewrite (and_startsWith_throws _ "MyKintoneTarget___" T Ns).
Qed.

(** [get-records] under the target [MyKintoneTarget]; and the same call
    with the event [{name: 5}], where the two entry points part. *)
Lemma wire_format_names_resolve_alike_witness :
  MultiEnvelope.resolve Sample.platform
    (Sample.gateway "MyKintoneTarget___kintone-get-records")
    (VObject [ ("app", VString "12") ])
  = Next (GatewayManaged, VString "get-records",
          VObject [ ("app", VString "12") ])
  /\ Compact.resolve
       (Sample.gateway "MyKintoneTarget___kintone-get-records")
       (VObject [ ("app", VString "12") ])
     = Next (GatewayManaged, VString "get-records",
             VObject [ ("app", VString "12") ])
  /\ MultiEnvelope.resolve Sample.platform
       (Sample.gateway "MyKintoneTarget___kintone-get-records")
       (VObject [ ("name", VNumber 5) ])
     = Throw (TypeError "startsWith")
  /\ Compact.resolve
       (Sample.gateway "MyKintoneTarget___kintone-get-records")
       (VObject [ ("name", VNumber 5) ])
     = Next (GatewayManaged, VString "get-records",
             VObject [ ("name", VNumber 5) ]).
Proof.
  destruct (wire_format_names_resolve_alike Sample.platform
              "MyKintoneTarget" "get-records"
              (VObject [ ("app", VString "12") ])
              eq_refl eq_refl eq_refl eq_refl) as (C & M & _).
  destruct (wire_format_names_resolve_alike Sample.platform
              "MyKintoneTarget" "get-records"
              (VObject [ ("name", VNumber 5) ])
              eq_refl eq_refl eq_refl eq_refl) as (C' & _ & T).
  split; [|split; [exact C | split; [|exact C']]].
  - apply M; [apply object_readable|].
    intros k [<- | [<- | [<- | []]]] B; discriminate B.
  - apply T; [reflexivity | discriminate].
Defined.

(* ================================================================== *)
(** ** What the schemas accept *)
(* ================================================================== *)

Module SchemaFacts.

Lemma safeParse_array sc items :
  safeParse (z_array sc) (VArray items)
  = option_map VArray (parse_items sc items).
Proof.
  cbn [safeParse]. f_equal.
  induction items as [|x r IH]; [reflexivity|].
  cbn [parse_items]. now rewrite <- IH.
Qed.

Lemma safeParse_record sc o :
  safeParse (z_record sc) (VObject o)
  = option_map VObject (parse_entries sc o).
Proof.
  cbn [safeParse]. f_equal.
  induction o as [|[k x] r IH]; [reflexivity|].
  cbn [parse_entries]. now rewrite <- IH.
Qed.

Lemma safeParse_object shape o :
  safeParse (z_object shape) (VObject o)
  = option_map VObject (parse_shape o shape).
Proof.
  cbn [safeParse]. f_equal.
  induction shape as [|[k sk] r IH]; [reflexivity|].
  cbn [parse_shape]. now rewrite <- IH.
Qed.

Lemma safeParse_object_only shape v :
  safeParse (z_object shape) v <> None -> exists o, v = VObject o.
Proof. destruct v; cbn [safeParse]; try congruence. eauto. Qed.

Lemma field_absent o k : has_key o k = false -> field o k = VUndefined.
Proof.
  induction o as [|[k' x] r IH]; [reflexivity|]. simpl.
  destruct (String.eqb k' k); [discriminate | exact IH].
Qed.

(** A key of the shape is emitted exactly when the input has it. *)
Lemma emitted o k (r : object) :
  (if has_key o k
   then (k, field o k) :: r
   else match field o k with
        | VUndefined => r
        | _ => (k, field o k) :: r
        end)
  = if has_key o k then (k, field o k) :: r else r.
Proof.
  destruct (has_key o k) eqn:H; [reflexivity|].
  now rewrite (field_absent o k H).
Qed.

Lemma parse_entries_any o : parse_entries z_any o = Some (without_proto o).
Proof.
  induction o as [|[k x] r IH]; [reflexivity|].
  cbn [parse_entries safeParse without_proto]. now rewrite IH.
Qed.

Lemma parse_items_records items :
  parse_items (z_record z_any) items
  = if forallb is_object items then Some (map as_record items) else None.
Proof.
  induction items as [|x r IH]; [reflexivity|].
  cbn [parse_items forallb]. rewrite IH.
  destruct x; cbn [is_object andb]; try reflexivity.
  rewrite safeParse_record, parse_entries_any. cbn [option_map].
  now destruct (forallb is_object r).
Qed.

Lemma without_proto_id o :
  has_key o "__proto__" = false -> without_proto o = o.
Proof.
  induction o as [|[k x] r IH]; [reflexivity|].
  cbn [has_key without_proto].
  destruct (String.eqb k "__proto__"); [discriminate|].
  intros H. now rewrite (IH H).
Qed.

Lemma without_proto_clean o : has_key (without_proto o) "__proto__" = false.
Proof.
  induction o as [|[k x] r IH]; [reflexivity|].
  cbn [without_proto].
  destruct (String.eqb k "__proto__") eqn:E; [exact IH|].
  cbn [has_key]. now rewrite E.
Qed.

Lemma parse_items_strings items :
  parse_items z_string items
  = if all_strings items then Some items else None.
Proof.
  unfold all_strings.
  induction items as [|x r IH]; [reflexivity|].
  cbn [parse_items forallb]. rewrite IH.
  destruct x; cbn [safeParse andb]; try reflexivity.
  now destruct (forallb _ r).
Qed.

Lemma parse_required_string x :
  safeParse z_string x = match x with VString _ => Some x | _ => None end.
Proof. reflexivity. Qed.

Lemma parse_optional_string x :
  safeParse (z_optional z_string) x
  = if optional_string x then Some x else None.
Proof. now destruct x. Qed.

Lemma parse_optional_boolean x :
  safeParse (z_optional z_boolean) x
  = if optional_boolean x then Some x else None.
Proof. now destruct x. Qed.

Lemma parse_optional_strings x :
  safeParse (z_optional (z_array z_string)) x
  = if optional_strings x then Some x else None.
Proof.
  destruct x; try reflexivity.
  change (safeParse (z_optional (z_array z_string)) (VArray items))
    with (safeParse (z_array z_string) (VArray items)).
  rewrite safeParse_array, parse_items_strings.
  change (optional_strings (VArray items)) with (all_strings items).
  now destruct (all_strings items).
Qed.

(** The parsed parameters of [get-records]. *)
Lemma getRecords_parsed o :
  safeParse getRecordsSchema (VObject o)
  = match field o "app" with
    | VString _ =>
        if (optional_string (field o "query")
            && optional_strings (field o "fields")
            && optional_boolean (field o "totalCount"))%bool
        then Some (VObject
               (("app", field o "app")
                :: (if has_key o "query"
                    then [ ("query", field o "query") ] else [])
                ++ (if has_key o "fields"
                    then [ ("fields", field o "fields") ] else [])
                ++ (if has_key o "totalCount"
                    then [ ("totalCount", field o "totalCount") ] else [])))
        else None
    | _ => None
    end.
Proof.
  unfold getRecordsSchema. rewrite safeParse_object. cbn [parse_shape].
  rewrite parse_optional_string, parse_optional_strings,
    parse_optional_boolean, parse_required_string.
  destruct (field o "app") eqn:A; try reflexivity.
  assert (K : has_key o "app" = true).
  { destruct (has_key o "app") eqn:K; [reflexivity|].
    rewrite (field_absent o "app" K) in A. discriminate. }
  rewrite K.
  destruct (optional_string (field o "query")); cbn [andb];
    [|reflexivity].
  destruct (optional_strings (field o "fields")); cbn [andb];
    [|reflexivity].
  destruct (optional_boolean (field o "totalCount")); [|reflexivity].
  cbn [option_map]. rewrite !emitted.
  now destruct (has_key o "query"), (has_key o "fields"),
               (has_key o "totalCount").
Qed.

(** The four parameters of [get-records] pass the schema unchanged. *)
Lemma getRecords_fields o parsed :
  safeParse getRecordsSchema (VObject o) = Some parsed ->
  (forall k, In k [ "app"; "query"; "fields"; "totalCount" ] ->
             opt parsed k = field o k)
  /\ optional_boolean (field o "totalCount") = true.
Proof.
  rewrite getRecords_parsed.
  destruct (field o "app") as [| | | |app| | |] eqn:A; try discriminate.
  destruct (optional_string (field o "query")); [|discriminate].
  destruct (optional_strings (field o "fields")); [|discriminate].
  destruct (optional_boolean (field o "totalCount")); [|discriminate].
  cbn [andb]. intros [= <-]. split; [|reflexivity].
  intros k [<- | [<- | [<- | [<- | []]]]];
    destruct (has_key o "query") eqn:Kq,
             (has_key o "fields") eqn:Kf,
             (has_key o "totalCount") eqn:Kt;
    cbn [opt List.app field String.eqb Ascii.eqb Bool.eqb];
    rewrite ?A; try reflexivity;
    symmetry; now apply field_absent.
Qed.

End SchemaFacts.

(** X15.  [getAppSchema] accepts exactly the objects whose [id] is a
    string, and the parsed value is [{id}] alone: every other key of the
    input is dropped.  [null], arrays and primitives are rejected. *)
Theorem getAppSchema_keeps_the_id_only (v out : value) :
  safeParse getAppSchema v = Some out
  <-> exists o id,
        v = VObject o
        /\ field o "id" = VString id
        /\ out = VObject [ ("id", VString id) ].
Proof.
  split.
  - intros H.
    destruct v as [| | | | | |o|]; try (now cbn in H).
    unfold getAppSchema in H.
    rewrite SchemaFacts.safeParse_object in H. cbn [parse_shape] in H.
    rewrite SchemaFacts.parse_required_string in H.
    destruct (field o "id") eqn:I; try discriminate H.
    assert (K : has_key o "id" = true).
    { destruct (has_key o "id") eqn:K; [reflexivity|].
      rewrite (SchemaFacts.field_absent o "id" K) in I. discriminate. }
    rewrite K in H. injection H as <-. now exists o, s.
  - intros (o & id & -> & I & ->).
    unfold getAppSchema.
    rewrite SchemaFacts.safeParse_object. cbn [parse_shape].
    rewrite SchemaFacts.parse_required_string, I.
    assert (K : has_key o "id" = true).
    { destruct (has_key o "id") eqn:K; [reflexivity|].
      rewrite (SchemaFacts.field_absent o "id" K) in I. discriminate. }
    now rewrite K.
Qed.

Lemma getAppSchema_keeps_the_id_only_witness :
  safeParse getAppSchema
    (VObject [ ("verbose", VBool true); ("id", VString "7") ])
  = Some (VObject [ ("id", VString "7") ]).
Proof.
  apply (getAppSchema_keeps_the_id_only
           (VObject [ ("verbose", VBool true); ("id", VString "7") ])
           (VObject [ ("id", VString "7") ])).
  exists [ ("verbose", VBool true); ("id", VString "7") ], "7".
  repeat split.
Defined.

(** X16.  [addRecordsSchema] accepts exactly the objects whose [app] is a
    string and whose [records] is an array of objects; the array may be
    empty.  The parsed value is [{app, records}] alone, and each record
    comes back with all its entries, whatever they hold, but for one: an
    own key [__proto__], which the record schema leaves out.  A record
    without that key passes unchanged. *)
Theorem addRecordsSchema_accepts_any_array_of_objects (v out : value) :
  (safeParse addRecordsSchema v = Some out
   <-> exists o app records,
         v = VObject o
         /\ field o "app" = VString app
         /\ field o "records" = VArray records
         /\ forallb is_object records = true
         /\ out = VObject [ ("app", VString app);
                            ("records", VArray (map as_record records)) ])
  /\ (forall record,
        has_key record "__proto__" = false ->
        as_record (VObject record) = VObject record)
  /\ (forall record,
        opt (as_record (VObject record)) "__proto__" = VUndefined
        /\ forall k, k <> "__proto__" ->
             opt (as_record (VObject record)) k = field record k).
Proof.
  assert (K : forall o k, field o k <> VUndefined -> has_key o k = true).
  { intros o k N. destruct (has_key o k) eqn:E; [reflexivity|].
    now rewrite (SchemaFacts.field_absent o k E) in N. }
  split; [split|split].
  - intros H.
    destruct v as [| | | | | |o|]; try (now cbn in H).
    unfold addRecordsSchema in H.
    rewrite SchemaFacts.safeParse_object in H. cbn [parse_shape] in H.
    rewrite SchemaFacts.parse_required_string in H.
    destruct (field o "app") eqn:A; try discriminate H.
    destruct (field o "records") eqn:R;
      try (cbn [safeParse] in H; discriminate H).
    rewrite SchemaFacts.safeParse_array, SchemaFacts.parse_items_records in H.
    destruct (forallb is_object items) eqn:F; [|discriminate H].
    cbn [option_map] in H.
    rewrite (K o "app"), (K o "records") in H by congruence.
    injection H as <-. now exists o, s, items.
  - intros (o & app & records & -> & A & R & F & ->).
    unfold addRecordsSchema.
    rewrite SchemaFacts.safeParse_object. cbn [parse_shape].
    rewrite SchemaFacts.parse_required_string, A, R.
    rewrite SchemaFacts.safeParse_array, SchemaFacts.parse_items_records, F.
    cbn [option_map].
    now rewrite (K o "app"), (K o "records") by congruence.
  - intros record H. cbn [as_record].
    now rewrite (SchemaFacts.without_proto_id record H).
  - intros record. cbn [as_record opt]. split.
    + apply SchemaFacts.field_absent, SchemaFacts.without_proto_clean.
    + intros k N. induction record as [|[k' x] r IH]; [reflexivity|].
      cbn [without_proto field].
      destruct (String.eqb_spec k' "__proto__") as [->|N'].
      * destruct (String.eqb_spec "__proto__" k) as [E|_];
          [now destruct N | exact IH].
      * cbn [field]. now rewrite IH.
Qed.

(** An empty array of records; and a record with the key [__proto__]. *)
Lemma addRecordsSchema_accepts_any_array_of_objects_witness :
  safeParse addRecordsSchema
    (VObject [ ("app", VString "12"); ("records", VArray []) ])
  = Some (VObject [ ("app", VString "12"); ("records", VArray []) ])
  /\ safeParse addRecordsSchema
       (VObject
          [ ("app", VString "12");
            ("records",
              VArray [ VObject [ ("__proto__", VObject []);
                                 ("title", VString "a") ] ]) ])
     = Some (VObject
               [ ("app", VString "12");
                 ("records",
                   VArray [ VObject [ ("title", VString "a") ] ]) ]).
Proof.
  split.
  - apply (addRecordsSchema_accepts_any_array_of_objects
             (VObject [ ("app", VString "12"); ("records", VArray []) ])
             (VObject [ ("app", VString "12"); ("records", VArray []) ])).
    exists [ ("app", VString "12"); ("records", VArray []) ], "12", [].
    repeat split.
  - apply (addRecordsSchema_accepts_any_array_of_objects
             (VObject
                [ ("app", VString "12");
                  ("records",
                    VArray [ VObject [ ("__proto__", VObject []);
                                       ("title", VString "a") ] ]) ])
             (VObject
                [ ("app", VString "12");
                  ("records",
                    VArray [ VObject [ ("title", VString "a") ] ]) ])).
    exists [ ("app", VString "12");
             ("records",
               VArray [ VObject [ ("__proto__", VObject []);
                                  ("title", VString "a") ] ]) ],
      "12",
      [ VObject [ ("__proto__", VObject []); ("title", VString "a") ] ].
    repeat split.
Defined.

(** X17.  [getRecordsSchema] accepts exactly the objects whose [app] is a
    string, whose [query] is absent or a string, whose [fields] is absent
    or an array of strings, and whose [totalCount] is absent or a boolean;
    [null] is not taken as absent.  The four parameters pass unchanged and
    every other key is dropped. *)
Theorem getRecordsSchema_accepts (v : value) :
  ((exists out, safeParse getRecordsSchema v = Some out)
   <-> exists o app,
         v = VObject o
         /\ field o "app" = VString app
         /\ optional_string (field o "query") = true
         /\ optional_strings (field o "fields") = true
         /\ optional_boolean (field o "totalCount") = true)
  /\ forall out,
       safeParse getRecordsSchema v = Some out ->
       exists o parsed,
         v = VObject o
         /\ out = VObject parsed
         /\ (forall k, In k [ "app"; "query"; "fields"; "totalCount" ] ->
             field parsed k = field o k)
         /\ (forall k, has_key parsed k = true ->
             In k [ "app"; "query"; "fields"; "totalCount" ]).
Proof.
  split; [split|].
  - intros (out & H).
    destruct v as [| | | | | |o|]; try (now cbn in H).
    rewrite SchemaFacts.getRecords_parsed in H.
    destruct (field o "app") as [| | | |app| | |] eqn:A; try discriminate H.
    destruct (optional_string (field o "query")) eqn:Q;
      [|discriminate H].
    destruct (optional_strings (field o "fields")) eqn:F;
      [|discriminate H].
    destruct (optional_boolean (field o "totalCount")) eqn:T;
      [|discriminate H].
    exists o, app. split; [reflexivity|]. split; [exact A|].
    split; [exact Q|]. split; [exact F | exact T].
  - intros (o & app & -> & A & Q & F & T).
    rewrite SchemaFacts.getRecords_parsed, A, Q, F, T. cbn [andb]. eauto.
  - intros out H.
    destruct v as [| | | | | |o|]; try (now cbn in H).
    rewrite SchemaFacts.getRecords_parsed in H.
    destruct (field o "app") as [| | | |app| | |] eqn:A; try discriminate H.
    destruct (_ && _ && _)%bool; [|discriminate H].
    injection H as <-. exists o. eexists.
    split; [reflexivity|]. split; [reflexivity|]. split.
    + intros k [<- | [<- | [<- | [<- | []]]]];
        destruct (has_key o "query") eqn:Kq,
                 (has_key o "fields") eqn:Kf,
                 (has_key o "totalCount") eqn:Kt;
        cbn [List.app field String.eqb Ascii.eqb Bool.eqb];
        rewrite ?A; try reflexivity;
        symmetry; now apply SchemaFacts.field_absent.
    + intros k.
      destruct (has_key o "query"), (has_key o "fields"),
               (has_key o "totalCount");
        cbn [List.app has_key];
        repeat match goal with
        | |- context [String.eqb ?lit k] =>
            destruct (String.eqb_spec lit k) as [<-|_];
            [intros _; simpl; tauto|]
        end; simpl; discriminate.
Qed.

(** Parameters with an unknown key and a list of fields are accepted. *)
Lemma getRecordsSchema_accepts_witness :
  exists out,
    safeParse getRecordsSchema
      (VObject [ ("app", VString "12"); ("limit", VNumber 5);
                 ("fields", VArray [ VString "name" ]) ])
    = Some out.
Proof.
  destruct (getRecordsSchema_accepts
              (VObject [ ("app", VString "12"); ("limit", VNumber 5);
                         ("fields", VArray [ VString "name" ]) ]))
    as [[_ A] _].
  apply A.
  exists [ ("app", VString "12"); ("limit", VNumber 5);
           ("fields", VArray [ VString "name" ]) ], "12".
  repeat split.
Defined.

(* ================================================================== *)
(** ** From the parameters to the client *)
(* ================================================================== *)

Lemma getRecords_request P client o parsed :
  safeParse getRecordsSchema (VObject o) = Some parsed ->
  KintoneTools.getRecords P client parsed
  = KintoneTools.getRecords P client (records_request o).
Proof.
  intros H. destruct (SchemaFacts.getRecords_fields o parsed H) as [T B].
  unfold KintoneTools.getRecords.
  rewrite (T "app"), (T "query"), (T "fields"), (T "totalCount")
    by (simpl; tauto).
  cbn [records_request opt field String.eqb Ascii.eqb Bool.eqb].
  now destruct (field o "totalCount").
Qed.

(** X18.  When the parameters of [get-records] pass the schema, the client
    is asked with [app], [query] and [fields] as given and with
    [totalCount: true] unless the parameters say [false]; no other key of
    the parameters reaches the client.  A response gives
    [{success: true, data: {records, totalCount}}], a rejection with an
    [Error] gives [{success: false, error}] with its message. *)
Theorem get_records_asks_for_the_total_count
    (P : Platform) (client : KintoneRestAPIClient) (o : object)
    (parsed : value) :
  safeParse getRecordsSchema (VObject o) = Some parsed ->
  run_tool P client (VString "get-records") (VObject o)
  = Next (Some (KintoneTools.getRecords P client (records_request o)))
  /\ (field o "totalCount" <> VBool false ->
      opt (records_request o) "totalCount" = VBool true)
  /\ (forall response,
        record_getRecords client (records_request o) = inr (VObject response) ->
        KintoneTools.getRecords P client (records_request o)
        = VObject
            [ ("success", VBool true);
              ("data",
                VObject [ ("records", field response "records");
                          ("totalCount", field response "totalCount") ]) ])
  /\ (forall message,
        record_getRecords client (records_request o) = inl (Error message) ->
        KintoneTools.getRecords P client (records_request o)
        = VObject [ ("success", VBool false);
                    ("error", VString message) ]).
Proof.
  intros H. split.
  { cbn [run_tool String.eqb Ascii.eqb Bool.eqb]. unfold parse. rewrite H.
    cbn [bind]. now rewrite (getRecords_request P client o parsed H). }
  destruct (SchemaFacts.getRecords_fields o parsed H) as [_ B].
  assert (R : record_getRecords client
                (VObject
                   [ ("app", opt (records_request o) "app");
                     ("query", opt (records_request o) "query");
                     ("fields", opt (records_request o) "fields");
                     ("totalCount",
                       coalesce (opt (records_request o) "totalCount")
                                (VBool true)) ])
              = record_getRecords client (records_request o)).
  { f_equal. unfold records_request.
    cbn [opt field String.eqb Ascii.eqb Bool.eqb].
    now destruct (field o "totalCount"). }
  split; [|split].
  - cbn [records_request opt field String.eqb Ascii.eqb Bool.eqb].
    destruct (field o "totalCount") as [| |[|]| | | | |]; try reflexivity.
    congruence.
  - intros response E. unfold KintoneTools.getRecords. now rewrite R, E.
  - intros message E. unfold KintoneTools.getRecords. now rewrite R, E.
Qed.

Lemma get_records_asks_for_the_total_count_witness :
  run_tool Sample.platform Sample.the_client (VString "get-records")
    (VObject [ ("app", VString "12"); ("limit", VNumber 5) ])
  = Next (Some (VObject [ ("success", VBool false);
                          ("error", VString "network down") ]))
  /\ records_request [ ("app", VString "12"); ("limit", VNumber 5) ]
     = VObject [ ("app", VString "12"); ("query", VUndefined);
                 ("fields", VUndefined); ("totalCount", VBool true) ].
Proof.
  destruct (get_records_asks_for_the_total_count Sample.platform
              Sample.the_client
              [ ("app", VString "12"); ("limit", VNumber 5) ]
              (VObject [ ("app", VString "12") ]) eq_refl)
    as (R & _ & _ & F).
  split; [|reflexivity].
  rewrite R, (F "network down" eq_refl). reflexivity.
Defined.






(* ================================================================== *)
(** ** Direct invocations in the two entry points *)
(* ================================================================== *)

Lemma classify_DirectInvoke cc event :
  MultiEnvelope.classify cc event = Next DirectInvoke ->
  truthy (MultiEnvelope.gateway_tool_name cc) = false
  /\ (is_string (opt event "method") "tools/call"
      && truthy (opt event "params"))%bool = false
  /\ MultiEnvelope.has_operation event = false
  /\ and_startsWith (opt event "name") "MyKintoneTarget___" = Next false
  /\ and_startsWith (opt event "toolName") "MyKintoneTarget___" = Next false
  /\ and_startsWith (opt event "tool_name") "MyKintoneTarget___" = Next false
  /\ (truthy (opt event "httpMethod")
      || truthy (opt event "requestContext"))%bool = false.
Proof.
  unfold MultiEnvelope.classify.
  destruct (truthy (MultiEnvelope.gateway_tool_name cc)); [discriminate|].
  destruct (Nat.eqb _ 0); [discriminate|].
  destruct (is_string (opt event "method") "tools/call"
            && truthy (opt event "params"))%bool; [discriminate|].
  destruct (MultiEnvelope.has_operation event); [discriminate|].
  destruct (and_startsWith (opt event "name") _) as [[|]| |]; simpl;
    try discriminate.
  destruct (and_startsWith (opt event "toolName") _) as [[|]| |]; simpl;
    try discriminate.
  destruct (and_startsWith (opt event "tool_name") _) as [[|]| |]; simpl;
    try discriminate.
  destruct (_ && _)%bool; [discriminate|].
  destruct (truthy (opt event "httpMethod")
            || truthy (opt event "requestContext"))%bool; [discriminate|].
  intros _. now repeat split.
Qed.

(** X20.  A direct invocation with a tool name and parameters is answered
    alike by the two entry points: the same bare object, for a tool that
    ran, an unsupported tool, rejected parameters, a missing configuration
    or a client that cannot be made.  The conditions: [index.ts] takes the event as a direct
    invocation, the context carries no gateway tool name, the parameters
    are truthy, and the tool name, after the family prefix, is neither empty
    nor an inherited name. *)
Theorem direct_invocations_are_answered_alike
    (P : Platform) (cc : value) (event : value) (name : string) :
  MultiEnvelope.classify cc event = Next DirectInvoke ->
  truthy (MultiEnvelope.official_tool_name cc) = false ->
  opt event "tool" = VString name ->
  truthy (opt event "params") = true ->
  without_family name <> "" ->
  existsb (String.eqb (without_family name)) Object_prototype_names = false ->
  MultiEnvelope.handler P cc event = Compact.handler P cc event.
Proof.
  intros C O T Q Ne Ni.
  destruct (classify_DirectInvoke cc event C)
    as (G & MQ & Ho & An & At & Au & Hh).
  assert (M : is_string (opt event "method") "tools/call" = false).
  { rewrite Q, andb_true_r in MQ. exact MQ. }
  assert (Wm : MultiEnvelope.http_shaped cc event = Next false).
  { unfold MultiEnvelope.http_shaped. rewrite O, Ho, An. simpl.
    now rewrite Hh. }
  assert (Wc : truthy (Compact.gateway_tool_name cc) = false).
  { unfold MultiEnvelope.official_tool_name, or_else in O.
    unfold Compact.gateway_tool_name, Compact.customContext.
    destruct (truthy (opt (opt cc "custom") "bedrockAgentCoreToolName"))
      eqn:E; [| reflexivity].
    rewrite E in O. exact O. }
  assert (Bare : forall headers rpc st payload,
            answer P headers event false rpc st payload = payload).
  { intros. unfold answer. now rewrite M. }
  assert (Tt : truthy (VString (without_family name)) = true).
  { destruct (without_family name); [congruence | reflexivity]. }
  assert (Re : readable event)
    by exact (opt_readable event "params" (truthy_defined _ Q)).
  assert (Fn : is_function event = false)
    by exact (opt_not_function event "params" (truthy_defined _ Q)).
  assert (Rm : MultiEnvelope.resolve P cc event
               = Next (DirectInvoke, VString (without_family name),
                       opt event "params")).
  { unfold MultiEnvelope.resolve.
    rewrite (Object_keys_readable event Re). cbn [bind]. rewrite C.
    cbn [bind MultiEnvelope.extract]. rewrite T.
    unfold MultiEnvelope.log_request_details. rewrite An, At, Au.
    cbn [bind]. destruct (normalize_of_string name) as [-> _]. cbn [bind].
    now rewrite alias_of_string, Ni. }
  assert (Rc : Compact.resolve cc event
               = Next (DirectInvoke, VString (without_family name),
                       opt event "params")).
  { unfold Compact.resolve.
    rewrite (CompactFacts.compact_classify_readable cc event Re).
    fold (Compact.gateway_tool_name cc). rewrite Wc, andb_false_r, MQ.
    cbn [Compact.extract bind]. rewrite T.
    destruct (normalize_of_string name) as [_ ->]. cbn [bind].
    unfold or_else. now rewrite Q. }
  assert (Caught : forall e,
            MultiEnvelope.try_block P cc event = Throw e ->
            Compact.try_block P cc event = Throw e ->
            MultiEnvelope.handler P cc event = Compact.handler P cc event).
  { intros e Tm Tc.
    rewrite (MultiEnvelopeRender.caught P cc event false e Re Fn
               (or_intror Wm) Tm).
    rewrite (CompactRender.compact_caught P cc event e Re Tc), Wc.
    now rewrite !Bare. }
  destruct (getKintoneConfig P) as [config|r|e] eqn:Gc;
    [ | now apply getKintoneConfig_not_Return in Gc
      | apply (Caught e);
        [ unfold MultiEnvelope.try_block | unfold Compact.try_block ];
        now rewrite Gc ].
  destruct (createKintoneClient P config) as [client|r|e] eqn:K;
    [ | now apply createKintoneClient_not_Return in K
      | apply (Caught e);
        [ unfold MultiEnvelope.try_block | unfold Compact.try_block ];
        rewrite Gc; cbn [bind]; now rewrite K ].
  assert (Sm : reaches_switch P (MultiEnvelope.resolve P cc event)
                 DirectInvoke client
                 (VString (without_family name)) (opt event "params"))
    by (exists config; now repeat split).
  assert (Sc : reaches_switch P (Compact.resolve cc event)
                 DirectInvoke client
                 (VString (without_family name)) (opt event "params"))
    by (exists config; now repeat split).
  destruct (run_tool_kinds P client
              (VString (without_family name)) (opt event "params"))
    as [(result & Run & _) | [Run | (sc & Run)]].
  - destruct (MultiEnvelopeSwitch.tool_ran _ _ _ _ _ _ _ _ Sm Fn Run)
      as (w & W & _ & ->).
    rewrite (CompactSwitch.compact_tool_ran _ _ _ _ _ _ _ _ Re Sc Run).
    rewrite Wm in W. injection W as <-. cbn [gateway_kind].
    now rewrite !Bare.
  - destruct (MultiEnvelopeSwitch.no_case _ _ _ _ _ _ _ Sm Fn Run)
      as (w & W & _ & ->).
    rewrite (CompactSwitch.compact_no_case _ _ _ _ _ _ _ Re Sc Run).
    rewrite Wm in W. injection W as <-. cbn [gateway_kind].
    now rewrite !Bare.
  - destruct (MultiEnvelopeSwitch.case_threw _ _ _ _ _ _ _ _ Sm Fn Run)
      as (w & W & _ & ->).
    rewrite (CompactSwitch.compact_case_threw _ _ _ _ _ _ _ _ Re Sc Run).
    rewrite Wm in W. injection W as <-. cbn [gateway_kind].
    now rewrite !Bare.
Qed.

Lemma direct_invocations_are_answered_alike_witness :
  MultiEnvelope.handler Sample.platform VUndefined
    (VObject [ ("tool", VString "kintone-get-app");
      ("params", VObject [ ("id", VString "7") ]) ])
  = Compact.handler Sample.platform VUndefined
      (VObject [ ("tool", VString "kintone-get-app");
        ("params", VObject [ ("id", VString "7") ]) ]).
Proof.
  apply (direct_invocations_are_answered_alike Sample.platform VUndefined
           (VObject [ ("tool", VString "kintone-get-app");
             ("params", VObject [ ("id", VString "7") ]) ])
           "kintone-get-app");
    try reflexivity.
  discriminate.
Defined.

(* ================================================================== *)
(** ** The tools and the client *)
(* ================================================================== *)

Lemma attempt_success P call wrap fallback :
  opt (KintoneTools.attempt P call wrap fallback) "success" = VBool true
  <-> exists response, call = inr response
                       /\ forall e, wrap response <> Throw e.
Proof.
  unfold KintoneTools.attempt, KintoneTools.succeeded, KintoneTools.failed.
  split.
  - destruct call as [e|response]; [discriminate|].
    intros H. exists response. split; [reflexivity|].
    intros e E. now rewrite E in H.
  - intros (response & -> & W).
    destruct (wrap response) as [?|?|e]; try reflexivity.
    now destruct (W e).
Qed.

(** X21.  A tool reports success exactly when the client resolved with a
    response the tool can read: [getApp] passes any resolved response on,
    the other four read a property of it, so a [null] or [undefined]
    response is a failure like a rejection. *)
Theorem tool_succeeds_exactly_when_the_client_answers
    (P : Platform) (client : KintoneRestAPIClient) (params : value) :
  (opt (KintoneTools.getApp P client params) "success" = VBool true
   <-> exists response,
         app_getApp client (VObject [ ("id", opt params "id") ])
         = inr response)
  /\ (opt (KintoneTools.getApps P client) "success" = VBool true
      <-> exists response,
            app_getApps client (VObject []) = inr response
            /\ readable response)
  /\ (opt (KintoneTools.getFormFields P client params) "success" = VBool true
      <-> exists response,
            app_getFormFields client (VObject [ ("app", opt params "id") ])
            = inr response
            /\ readable response)
  /\ (opt (KintoneTools.addRecords P client params) "success" = VBool true
      <-> exists response,
            record_addRecords client
              (VObject [ ("app", opt params "app");
                         ("records", opt params "records") ])
            = inr response
            /\ readable response)
  /\ (opt (KintoneTools.getRecords P client params) "success" = VBool true
      <-> exists response,
            record_getRecords client
              (VObject [ ("app", opt params "app");
                         ("query", opt params "query");
                         ("fields", opt params "fields");
                         ("totalCount",
                           coalesce (opt params "totalCount") (VBool true)) ])
            = inr response
            /\ readable response).
Proof.
  unfold KintoneTools.getApp, KintoneTools.getApps,
    KintoneTools.getFormFields, KintoneTools.addRecords,
    KintoneTools.getRecords.
  rewrite !attempt_success.
  split; [| repeat split].
  - split.
    + intros (response & C & _). now exists response.
    + intros (response & C). exists response. split; [exact C | discriminate].
  - intros (response & C & W). exists response. split; [exact C|].
    destruct (readable_dec response) as [R|R]; [exact R|].
    exfalso. apply (W (TypeError "apps")).
    now rewrite (prop_unreadable _ _ R).
  - intros (response & C & R). exists response. split; [exact C|].
    intros e. now rewrite (prop_readable _ _ R).
  - intros (response & C & W). exists response. split; [exact C|].
    destruct (readable_dec response) as [R|R]; [exact R|].
    exfalso. apply (W (TypeError "properties")).
    now rewrite (prop_unreadable _ _ R).
  - intros (response & C & R). exists response. split; [exact C|].
    intros e. now rewrite (prop_readable _ _ R).
  - intros (response & C & W). exists response. split; [exact C|].
    destruct (readable_dec response) as [R|R]; [exact R|].
    exfalso. apply (W (TypeError "ids")).
    now rewrite (prop_unreadable _ _ R).
  - intros (response & C & R). exists response. split; [exact C|].
    intros e. now rewrite !(prop_readable _ _ R).
  - intros (response & C & W). exists response. split; [exact C|].
    destruct (readable_dec response) as [R|R]; [exact R|].
    exfalso. apply (W (TypeError "records")).
    now rewrite (prop_unreadable _ _ R).
  - intros (response & C & R). exists response. split; [exact C|].
    intros e. now rewrite !(prop_readable _ _ R).
Qed.
